(** * Pattern Detector V8.0: the pattern-detection module

    A shallow embedding of [pattern_detectors.py]: the volume analyser
    [analyze_volume_pattern], the four detectors [detect_inside_bar],
    [detect_flat_top], [detect_bull_flag], [detect_cup_handle] and the
    dispatcher [detect_pattern], followed by the properties of the
    specification that concern them.

    Conventions of the embedding.
    - Prices, volumes and scores are exact rationals ([Q]); rounding and
      overflow of binary floating point are not modelled.  The special
      values that numpy arithmetic produces instead of raising (division by
      zero, the mean or maximum of an empty slice) are modelled by [num].
    - A pandas frame is a [list bar]; [iloc] and [slice] follow Python's
      positional indexing with negative offsets, [iloc] raising
      [IndexError] out of range.
    - A Python dict of facts is a [gmap string value].
    - A function body is a statement of the monad [stmt]: it threads the
      two accumulators every function of the module carries (a running
      score and a fact map), and ends in a [return] or an exception.
    - The thresholds of the absent [config.py] are the fields of [config],
      a parameter of every function. *)

From Stdlib Require Import QArith Qminmax Qround Qabs.
From Stdlib Require Import ZifyBool Lia Lqa.
From stdpp Require Import gmap strings list fin_maps.

Local Open Scope Z_scope.

(** ** Numbers *)

Definition Qltb (x y : Q) : bool := negb (Qle_bool y x).

(** A numpy float without rounding: a rational, an infinity, or NaN. *)
Inductive num : Type :=
| Fin (q : Q)
| PInf
| NInf
| NaN.

Module Num.

Definition opp (a : num) : num :=
  match a with
  | Fin x => Fin (- x)
  | PInf => NInf
  | NInf => PInf
  | NaN => NaN
  end.

Definition add (a b : num) : num :=
  match a, b with
  | NaN, _ | _, NaN => NaN
  | Fin x, Fin y => Fin (x + y)
  | PInf, NInf | NInf, PInf => NaN
  | PInf, _ | _, PInf => PInf
  | NInf, _ | _, NInf => NInf
  end.

Definition sub (a b : num) : num := add a (opp b).

(** The infinity obtained from the sign [s] of a finite non-zero value
    times [PInf]. *)
Definition signed_inf (s : Q) : num :=
  if Qltb 0 s then PInf else if Qltb s 0 then NInf else NaN.

Definition mul (a b : num) : num :=
  match a, b with
  | NaN, _ | _, NaN => NaN
  | Fin x, Fin y => Fin (x * y)
  | Fin x, PInf | PInf, Fin x => signed_inf x
  | Fin x, NInf | NInf, Fin x => signed_inf (- x)
  | PInf, PInf | NInf, NInf => PInf
  | PInf, NInf | NInf, PInf => NInf
  end.

(** numpy division: a finite value divided by zero is an infinity of the
    sign of the numerator, and 0/0 is NaN; nothing is raised. *)
Definition div (a b : num) : num :=
  match a, b with
  | NaN, _ | _, NaN => NaN
  | Fin x, Fin y => if Qeq_bool y 0 then signed_inf x else Fin (x / y)
  | Fin _, (PInf | NInf) => Fin 0
  | PInf, Fin y => if Qltb y 0 then NInf else PInf
  | NInf, Fin y => if Qltb y 0 then PInf else NInf
  | (PInf | NInf), (PInf | NInf) => NaN
  end.

Definition abs (a : num) : num :=
  match a with
  | Fin x => Fin (Qabs x)
  | PInf | NInf => PInf
  | NaN => NaN
  end.

(** Comparisons: every comparison with NaN is false. *)
Definition ltb (a b : num) : bool :=
  match a, b with
  | NaN, _ | _, NaN => false
  | Fin x, Fin y => Qltb x y
  | NInf, (Fin _ | PInf) => true
  | Fin _, PInf => true
  | _, _ => false
  end.

Definition leb (a b : num) : bool :=
  match a, b with
  | NaN, _ | _, NaN => false
  | Fin x, Fin y => Qle_bool x y
  | NInf, _ => true
  | _, PInf => true
  | _, _ => false
  end.

Definition gtb (a b : num) : bool := ltb b a.
Definition geb (a b : num) : bool := leb b a.

Definition eqb (a b : num) : bool :=
  match a, b with
  | Fin x, Fin y => Qeq_bool x y
  | PInf, PInf | NInf, NInf => true
  | _, _ => false
  end.

End Num.

Declare Scope num_scope.
Delimit Scope num_scope with num.
Bind Scope num_scope with num.
Infix "+" := Num.add : num_scope.
Infix "-" := Num.sub : num_scope.
Infix "*" := Num.mul : num_scope.
Infix "/" := Num.div : num_scope.
Infix "<?" := Num.ltb : num_scope.
Infix "<=?" := Num.leb : num_scope.
Infix ">?" := Num.gtb : num_scope.
Infix ">=?" := Num.geb : num_scope.
Infix "=?" := Num.eqb : num_scope.
Coercion Fin : Q >-> num.

(** ** Series *)

Section Series.
Context {A : Type}.

Definition len (l : list A) : Z := Z.of_nat (length l).

(** [l.iloc[i]], [None] standing for [IndexError]. *)
Definition iloc (l : list A) (i : Z) : option A :=
  if 0 <=? i then l !! Z.to_nat i
  else if 0 <=? len l + i then l !! Z.to_nat (len l + i)
  else None.

(** The position a slice bound denotes in a sequence of length [n]. *)
Definition clamp (n : Z) (b : Z) : Z :=
  if b <? 0 then Z.max (n + b) 0 else Z.min b n.

(** [l.iloc[start:stop]]; [None] is an omitted bound. *)
Definition slice (l : list A) (start stop : option Z) : list A :=
  let n := len l in
  let a := from_option (clamp n) 0 start in
  let b := from_option (clamp n) n stop in
  take (Z.to_nat (b - a)) (drop (Z.to_nat a) l).

(** [l.tail(n)]: pandas returns the empty frame for [n = 0] and
    [l.iloc[-n:]] otherwise. *)
Definition tail (n : Z) (l : list A) : list A :=
  if n =? 0 then [] else slice l (Some (- n)) None.

End Series.

Definition Qsum (l : list Q) : Q := foldr Qplus 0%Q l.

(** [Series.mean()]: NaN on an empty series. *)
Definition mean (l : list Q) : num :=
  match l with
  | [] => NaN
  | _ => Fin (Qsum l / inject_Z (len l))
  end.

(** [Series.max()] and [Series.min()]: NaN on an empty series. *)
Definition series_max (l : list Q) : num :=
  match l with
  | [] => NaN
  | x :: t => Fin (foldl Qmax x t)
  end.

Definition series_min (l : list Q) : num :=
  match l with
  | [] => NaN
  | x :: t => Fin (foldl Qmin x t)
  end.

(** [Series.rolling(3, center=True).f().dropna()]: the windows of three
    consecutive values; the two end positions, whose window is short, are
    dropped. *)
Fixpoint rolling3 (f : Q -> Q -> Q) (l : list Q) : list Q :=
  match l with
  | a :: (b :: c :: _) as t => f (f a b) c :: rolling3 f t
  | _ => []
  end.

(** [Series.ewm(span=span).mean()], pandas' default [adjust=True]: the
    average of the samples so far weighted by powers of [1 - alpha],
    [alpha = 2 / (span + 1)]; [wsum] and [wtot] are the running weighted
    sum and the running total weight.  [Qred] writes a fraction in lowest
    terms and leaves its value as it is. *)
Fixpoint ewm_from (alpha wsum wtot : Q) (xs : list Q) : list Q :=
  match xs with
  | [] => []
  | x :: t =>
      let wsum' := Qred (x + (1 - alpha) * wsum)%Q in
      let wtot' := Qred (1 + (1 - alpha) * wtot)%Q in
      Qred (wsum' / wtot') :: ewm_from alpha wsum' wtot' t
  end.

Definition ewm_mean (span : Z) (xs : list Q) : list Q :=
  ewm_from (2 / (inject_Z span + 1))%Q 0%Q 0%Q xs.

(** Subtraction of two series with the same index. *)
Definition series_sub (xs ys : list Q) : list Q := zip_with Qminus xs ys.

(** ** Bars, facts, configuration *)

Record bar : Type := mkBar {
  Open : Q;
  High : Q;
  Low : Q;
  Close : Q;
  Volume : Q
}.

(** [data['High']] and the like. *)
Definition col (f : bar -> Q) (data : list bar) : list Q := f <$> data.

(** The values stored in a fact map.  [VFmt t x] is the f-string whose text
    is [t] with [x] formatted at its placeholder. *)
Inductive value : Type :=
| VBool (b : bool)
| VStr (s : string)
| VNum (x : num)
| VInt (n : Z)
| VFmt (template : string) (x : num)
| VSeries (xs : list Q).

Abbreviation facts := (gmap string value).

(** Truth value of [d.get(k)]. *)
Definition truthy (v : option value) : bool :=
  match v with
  | None => false
  | Some (VBool b) => b
  | Some (VStr s) => negb (String.eqb s "")
  | Some (VInt n) => negb (n =? 0)
  | Some (VNum (Fin q)) => negb (Qeq_bool q 0)
  | Some _ => true
  end.

(** The thresholds imported from [config.py]. *)
Record config : Type := mkConfig {
  (* PATTERN_THRESHOLDS["Inside Bar"] *)
  tight_consolidation : Q;
  good_consolidation : Q;
  moderate_consolidation : Q;
  tight_consolidation_weekly : Q;
  good_consolidation_weekly : Q;
  moderate_consolidation_weekly : Q;
  (* PATTERN_THRESHOLDS["Flat Top Breakout"] *)
  min_initial_gain : Q;
  min_pullback : Q;
  resistance_tolerance : Q;
  (* PATTERN_THRESHOLDS["Bull Flag"] *)
  min_flagpole_gain : Q;
  pullback_range : Q * Q;
  flag_tolerance : Q;
  (* PATTERN_THRESHOLDS["Cup Handle"] *)
  min_cup_depth : Q;
  max_cup_depth : Q;
  max_handle_depth : Q;
  (* VOLUME_THRESHOLDS *)
  vt_exceptional : Q;
  vt_strong : Q;
  vt_good : Q;
  (* VOLUME_SCORE_POINTS *)
  vp_exceptional : Q;
  vp_strong : Q;
  vp_good : Q;
  (* PATTERN_VOLUME_BONUS *)
  vb_bull_flag : Q;
  vb_cup_handle : Q;
  vb_flat_top : Q;
  vb_inside_bar : Q;
  MAX_CONFIDENCE_WITHOUT_VOLUME : Q;
  (* PATTERN_AGE_LIMITS['daily'] *)
  age_limit_flat_top : Q;
  age_limit_bull_flag : Q
}.

(** ** Statements *)

Inductive exn : Type := IndexError | TypeError.

Inductive result (A : Type) : Type :=
| Ok (a : A)
| Exn (e : exn).
Arguments Ok {A} a.
Arguments Exn {A} e.

(** The accumulators of a function body: [confidence] and [pattern_info]
    in a detector, [volume_score] and [volume_info] in the analyser. *)
Record state : Type := mkState { score : Q; info : facts }.

(** What a statement does: fall through with a value, return from the
    function, or raise. *)
Inductive outcome (R A : Type) : Type :=
| Next (a : A) (s : state)
| Return (r : R)
| Raise (e : exn) (s : state).
Arguments Next {R A} a s.
Arguments Return {R A} r.
Arguments Raise {R A} e s.

Definition stmt (R A : Type) : Type := state -> outcome R A.

Definition bind {R A B} (m : stmt R A) (k : A -> stmt R B) : stmt R B :=
  fun s =>
    match m s with
    | Next a s' => k a s'
    | Return r => Return r
    | Raise e s' => Raise e s'
    end.

#[global] Instance stmt_bind {R} : MBind (stmt R) := fun A B k m => bind m k.

Section Statements.
Context {R : Type}.

Definition skip : stmt R unit := fun s => Next tt s.

(** The value of an expression without effect. *)
Definition pure {A} (a : A) : stmt R A := fun s => Next a s.

(** [confidence += q] *)
Definition add (q : Q) : stmt R unit :=
  fun s => Next tt (mkState (score s + q) (info s)).

(** [confidence *= q] *)
Definition scale (q : Q) : stmt R unit :=
  fun s => Next tt (mkState (score s * q) (info s)).

(** [confidence = min(confidence, q)] *)
Definition cap (q : Q) : stmt R unit :=
  fun s => Next tt (mkState (Qmin (score s) q) (info s)).

(** [pattern_info[k] = v] *)
Definition fact (k : string) (v : value) : stmt R unit :=
  fun s => Next tt (mkState (score s) (<[k := v]> (info s))).

(** [pattern_info.update(m)] *)
Definition update (m : facts) : stmt R unit :=
  fun s => Next tt (mkState (score s) (m ∪ info s)).

Definition get_score : stmt R Q := fun s => Next (score s) s.
Definition get_info : stmt R facts := fun s => Next (info s) s.

(** [if b: m] *)
Definition when (b : bool) (m : stmt R unit) : stmt R unit :=
  if b then m else skip.

Definition raise {A} (e : exn) : stmt R A := fun s => Raise e s.

(** [return r] *)
Definition ret {A} (r : R) : stmt R A := fun _ => Return r.

(** [return f(confidence, pattern_info)] *)
Definition ret_of {A} (f : state -> R) : stmt R A := fun s => Return (f s).

(** An indexing that raises [IndexError] out of range. *)
Definition index {A} (o : option A) : stmt R A :=
  match o with
  | Some a => fun s => Next a s
  | None => raise IndexError
  end.

(** The use of a value that is [None] where a position is expected
    raises [TypeError]. *)
Definition position {A} (o : option A) : stmt R A :=
  match o with
  | Some a => fun s => Next a s
  | None => raise TypeError
  end.

(** The call of another function of the module. *)
Definition call {A} (r : result A) : stmt R A :=
  match r with
  | Ok a => fun s => Next a s
  | Exn e => raise e
  end.

(** [try: m / except: pass]: what [m] did before raising stays. *)
Definition try_pass (m : stmt R unit) : stmt R unit :=
  fun s =>
    match m s with
    | Raise _ s' => Next tt s'
    | o => o
    end.

End Statements.

(** [return confidence, pattern_info] *)
Definition ret_state {A} : stmt (Q * facts) A :=
  ret_of (fun s => (score s, info s)).

#[global] Instance result_bind : MBind result :=
  fun A B k r => match r with Ok a => k a | Exn e => Exn e end.

(** A function body starts from score 0 and an empty fact map and cannot
    fall off its end. *)
Definition run {R} (body : stmt R Empty_set) : result R :=
  match body (mkState 0 ∅) with
  | Next a _ => match a with end
  | Return r => Ok r
  | Raise e _ => Exn e
  end.

(** ** analyze_volume_pattern *)

Definition has_key (k : string) (m : facts) : bool :=
  bool_decide (is_Some (m !! k)).

(** [x // 2] *)
Definition floordiv2 (x : Q) : Q := inject_Z (Qfloor (x / 2)).

Definition analyze_volume_pattern (cfg : config) (data : list bar)
    (pattern_type : string) (pattern_info : facts) : result (Q * facts) :=
  run (
    if len data <? 20 then ret_state else
    let volume := col Volume data in
    let avg_volume_20 := mean (tail 20 volume) in
    current_volume ← index (iloc volume (-1));
    let recent_volume_5 := mean (tail 5 volume) in
    let volume_multiplier := (Fin current_volume / avg_volume_20)%num in
    let recent_multiplier := (recent_volume_5 / avg_volume_20)%num in
    fact "avg_volume_20" (VNum avg_volume_20);;
    fact "current_volume" (VNum current_volume);;
    fact "volume_multiplier" (VNum volume_multiplier);;
    fact "recent_multiplier" (VNum recent_multiplier);;
    (* Score based on volume thresholds *)
    (if (volume_multiplier >=? vt_exceptional cfg)%num then
       add (vp_exceptional cfg);;
       fact "exceptional_volume" (VBool true);;
       fact "volume_status"
            (VFmt "Exceptional Volume ({:.1f}x)" volume_multiplier)
     else if (volume_multiplier >=? vt_strong cfg)%num then
       add (vp_strong cfg);;
       fact "strong_volume" (VBool true);;
       fact "volume_status"
            (VFmt "Strong Volume ({:.1f}x)" volume_multiplier)
     else if (volume_multiplier >=? vt_good cfg)%num then
       add (vp_good cfg);;
       fact "good_volume" (VBool true);;
       fact "volume_status" (VFmt "Good Volume ({:.1f}x)" volume_multiplier)
     else
       fact "weak_volume" (VBool true);;
       fact "volume_status"
            (VFmt "Weak Volume ({:.1f}x)" volume_multiplier));;
    (* Pattern-specific volume analysis *)
    (if String.eqb pattern_type "Bull Flag" then
       when (has_key "flagpole_gain" pattern_info) (try_pass (
         let flagpole_start := Z.min 25 (len data - 10) in
         let flagpole_end := 15 in
         let flagpole_vol :=
           mean (slice volume (Some (- flagpole_start))
                       (Some (- flagpole_end))) in
         let flag_vol := mean (tail 15 volume) in
         if (flagpole_vol >? flag_vol * Fin 1.2)%num then
           add (vb_bull_flag cfg);;
           fact "flagpole_volume_pattern" (VBool true);;
           fact "flagpole_vol_ratio" (VNum (flagpole_vol / flag_vol))
         else if (flagpole_vol >? flag_vol * Fin 1.1)%num then
           add (floordiv2 (vb_bull_flag cfg));;
           fact "moderate_flagpole_volume" (VBool true);;
           fact "flagpole_vol_ratio" (VNum (flagpole_vol / flag_vol))
         else skip))
     else if String.eqb pattern_type "Cup Handle" then
       try_pass (
         let handle_days := Z.min 30 (len data / 3) in
         when (handle_days >? 5) (
           let cup_data := slice data None (Some (- handle_days)) in
           let handle_data := tail handle_days data in
           when (len cup_data >? 10) (
             let cup_volume := mean (col Volume cup_data) in
             let handle_volume := mean (col Volume handle_data) in
             if (handle_volume <? cup_volume * Fin 0.80)%num then
               add (vb_cup_handle cfg);;
               fact "significant_volume_dryup" (VBool true);;
               fact "handle_vol_ratio" (VNum (handle_volume / cup_volume))
             else if (handle_volume <? cup_volume * Fin 0.90)%num then
               add (vb_cup_handle cfg * 0.75);;
               fact "moderate_volume_dryup" (VBool true);;
               fact "handle_vol_ratio" (VNum (handle_volume / cup_volume))
             else skip)))
     else if String.eqb pattern_type "Flat Top Breakout" then
       let resistance_tests := tail 20 volume in
       let avg_resistance_volume := mean resistance_tests in
       if (Fin current_volume >? avg_resistance_volume * Fin 1.4)%num then
         add (vb_flat_top cfg);;
         fact "breakout_volume_surge" (VBool true);;
         fact "resistance_vol_ratio"
              (VNum (Fin current_volume / avg_resistance_volume))
       else if (Fin current_volume >? avg_resistance_volume * Fin 1.2)%num then
         add (vb_flat_top cfg * 0.75);;
         fact "moderate_breakout_volume" (VBool true);;
         fact "resistance_vol_ratio"
              (VNum (Fin current_volume / avg_resistance_volume))
       else skip
     else if String.eqb pattern_type "Inside Bar" then
       (* Prefer lower volume during consolidation *)
       (if (volume_multiplier <? Fin 0.8)%num then
          add (vb_inside_bar cfg);;
          fact "consolidation_volume" (VBool true)
        else if (volume_multiplier <? Fin 1.0)%num then
          add (vb_inside_bar cfg * 0.67);;
          fact "quiet_consolidation" (VBool true)
        else skip);;
       (* Check for volume expansion on potential breakout *)
       when (volume_multiplier >=? Fin 1.5)%num (
         add (vb_inside_bar cfg);;
         fact "breakout_volume_expansion" (VBool true))
     else skip);;
    (* Volume trend analysis *)
    let volume_trend := (mean (tail 5 volume) / mean (tail 20 volume))%num in
    (if (volume_trend >? Fin 1.1)%num then
       add 5;;
       fact "increasing_volume_trend" (VBool true)
     else if (volume_trend <? Fin 0.9)%num then
       add 5;;
       fact "decreasing_volume_trend" (VBool true)
     else skip);;
    ret_state).

(** [not (volume_info.get('good_volume') or
          volume_info.get('strong_volume') or
          volume_info.get('exceptional_volume'))] *)
Definition no_volume_confirmation (volume_info : facts) : bool :=
  negb (truthy (volume_info !! "good_volume")
        || truthy (volume_info !! "strong_volume")
        || truthy (volume_info !! "exceptional_volume")).

(** The volume-confirmation cap that closes every detector. *)
Definition volume_cap (cfg : config) (volume_info : facts)
  : stmt (Q * facts) unit :=
  when (no_volume_confirmation volume_info) (
    cap (MAX_CONFIDENCE_WITHOUT_VOLUME cfg);;
    fact "confidence_capped" (VStr "No volume confirmation")).

(** [next((i for i in offsets if test(i)), default)]; [None] when a test
    raises [IndexError]. *)
Fixpoint first_offset (test : Z -> option bool) (offsets : list Z)
    (default : Z) : option Z :=
  match offsets with
  | [] => Some default
  | i :: rest =>
      match test i with
      | None => None
      | Some true => Some i
      | Some false => first_offset test rest default
      end
  end.

(** [range(1, 11)] *)
Definition range_1_11 : list Z := [1; 2; 3; 4; 5; 6; 7; 8; 9; 10].

(** ** detect_inside_bar *)

(** The variables of the backward scan. *)
Record scan : Type := mkScan {
  mother_bar_idx : option Z;
  inside_bars_count : Z;
  inside_bar_indices : list Z
}.

Definition is_weekly (timeframe : string) : bool := String.eqb timeframe "1wk".

(** [range(-1, -7, -1)] weekly, [range(-1, -5, -1)] daily. *)
Definition max_lookback_range (timeframe : string) : list Z :=
  if is_weekly timeframe then [-1; -2; -3; -4; -5; -6] else [-1; -2; -3; -4].

Definition aging_threshold (timeframe : string) : Z :=
  if is_weekly timeframe then -8 else -6.

(** One iteration of the scan at offset [i]; the boolean is false when the
    iteration ends in [break]. *)
Definition scan_step (data : list bar) (i : Z) (st : scan) : scan * bool :=
  match iloc data i, iloc data (i - 1) with
  | Some current_bar, Some previous_bar =>
      (* Check if current bar is inside previous bar *)
      let is_inside :=
        Qle_bool (High current_bar) (High previous_bar)
        && Qle_bool (Low previous_bar) (Low current_bar)
        && Qltb (High current_bar) (High previous_bar)
        && Qltb (Low previous_bar) (Low current_bar) in
      (* Mother bar must be green, inside bar must be red *)
      let mother_is_green := Qltb (Open previous_bar) (Close previous_bar) in
      let inside_is_red := Qltb (Close current_bar) (Open current_bar) in
      if is_inside && mother_is_green && inside_is_red then
        if inside_bars_count st =? 0 then
          (* First inside bar found, previous bar is mother bar *)
          (mkScan (Some (i - 1)) 1 (inside_bar_indices st ++ [i]), true)
        else if inside_bars_count st =? 1 then
          match inside_bar_indices st with
          | first :: _ =>
              if i =? first - 1 then
                (* Second consecutive inside bar; max 2 inside bars *)
                (mkScan (mother_bar_idx st) 2 (inside_bar_indices st ++ [i]),
                 false)
              else (st, false)
          | [] => (st, false) (* IndexError, caught *)
          end
        else (st, false)
      else (st, false)
  | _, _ => (st, false) (* IndexError, caught *)
  end.

Fixpoint scan_loop (data : list bar) (offsets : list Z) (st : scan) : scan :=
  match offsets with
  | [] => st
  | i :: rest =>
      let '(st', continue) := scan_step data i st in
      if continue then scan_loop data rest st' else st'
  end.

(** The state of the scan when the [for] loop is left. *)
Definition scan_inside_bars (data : list bar) (timeframe : string) : scan :=
  scan_loop data (max_lookback_range timeframe) (mkScan None 0 []).

(** The two states in which the scan can end (see
    [scan_inside_bars_cases]): nothing found, or the latest bar inside the
    bar before it. *)
Definition scan_none : scan := mkScan None 0 [].
Definition scan_single : scan := mkScan (Some (-2)) 1 [-1].

Definition detect_inside_bar {MC} (cfg : config) (data : list bar)
    (macd_line signal_line histogram : list Q) (market_context : MC)
    (timeframe : string) : result (Q * facts) :=
  run (
    if len data <? 5 then ret_state else
    let weekly := is_weekly timeframe in
    fact "timeframe" (VStr (if weekly then "Weekly" else "Daily"));;
    let found := scan_inside_bars data timeframe in
    if inside_bars_count found =? 0 then ret_state else
    (* Get mother bar and inside bar(s) data *)
    mother_idx ← position (mother_bar_idx found);
    mother_bar ← index (iloc data mother_idx);
    latest_idx ← index (head (inside_bar_indices found));
    latest_inside_bar ← index (iloc data latest_idx);
    (* Validate color requirements one more time *)
    let mother_is_green := Qltb (Open mother_bar) (Close mother_bar) in
    let inside_is_red :=
      Qltb (Close latest_inside_bar) (Open latest_inside_bar) in
    if negb (mother_is_green && inside_is_red) then ret_state else
    (* Base confidence for pattern formation *)
    add (if weekly then 35 else 30);;
    fact "mother_bar_high" (VNum (High mother_bar));;
    fact "mother_bar_low" (VNum (Low mother_bar));;
    fact "inside_bar_high" (VNum (High latest_inside_bar));;
    fact "inside_bar_low" (VNum (Low latest_inside_bar));;
    fact "inside_bars_count" (VInt (inside_bars_count found));;
    fact "color_validated" (VBool true);;
    fact "mother_bar_color" (VStr "Green");;
    fact "inside_bar_color" (VStr "Red");;
    (* Bonus for proper color combination *)
    add 15;;
    fact "proper_color_combo" (VBool true);;
    (* Prefer single inside bar over double *)
    (if inside_bars_count found =? 1 then
       add 15;; fact "single_inside_bar" (VBool true)
     else
       add 10;; fact "double_inside_bar" (VBool true));;
    (* Calculate inside bar size relative to mother bar *)
    let mother_bar_range := (High mother_bar - Low mother_bar)%Q in
    let inside_bar_range :=
      (High latest_inside_bar - Low latest_inside_bar)%Q in
    when (Qltb 0 mother_bar_range) (
      let size_ratio := (Fin inside_bar_range / Fin mother_bar_range)%num in
      fact "size_ratio" (VFmt "{:.1%}" size_ratio);;
      let tight_threshold :=
        if weekly then tight_consolidation_weekly cfg
        else tight_consolidation cfg in
      let good_threshold :=
        if weekly then good_consolidation_weekly cfg
        else good_consolidation cfg in
      let moderate_threshold :=
        if weekly then moderate_consolidation_weekly cfg
        else moderate_consolidation cfg in
      if (size_ratio <? tight_threshold)%num then
        add 20;; fact "tight_consolidation" (VBool true)
      else if (size_ratio <? good_threshold)%num then
        add 15;; fact "good_consolidation" (VBool true)
      else if (size_ratio <? moderate_threshold)%num then
        add 10;; fact "moderate_consolidation" (VBool true)
      else add 5);;
    (* Check position within mother bar *)
    let mother_bar_midpoint := ((High mother_bar + Low mother_bar) / 2)%Q in
    let inside_bar_midpoint :=
      ((High latest_inside_bar + Low latest_inside_bar) / 2)%Q in
    let distance_from_middle :=
      (Num.abs (Fin (inside_bar_midpoint - mother_bar_midpoint))
       / Fin mother_bar_range)%num in
    (if (distance_from_middle <? Fin 0.25)%num then
       add 10;; fact "centered_inside_bar" (VBool true)
     else if (distance_from_middle <? Fin 0.35)%num then
       add 5;; fact "well_positioned" (VBool true)
     else skip);;
    (* Technical confirmation *)
    macd_last ← index (iloc macd_line (-1));
    signal_last ← index (iloc signal_line (-1));
    when (Qltb signal_last macd_last) (
      add 15;; fact "macd_bullish" (VBool true));;
    histogram_last ← index (iloc histogram (-1));
    histogram_back ← index (iloc histogram (-3));
    when (Qltb histogram_back histogram_last) (
      add 10;; fact "momentum_improving" (VBool true));;
    (* Current price should be near inside bar range for valid setup *)
    current_price ← index (iloc (col Close data) (-1));
    when (Qle_bool (Low latest_inside_bar * 0.98) current_price) (
      add 10;; fact "price_in_range" (VBool true));;
    (* Volume analysis *)
    pattern_info ← get_info;
    '(volume_score, volume_info) ←
      call (analyze_volume_pattern cfg data "Inside Bar" pattern_info);
    add volume_score;;
    update volume_info;;
    (* Apply volume confirmation cap *)
    volume_cap cfg volume_info;;
    (* Pattern age check - timeframe adjusted *)
    when (mother_idx <=? aging_threshold timeframe) (
      scale (if weekly then 0.7 else 0.8);;
      fact "pattern_aging" (VBool true);;
      fact "age_periods" (VInt (Z.abs mother_idx)));;
    ret_state).

(** ** detect_flat_top *)

(** The local quantities of [detect_flat_top] that depend on the bars
    alone. *)
Definition ft_ascent_start (data : list bar) : Z := Z.min 45 (len data - 15).
Definition ft_ascent_end : Z := 25.

Definition ft_start_price (data : list bar) : option Q :=
  iloc (col Close data) (- ft_ascent_start data).

Definition ft_peak_price (data : list bar) : num :=
  series_max (slice (col High data) (Some (- ft_ascent_start data))
                    (Some (- ft_ascent_end))).

Definition ft_initial_gain (data : list bar) (start_price : Q) : num :=
  ((ft_peak_price data - Fin start_price) / Fin start_price)%num.

Definition ft_descent_data (data : list bar) : list bar :=
  slice data (Some (- ft_ascent_end)) (Some (-10)).

Definition ft_descent_low (data : list bar) : num :=
  series_min (col Low (ft_descent_data data)).

Definition ft_pullback (data : list bar) : num :=
  ((ft_peak_price data - ft_descent_low data) / ft_peak_price data)%num.

(** [h >= resistance_level * thresholds['resistance_tolerance']] *)
Definition ft_at_resistance (cfg : config) (data : list bar) (h : Q) : bool :=
  (Fin h >=? ft_peak_price data * Fin (resistance_tolerance cfg))%num.

Definition ft_touches (cfg : config) (data : list bar) : Z :=
  len (List.filter (ft_at_resistance cfg data) (tail 20 (col High data))).

Definition ft_days_old (cfg : config) (data : list bar) : option Z :=
  first_offset
    (fun i => h ← iloc (col High data) (- i);
              Some (ft_at_resistance cfg data h))
    range_1_11 11.

(** The statements that score the shape: descending highs, higher lows,
    touches of the resistance. *)
Definition ft_shape (cfg : config) (data : list bar) : stmt (Q * facts) unit :=
  (* Check for descending highs *)
  let descent_highs := rolling3 Qmax (col High (ft_descent_data data)) in
  when (len descent_highs >=? 2) (
    last_high ← index (iloc descent_highs (-1));
    first_high ← index (iloc descent_highs 0);
    when (Qltb last_high (first_high * 0.97)) (
      add 20;; fact "descending_highs" (VBool true)));;
  (* Check for higher lows *)
  let current_lows := rolling3 Qmin (col Low (tail 15 data)) in
  when (len current_lows >=? 3) (
    last_low ← index (iloc current_lows (-1));
    first_low ← index (iloc current_lows 0);
    when (Qltb (first_low * 1.01) last_low) (
      add 25;; fact "higher_lows" (VBool true)));;
  let resistance_level := ft_peak_price data in
  let touches := ft_touches cfg data in
  when (touches >=? 2) (
    add 15;;
    fact "resistance_level" (VNum resistance_level);;
    fact "resistance_touches" (VInt touches)).

Definition detect_flat_top {MC} (cfg : config) (data : list bar)
    (macd_line signal_line histogram : list Q) (market_context : MC)
  : result (Q * facts) :=
  run (
    if len data <? 50 then ret_state else
    start_price ← index (ft_start_price data);
    let initial_gain := ft_initial_gain data start_price in
    if (initial_gain <? min_initial_gain cfg)%num then ret_state else
    add 25;;
    fact "initial_ascension" (VFmt "{:.1f}%" (initial_gain * Fin 100));;
    let descent_low := ft_descent_low data in
    if (ft_pullback data <? min_pullback cfg)%num then ret_state else
    ft_shape cfg data;;
    (* Age and invalidation checks *)
    current_price ← index (iloc (col Close data) (-1));
    days_old ← index (ft_days_old cfg data);
    if Qltb (age_limit_flat_top cfg) (inject_Z days_old) then
      ret_of (fun s =>
        ((score s * 0.5)%Q,
         <["days_old" := VInt days_old]>
           (<["pattern_stale" := VBool true]> (info s))))
    else
    if (Fin current_price <? descent_low * Fin 0.95)%num then
      ret (0%Q, <["break_reason" := VStr "Below support"]>
                  {["pattern_broken" := VBool true]})
    else
    (* Technical confirmation *)
    macd_last ← index (iloc macd_line (-1));
    signal_last ← index (iloc signal_line (-1));
    when (Qltb signal_last macd_last) (
      add 10;; fact "macd_bullish" (VBool true));;
    (* Volume analysis *)
    pattern_info ← get_info;
    '(volume_score, volume_info) ←
      call (analyze_volume_pattern cfg data "Flat Top Breakout" pattern_info);
    add volume_score;;
    update volume_info;;
    (* Apply volume confirmation cap *)
    volume_cap cfg volume_info;;
    ret_state).

(** ** detect_bull_flag *)

Definition bf_flagpole_start (data : list bar) : Z := Z.min 25 (len data - 10).
Definition bf_flagpole_end : Z := 15.

Definition bf_start_price (data : list bar) : option Q :=
  iloc (col Close data) (- bf_flagpole_start data).

Definition bf_peak_price (data : list bar) : num :=
  series_max (slice (col High data) (Some (- bf_flagpole_start data))
                    (Some (- bf_flagpole_end))).

Definition bf_flagpole_gain (data : list bar) (start_price : Q) : num :=
  ((bf_peak_price data - Fin start_price) / Fin start_price)%num.

Definition bf_flag_data (data : list bar) : list bar := tail 15 data.

Definition bf_flag_low (data : list bar) : num :=
  series_min (col Low (bf_flag_data data)).

Definition bf_flag_high (data : list bar) : num :=
  series_max (col High (bf_flag_data data)).

Definition bf_current_price (data : list bar) : option Q :=
  iloc (col Close data) (-1).

(** [current_price < flag_low * thresholds['flag_tolerance']] *)
Definition bf_below_flag_support (cfg : config) (data : list bar)
    (current_price : Q) : bool :=
  (Fin current_price <? bf_flag_low data * Fin (flag_tolerance cfg))%num.

Definition bf_days_old (data : list bar) : option Z :=
  first_offset
    (fun i => h ← iloc (col High data) (- i);
              Some (Fin h =? bf_flag_high data)%num)
    range_1_11 11.

Definition detect_bull_flag {MC} (cfg : config) (data : list bar)
    (macd_line signal_line histogram : list Q) (market_context : MC)
  : result (Q * facts) :=
  run (
    if len data <? 30 then ret_state else
    start_price ← index (bf_start_price data);
    let flagpole_gain := bf_flagpole_gain data start_price in
    if (flagpole_gain <? min_flagpole_gain cfg)%num then ret_state else
    add 25;;
    fact "flagpole_gain" (VFmt "{:.1f}%" (flagpole_gain * Fin 100));;
    flag_start ← index (iloc (col Close data) (- bf_flagpole_end));
    current_price ← index (bf_current_price data);
    let pullback :=
      ((Fin current_price - Fin flag_start) / Fin flag_start)%num in
    when ((Fin (pullback_range cfg).1 <=? pullback)%num
          && (pullback <=? Fin (pullback_range cfg).2)%num) (
      add 20;;
      fact "flag_pullback" (VFmt "{:.1f}%" (pullback * Fin 100));;
      fact "healthy_pullback" (VBool true));;
    (* Invalidation checks *)
    if bf_below_flag_support cfg data current_price then
      ret (0%Q, <["break_reason" := VStr "Below flag support"]>
                  {["pattern_broken" := VBool true]})
    else
    if Qltb current_price start_price then
      ret (0%Q, <["break_reason" := VStr "Below flagpole start"]>
                  {["pattern_broken" := VBool true]})
    else
    (* Age check *)
    let flag_high := bf_flag_high data in
    days_old ← index (bf_days_old data);
    if Qltb (age_limit_bull_flag cfg) (inject_Z days_old) then
      ret_of (fun s =>
        ((score s * 0.5)%Q,
         <["days_old" := VInt days_old]>
           (<["pattern_stale" := VBool true]> (info s))))
    else
    fact "days_since_high" (VInt days_old);;
    (* Technical confirmation *)
    macd_last ← index (iloc macd_line (-1));
    signal_last ← index (iloc signal_line (-1));
    when (Qltb signal_last macd_last) (
      add 15;; fact "macd_bullish" (VBool true));;
    histogram_last ← index (iloc histogram (-1));
    histogram_back ← index (iloc histogram (-3));
    when (Qltb histogram_back histogram_last) (
      add 10;; fact "momentum_recovering" (VBool true));;
    (* Volume analysis *)
    pattern_info ← get_info;
    '(volume_score, volume_info) ←
      call (analyze_volume_pattern cfg data "Bull Flag" pattern_info);
    add volume_score;;
    update volume_info;;
    (* Near breakout bonus *)
    when (Fin current_price >=? flag_high * Fin 0.95)%num (
      add 10;; fact "near_breakout" (VBool true));;
    (* Apply volume confirmation cap *)
    volume_cap cfg volume_info;;
    ret_state).

(** ** detect_cup_handle *)

Definition ch_max_lookback (data : list bar) : Z := Z.min 100 (len data - 3).

Definition ch_handle_days (data : list bar) : Z :=
  Z.min 30 (ch_max_lookback data / 3).

Definition ch_cup_data (data : list bar) : list bar :=
  if ch_handle_days data >? 0 then
    slice data (Some (- ch_max_lookback data)) (Some (- ch_handle_days data))
  else slice data (Some (- ch_max_lookback data)) None.

Definition ch_handle_data (data : list bar) : list bar :=
  if ch_handle_days data >? 0 then tail (ch_handle_days data) data
  else tail 5 data.

(** The body of [detect_cup_handle] from the length guard to the addition
    of the volume score: rejections, cup, handle, position, momentum,
    volume. *)
Definition ch_scoring (cfg : config) (data : list bar)
    (macd_line signal_line : list Q) : stmt (Q * facts) facts :=
  let handle_days := ch_handle_days data in
  let cup_data := ch_cup_data data in
  let handle_data := ch_handle_data data in
  if len cup_data <? 15 then ret_state else
  cup_start ← index (iloc (col Close cup_data) 0);
  let cup_bottom := series_min (col Low cup_data) in
  cup_right ← index (iloc (col Close cup_data) (-1));
  let rim := Qmax cup_start cup_right in
  let cup_depth := ((Fin rim - cup_bottom) / Fin rim)%num in
  if (cup_depth <? min_cup_depth cfg)%num
     || (cup_depth >? max_cup_depth cfg)%num then ret_state else
  if Qltb cup_right (cup_start * 0.75) then ret_state else
  add 25;;
  fact "cup_depth" (VFmt "{:.1f}%" (cup_depth * Fin 100));;
  (* Handle analysis *)
  (if handle_days >? 0 then
     let handle_low := series_min (col Low handle_data) in
     current_price ← index (iloc (col Close data) (-1));
     let handle_depth := ((Fin cup_right - handle_low) / Fin cup_right)%num in
     (if (handle_depth >? max_handle_depth cfg)%num then
        add 10;;
        fact "deep_handle" (VFmt "{:.1f}%" (handle_depth * Fin 100))
      else if (handle_depth <=? Fin 0.08)%num then
        add 20;;
        fact "perfect_handle" (VFmt "{:.1f}%" (handle_depth * Fin 100))
      else if (handle_depth <=? Fin 0.15)%num then
        add 15;;
        fact "good_handle" (VFmt "{:.1f}%" (handle_depth * Fin 100))
      else
        add 10;;
        fact "acceptable_handle" (VFmt "{:.1f}%" (handle_depth * Fin 100)));;
     (* Handle length analysis *)
     (if handle_days >? 25 then
        scale 0.8;;
        fact "long_handle" (VFmt "{} days" (Fin (inject_Z handle_days)))
      else if handle_days <=? 10 then
        add 10;;
        fact "short_handle" (VFmt "{} days" (Fin (inject_Z handle_days)))
      else if handle_days <=? 20 then
        add 5;;
        fact "medium_handle" (VFmt "{} days" (Fin (inject_Z handle_days)))
      else skip)
   else
     add 10;;
     fact "forming_handle" (VStr "Handle forming"));;
  (* Position analysis *)
  current_price ← index (iloc (col Close data) (-1));
  let breakout_level := Qmax cup_start cup_right in
  (if Qltb current_price (breakout_level * 0.70) then
     scale 0.7;; fact "far_from_rim" (VBool true)
   else add 5);;
  when (handle_days >? 0) (
    let handle_low := series_min (col Low handle_data) in
    when (Fin current_price <? handle_low * Fin 0.90)%num (
      scale 0.8;; fact "below_handle" (VBool true)));;
  (* Technical confirmation *)
  macd_last ← index (iloc macd_line (-1));
  signal_last ← index (iloc signal_line (-1));
  when (Qltb signal_last macd_last) (
    add 10;; fact "macd_bullish" (VBool true));;
  (* Volume analysis *)
  pattern_info ← get_info;
  '(volume_score, volume_info) ←
    call (analyze_volume_pattern cfg data "Cup Handle" pattern_info);
  add volume_score;;
  update volume_info;;
  pure volume_info.

Definition detect_cup_handle {MC} (cfg : config) (data : list bar)
    (macd_line signal_line histogram : list Q) (market_context : MC)
  : result (Q * facts) :=
  run (
    if len data <? 30 then ret_state else
    volume_info ← ch_scoring cfg data macd_line signal_line;
    confidence ← get_score;
    if Qltb confidence 35 then ret_state else
    (* Apply volume confirmation cap *)
    volume_cap cfg volume_info;;
    ret_state).

(** ** detect_pattern *)

Definition macd_of (data : list bar) : list Q :=
  series_sub (ewm_mean 12 (col Close data)) (ewm_mean 26 (col Close data)).

Definition signal_of (data : list bar) : list Q := ewm_mean 9 (macd_of data).

Definition histogram_of (data : list bar) : list Q :=
  series_sub (macd_of data) (signal_of data).

Definition detect_pattern {MC} (cfg : config) (data : list bar)
    (pattern_type : string) (market_context : MC) (timeframe : string)
  : result (bool * Q * facts) :=
  if len data <? 10 then Ok (false, 0%Q, ∅) else
  (* Calculate MACD components *)
  let macd_line := macd_of data in
  let signal_line := signal_of data in
  let histogram := histogram_of data in
  (* Route to appropriate pattern detector *)
  '(confidence, pattern_info) ←
    (if String.eqb pattern_type "Flat Top Breakout" then
       '(confidence, pattern_info) ←
         detect_flat_top cfg data macd_line signal_line histogram
                         market_context;
       Ok (Qmin confidence 100, pattern_info)
     else if String.eqb pattern_type "Bull Flag" then
       '(confidence, pattern_info) ←
         detect_bull_flag cfg data macd_line signal_line histogram
                          market_context;
       Ok (Qmin (confidence * 1.05) 100, pattern_info)
     else if String.eqb pattern_type "Cup Handle" then
       '(confidence, pattern_info) ←
         detect_cup_handle cfg data macd_line signal_line histogram
                           market_context;
       Ok (Qmin (confidence * 1.1) 100, pattern_info)
     else if String.eqb pattern_type "Inside Bar" then
       '(confidence, pattern_info) ←
         detect_inside_bar cfg data macd_line signal_line histogram
                           market_context timeframe;
       Ok (Qmin confidence 100, pattern_info)
     else Ok (0%Q, ∅));
  (* Add MACD data to pattern info for charting *)
  let pattern_info :=
    <["histogram" := VSeries histogram]>
      (<["signal_line" := VSeries signal_line]>
         (<["macd_line" := VSeries macd_line]> pattern_info)) in
  Ok (Qle_bool 55 confidence, confidence, pattern_info).

(** ** Specifications of statements *)

(** [keeps I K E m]: run from a state that satisfies the invariant [I],
    the statement [m] falls through to a state that satisfies [I], or
    returns a value that satisfies [K], or raises in a state that
    satisfies [E]. *)
Definition keeps {R A} (I : state -> Prop) (K : R -> Prop)
    (E : state -> Prop) (m : stmt R A) : Prop :=
  forall s, I s ->
    match m s with
    | Next _ s' => I s'
    | Return r => K r
    | Raise _ s' => E s'
    end.

Definition never : state -> Prop := fun _ => False.
Definition anyhow : state -> Prop := fun _ => True.

(** The points and bonuses of the configuration are not negative. *)
Definition config_nonneg (cfg : config) : Prop :=
  (0 <= vp_exceptional cfg /\ 0 <= vp_strong cfg /\ 0 <= vp_good cfg /\
   0 <= vb_bull_flag cfg /\ 0 <= vb_cup_handle cfg /\
   0 <= vb_flat_top cfg /\ 0 <= vb_inside_bar cfg /\
   0 <= MAX_CONFIDENCE_WITHOUT_VOLUME cfg)%Q.

(** The facts that [analyze_volume_pattern] can record. *)
Definition volume_keys : list string :=
  ["avg_volume_20"; "current_volume"; "volume_multiplier";
   "recent_multiplier"; "exceptional_volume"; "strong_volume";
   "good_volume"; "weak_volume"; "volume_status";
   "flagpole_volume_pattern"; "moderate_flagpole_volume";
   "flagpole_vol_ratio"; "significant_volume_dryup";
   "moderate_volume_dryup"; "handle_vol_ratio"; "breakout_volume_surge";
   "moderate_breakout_volume"; "resistance_vol_ratio";
   "consolidation_volume"; "quiet_consolidation";
   "breakout_volume_expansion"; "increasing_volume_trend";
   "decreasing_volume_trend"].

(** The invariants used below: the score is not negative (when [P]
    holds), the fact map lacks the key [k]. *)
Definition nonneg_if (P : Prop) : state -> Prop :=
  fun s => P -> (0 <= score s)%Q.

Definition nonneg_result (P : Prop) : Q * facts -> Prop :=
  fun r => P -> (0 <= r.1)%Q.

Definition lacks (k : string) : state -> Prop :=
  fun s => info s !! k = None.

Definition lacks_result (k : string) : Q * facts -> Prop :=
  fun r => r.2 !! k = None.

(** The facts that [ft_shape] can record. *)
Definition ft_shape_keys : list string :=
  ["descending_highs"; "higher_lows"; "resistance_level";
   "resistance_touches"].

(** ** Concrete inputs *)

(** A configuration on which the functions are evaluated; [config.py] is
    not among the sources, the values are representative. *)
Definition sample_config : config := {|
  tight_consolidation := 0.3;
  good_consolidation := 0.5;
  moderate_consolidation := 0.7;
  tight_consolidation_weekly := 0.4;
  good_consolidation_weekly := 0.6;
  moderate_consolidation_weekly := 0.8;
  min_initial_gain := 0.10;
  min_pullback := 0.08;
  resistance_tolerance := 0.98;
  min_flagpole_gain := 0.08;
  pullback_range := ((-0.15)%Q, 0.05%Q);
  flag_tolerance := 0.95;
  min_cup_depth := 0.08;
  max_cup_depth := 0.60;
  max_handle_depth := 0.25;
  vt_exceptional := 2.0;
  vt_strong := 1.5;
  vt_good := 1.3;
  vp_exceptional := 25;
  vp_strong := 20;
  vp_good := 15;
  vb_bull_flag := 15;
  vb_cup_handle := 20;
  vb_flat_top := 20;
  vb_inside_bar := 15;
  MAX_CONFIDENCE_WITHOUT_VOLUME := 70;
  age_limit_flat_top := 8;
  age_limit_bull_flag := 10
|}.

(** [n] identical quiet bars. *)
Definition quiet (n : nat) : list bar := replicate n (mkBar 10 11 9 10.5 1000).

(** Fifty bars for the flat top: a flat start, an ascent from a close of
    100 to a high of 120, a descent with the lows given by [descent], then
    ten bars that stay far below the peak and close at 90. *)
Definition flat_top_bars (descent : bar) : list bar :=
  replicate 16 (mkBar 100 101 99 100 1000)
  ++ replicate 9 (mkBar 110 120 109 118 1000)
  ++ replicate 15 descent
  ++ replicate 9 (mkBar 100 104 96 100 1000)
  ++ [mkBar 96 97 89 90 1000].

(** A descent to 100: a pullback of one sixth of the peak. *)
Definition stale_flat_top : list bar :=
  flat_top_bars (mkBar 110 112 100 105 1000).

(** A descent that stays at 115: a pullback of one twenty-fourth. *)
Definition shallow_flat_top : list bar :=
  flat_top_bars (mkBar 117 119 115 118 1000).

(** Thirty bars for the bull flag: a flat start closing at 100, a flagpole
    with highs at 112, a flag of fourteen bars [flag] and the latest bar
    [latest]. *)
Definition bull_flag_bars (flag latest : bar) : list bar :=
  replicate 11 (mkBar 100 101 99 100 1000)
  ++ replicate 4 (mkBar 104 112 103 110 1000)
  ++ replicate 14 flag
  ++ [latest].

(** A flag that drifts below the flagpole start and stays above 0.95 times
    its own low. *)
Definition sagging_flag : list bar :=
  bull_flag_bars (mkBar 98 99 97 98 1000) (mkBar 98 99 97 98 1000).

(** The same flag with a latest quote whose close, 90, is below 0.95 times
    the low of the flag. *)
Definition broken_flag : list bar :=
  bull_flag_bars (mkBar 98 99 97 98 1000) (mkBar 98 99 97 90 1000).

(** [sample_config] with another flag tolerance. *)
Definition with_flag_tolerance (t : Q) (cfg : config) : config := {|
  tight_consolidation := tight_consolidation cfg;
  good_consolidation := good_consolidation cfg;
  moderate_consolidation := moderate_consolidation cfg;
  tight_consolidation_weekly := tight_consolidation_weekly cfg;
  good_consolidation_weekly := good_consolidation_weekly cfg;
  moderate_consolidation_weekly := moderate_consolidation_weekly cfg;
  min_initial_gain := min_initial_gain cfg;
  min_pullback := min_pullback cfg;
  resistance_tolerance := resistance_tolerance cfg;
  min_flagpole_gain := min_flagpole_gain cfg;
  pullback_range := pullback_range cfg;
  flag_tolerance := t;
  min_cup_depth := min_cup_depth cfg;
  max_cup_depth := max_cup_depth cfg;
  max_handle_depth := max_handle_depth cfg;
  vt_exceptional := vt_exceptional cfg;
  vt_strong := vt_strong cfg;
  vt_good := vt_good cfg;
  vp_exceptional := vp_exceptional cfg;
  vp_strong := vp_strong cfg;
  vp_good := vp_good cfg;
  vb_bull_flag := vb_bull_flag cfg;
  vb_cup_handle := vb_cup_handle cfg;
  vb_flat_top := vb_flat_top cfg;
  vb_inside_bar := vb_inside_bar cfg;
  MAX_CONFIDENCE_WITHOUT_VOLUME := MAX_CONFIDENCE_WITHOUT_VOLUME cfg;
  age_limit_flat_top := age_limit_flat_top cfg;
  age_limit_bull_flag := age_limit_bull_flag cfg
|}.

(** A configuration that asks the close to stay 5% above the flag low. *)
Definition strict_config : config := with_flag_tolerance 1.05 sample_config.

(** Thirty bars for the cup and handle: a rim at 100, a bottom at 80, a
    right side back at 100 and a handle of nine bars that falls to 65. *)
Definition deep_handle_cup : list bar :=
  replicate 9 (mkBar 100 101 99 100 1000)
  ++ replicate 6 (mkBar 85 86 80 84 1000)
  ++ replicate 6 (mkBar 100 101 99 100 1000)
  ++ replicate 9 (mkBar 66 67 64 65 1000).

(** Twenty quiet bars, a green mother bar and two red bars inside it, the
    latest inside the one before. *)
Definition double_inside_bars : list bar :=
  quiet 20
  ++ [mkBar 10 12 9 11 1000; mkBar 11 11.8 9.2 10 1000;
      mkBar 10.5 11.5 9.5 10 1000].

(** Twenty quiet bars, a green mother bar and one red bar inside it. *)
Definition single_inside_bar : list bar :=
  quiet 20 ++ [mkBar 10 12 9 11 1000; mkBar 10.5 11.5 9.5 10 1000].

(** What the scoring statements of the cup and handle leave on
    [deep_handle_cup], with flat indicator series: the facts of the
    analyser and the accumulators. *)
Definition deep_handle_volume_info : facts :=
  Eval vm_compute in
    match ch_scoring sample_config deep_handle_cup [0%Q] [0%Q]
            (mkState 0 ∅) with
    | Next volume_info _ => volume_info
    | _ => ∅
    end.

Definition deep_handle_accrued : state :=
  Eval vm_compute in
    match ch_scoring sample_config deep_handle_cup [0%Q] [0%Q]
            (mkState 0 ∅) with
    | Next _ accrued => accrued
    | _ => mkState 0 ∅
    end.

(** What the inside-bar detector returns on [single_inside_bar], weekly,
    with flat indicator series. *)
Definition single_inside_bar_result : Q * facts :=
  Eval vm_compute in
    match detect_inside_bar sample_config single_inside_bar [0%Q] [0%Q]
            [0%Q; 0%Q; 0%Q] tt "1wk" with
    | Ok r => r
    | Exn _ => (0%Q, ∅)
    end.

(** ** Further definitions *)

(** [volume_multiplier] of [analyze_volume_pattern]: the latest volume
    over the mean of the last 20. *)
Definition volume_multiplier (data : list bar) (current_volume : Q) : num :=
  (Fin current_volume / mean (tail 20 (col Volume data)))%num.

(** A flag that is recorded as [True] when [b] holds and is absent
    otherwise. *)
Definition flag_if (b : bool) : option value :=
  if b then Some (VBool true) else None.

(** [bumps lo hi m]: the statement [m] falls through, and moves the score
    by an amount between [lo] and [hi]. *)
Definition bumps {R} (lo hi : Q) (m : stmt R unit) : Prop :=
  forall s, exists s',
    m s = Next tt s' /\ (score s + lo <= score s' <= score s + hi)%Q.

(** [lands lo hi body]: the body returns a score that differs from the
    score it starts with by an amount between [lo] and [hi]. *)
Definition lands (lo hi : Q) (body : stmt (Q * facts) Empty_set) : Prop :=
  forall s, exists r,
    body s = Return r /\ (score s + lo <= r.1 <= score s + hi)%Q.

(** The largest of the tier points, and of the pattern bonuses. *)
Definition max_tier_points (cfg : config) : Q :=
  Qmax (vp_exceptional cfg) (Qmax (vp_strong cfg) (vp_good cfg)).

Definition max_pattern_bonus (cfg : config) : Q :=
  Qmax (vb_bull_flag cfg)
       (Qmax (vb_cup_handle cfg) (Qmax (vb_flat_top cfg) (vb_inside_bar cfg))).

(** Twenty bars whose latest volume, 1900, is exactly twice the mean of
    the twenty, 950. *)
Definition surge_at_threshold : list bar :=
  replicate 19 (mkBar 10 11 9 10.5 900) ++ [mkBar 10 11 9 10.5 1900].

(** What a detector returns is either not capped or not above the
    ceiling. *)
Definition capped_ok (cfg : config) : Q * facts -> Prop :=
  fun r => r.2 !! "confidence_capped" = None
           \/ (r.1 <= MAX_CONFIDENCE_WITHOUT_VOLUME cfg)%Q.

(** A flag that holds above the flagpole start, near its high, on flat
    volume. *)
Definition rising_flag : list bar :=
  bull_flag_bars (mkBar 106 108 104 106 1000) (mkBar 106 108 104 106 1000).

(** What the bull-flag detector returns on [rising_flag] with rising
    indicator series. *)
Definition rising_flag_result : Q * facts :=
  Eval vm_compute in
    match detect_bull_flag sample_config rising_flag [1%Q] [0%Q]
            [0%Q; 0%Q; 1%Q] tt with
    | Ok r => r
    | Exn _ => (0%Q, ∅)
    end.

(** Ten quiet bars, a green mother bar and one red bar inside it, and
    what the dispatcher returns on them. *)
Definition short_inside_bar : list bar :=
  quiet 10 ++ [mkBar 10 12 9 11 1000; mkBar 10.5 11.5 9.5 10 1000].

Definition short_inside_bar_dispatched : bool * Q * facts :=
  Eval vm_compute in
    match detect_pattern sample_config short_inside_bar "Inside Bar" tt
            "daily" with
    | Ok r => r
    | Exn _ => (false, 0%Q, ∅)
    end.

(** The fact map of a hard reject. *)
Definition broken_facts (reason : string) : facts :=
  <["break_reason" := VStr reason]> {["pattern_broken" := VBool true]}.

(** The three kinds of result of the flat-top and bull-flag detectors:
    neither stale nor broken; stale, with the age recorded, above the
    limit and at most 11, and a confidence between [lo] and [hi]; broken
    (a [broken_facts] map with confidence 0). *)
Definition neither_stale_nor_broken : Q * facts -> Prop :=
  fun r => r.2 !! "pattern_stale" = None /\ r.2 !! "pattern_broken" = None.

Definition stale_result (limit lo hi : Q) : Q * facts -> Prop :=
  fun r => exists d,
    r.2 !! "pattern_stale" = Some (VBool true)
    /\ r.2 !! "days_old" = Some (VInt d)
    /\ (limit < inject_Z d)%Q /\ d <= 11
    /\ (lo <= r.1 <= hi)%Q
    /\ r.2 !! "pattern_broken" = None.

(** What the flat-top detector returns on [stale_flat_top]. *)
Definition stale_flat_top_result : Q * facts :=
  Eval vm_compute in
    match detect_flat_top sample_config stale_flat_top [] [] [] tt with
    | Ok r => r
    | Exn _ => (0%Q, ∅)
    end.

(** The only fact the inside-bar detector records when it finds no
    pattern: the timeframe label. *)
Definition timeframe_facts (timeframe : string) : facts :=
  {[ "timeframe" := VStr (if is_weekly timeframe then "Weekly" else "Daily") ]}.

(** The base score of an inside bar: 35 on weekly data, 30 on daily. *)
Definition ib_base (timeframe : string) : Q :=
  if is_weekly timeframe then 35%Q else 30%Q.

(** What a found inside bar records, and the least it scores. *)
Definition found_result (cfg : config) (timeframe : string)
    (latest mother : bar) : Q * facts -> Prop :=
  fun r =>
    (r.2 !! "inside_bars_count" = Some (VInt 1)
     /\ r.2 !! "single_inside_bar" = Some (VBool true)
     /\ r.2 !! "color_validated" = Some (VBool true)
     /\ r.2 !! "mother_bar_high" = Some (VNum (High mother))
     /\ r.2 !! "mother_bar_low" = Some (VNum (Low mother))
     /\ r.2 !! "inside_bar_high" = Some (VNum (High latest))
     /\ r.2 !! "inside_bar_low" = Some (VNum (Low latest)))
    /\ (config_nonneg cfg ->
        (Qmin (ib_base timeframe + 30) (MAX_CONFIDENCE_WITHOUT_VOLUME cfg)
         <= r.1)%Q).

(** A statement that always falls through to the next one: it neither
    returns nor raises. *)
Definition falls {R} (m : stmt R unit) : Prop :=
  forall s, exists s', m s = Next tt s'.

(** Where the handle-length facts of the cup and handle may appear: each
    one within its range of the number of bars. *)
Definition handle_label_ok (n : Z) (i : facts) : Prop :=
  (i !! "short_handle" = None \/ 30 <= n <= 35)
  /\ (i !! "medium_handle" = None \/ 36 <= n <= 65)
  /\ (i !! "long_handle" = None \/ 81 <= n).

(** The handle-length fact that the number of bars calls for. *)
Definition handle_label_for (data : list bar) (i : facts) : Prop :=
  let days := VFmt "{} days" (Fin (inject_Z (ch_handle_days data))) in
  (len data <= 35 -> i !! "short_handle" = Some days)
  /\ (36 <= len data <= 65 -> i !! "medium_handle" = Some days)
  /\ (81 <= len data -> i !! "long_handle" = Some days).

(** The age a bull flag records: the first of the offsets 1 to 10 whose
    high is the flag high, within the age limit. *)
Definition flag_age_ok (cfg : config) (data : list bar) (i : facts) : Prop :=
  forall v, i !! "days_since_high" = Some v ->
    exists d, v = VInt d /\ bf_days_old data = Some d
              /\ (inject_Z d <= age_limit_bull_flag cfg)%Q.

(** * Properties *)

(** ** Rational comparisons *)
Lemma Qltb_lt x y : Qltb x y = true <-> (x < y)%Q.
Proof.
  unfold Qltb. rewrite negb_true_iff. split.
  - intros H. apply Qnot_le_lt. intros Hle.
    apply Qle_bool_iff in Hle. congruence.
  - intros H. destruct (Qle_bool y x) eqn:E; [|reflexivity].
    apply Qle_bool_iff in E. exfalso. exact (Qlt_not_le _ _ H E).
Qed.

Lemma Qltb_ge x y : Qltb x y = false <-> (y <= x)%Q.
Proof.
  unfold Qltb. rewrite negb_false_iff. apply Qle_bool_iff.
Qed.


Lemma Qltb_asym x y : Qltb x y = true -> Qltb y x = false.
Proof.
  rewrite Qltb_lt, Qltb_ge. apply Qlt_le_weak.
Qed.

Lemma Qnonneg_const (n : positive) : (0 <= Z.pos n # 1)%Q.
Proof. unfold Qle. simpl. lia. Qed.

Lemma Qnonneg_add x y : (0 <= x -> 0 <= y -> 0 <= x + y)%Q.
Proof.
  intros Hx Hy. exact (Qplus_le_compat 0 x 0 y Hx Hy).
Qed.

Lemma Qnonneg_mul x y : (0 <= x -> 0 <= y -> 0 <= x * y)%Q.
Proof. apply Qmult_le_0_compat. Qed.

Lemma Qnonneg_min x y : (0 <= x -> 0 <= y -> 0 <= Qmin x y)%Q.
Proof. intros Hx Hy. now apply Q.min_glb. Qed.

Lemma Qnonneg_floordiv2 x : (0 <= x -> 0 <= floordiv2 x)%Q.
Proof.
  intros Hx. unfold floordiv2.
  assert (H : (0 <= x / 2)%Q).
  { apply Qle_shift_div_l; [reflexivity|]. now rewrite Qmult_0_l. }
  apply Qfloor_resp_le in H. change (Qfloor 0) with 0 in H.
  change 0%Q with (inject_Z 0). now rewrite <- Zle_Qle.
Qed.

(** ** Rules for statements *)

Section Rules.
Context {R : Type} (I : state -> Prop) (K : R -> Prop) (E : state -> Prop).

Lemma keeps_bind {A B} (m : stmt R A) (k : A -> stmt R B) :
  keeps I K E m -> (forall a, keeps I K E (k a)) -> keeps I K E (m ≫= k).
Proof.
  intros Hm Hk s Hs. specialize (Hm s Hs).
  unfold mbind, stmt_bind, bind. destruct (m s) as [a s'| |]; auto.
  now apply Hk.
Qed.

Lemma keeps_skip : keeps I K E skip.
Proof. now intros s Hs. Qed.

Lemma keeps_pure {A} (a : A) : keeps I K E (pure a).
Proof. now intros s Hs. Qed.

Lemma keeps_get_score {B} (k : Q -> stmt R B) :
  (forall c, keeps I K E (k c)) -> keeps I K E (get_score ≫= k).
Proof. intros Hk s Hs. now apply (Hk (score s)). Qed.

Lemma keeps_get_info {B} (k : facts -> stmt R B) :
  (forall i, keeps I K E (k i)) -> keeps I K E (get_info ≫= k).
Proof. intros Hk s Hs. now apply (Hk (info s)). Qed.

Lemma keeps_when (b : bool) (m : stmt R unit) :
  (b = true -> keeps I K E m) -> keeps I K E (when b m).
Proof. destruct b; intros H; [now apply H | apply keeps_skip]. Qed.

Lemma keeps_add q :
  (forall s, I s -> I (mkState (score s + q) (info s))) ->
  keeps I K E (add q).
Proof. intros H s Hs. now apply H. Qed.

Lemma keeps_scale q :
  (forall s, I s -> I (mkState (score s * q) (info s))) ->
  keeps I K E (scale q).
Proof. intros H s Hs. now apply H. Qed.

Lemma keeps_cap q :
  (forall s, I s -> I (mkState (Qmin (score s) q) (info s))) ->
  keeps I K E (cap q).
Proof. intros H s Hs. now apply H. Qed.

Lemma keeps_fact k v :
  (forall s, I s -> I (mkState (score s) (<[k := v]> (info s)))) ->
  keeps I K E (fact k v).
Proof. intros H s Hs. now apply H. Qed.

Lemma keeps_update m :
  (forall s, I s -> I (mkState (score s) (m ∪ info s))) ->
  keeps I K E (update m).
Proof. intros H s Hs. now apply H. Qed.

Lemma keeps_ret {A} r : K r -> keeps I K E (ret (A := A) r).
Proof. now intros H s Hs. Qed.

Lemma keeps_ret_of {A} f :
  (forall s, I s -> K (f s)) -> keeps I K E (ret_of (A := A) f).
Proof. intros H s Hs. now apply H. Qed.

(** An indexing that is in range. *)
Lemma keeps_index {A B} (o : option A) (k : A -> stmt R B) :
  is_Some o -> (forall a, o = Some a -> keeps I K E (k a)) ->
  keeps I K E (index o ≫= k).
Proof. intros [a ->] Hk s Hs. now apply (Hk a). Qed.

(** An indexing that may raise. *)
Lemma keeps_index_raise {A B} (o : option A) (k : A -> stmt R B) :
  (forall s, I s -> E s) -> (forall a, o = Some a -> keeps I K E (k a)) ->
  keeps I K E (index o ≫= k).
Proof.
  intros HE Hk s Hs. destruct o as [a|]; [now apply (Hk a)|].
  now apply HE.
Qed.

Lemma keeps_position {A B} (o : option A) (k : A -> stmt R B) :
  (forall s, I s -> E s) -> (forall a, o = Some a -> keeps I K E (k a)) ->
  keeps I K E (position o ≫= k).
Proof.
  intros HE Hk s Hs. destruct o as [a|]; [now apply (Hk a)|].
  now apply HE.
Qed.

Lemma keeps_position_some {A B} (o : option A) (k : A -> stmt R B) :
  is_Some o -> (forall a, o = Some a -> keeps I K E (k a)) ->
  keeps I K E (position o ≫= k).
Proof. intros [a ->] Hk s Hs. now apply (Hk a). Qed.

(** A call that returns a value satisfying [P]. *)
Lemma keeps_call {A B} (P : A -> Prop) (r : result A) (k : A -> stmt R B) :
  (exists a, r = Ok a /\ P a) -> (forall a, P a -> keeps I K E (k a)) ->
  keeps I K E (call r ≫= k).
Proof. intros (a & -> & Ha) Hk s Hs. now apply (Hk a). Qed.

(** A call that may raise. *)
Lemma keeps_call_raise {A B} (P : A -> Prop) (r : result A)
    (k : A -> stmt R B) :
  (forall s, I s -> E s) -> (forall a, r = Ok a -> P a) ->
  (forall a, P a -> keeps I K E (k a)) ->
  keeps I K E (call r ≫= k).
Proof.
  intros HE Hr Hk s Hs. destruct r as [a|e]; [|now apply HE].
  now apply (Hk a); [apply Hr|].
Qed.

Lemma keeps_try_pass (m : stmt R unit) :
  keeps I K I m -> keeps I K E (try_pass m).
Proof.
  intros Hm s Hs. specialize (Hm s Hs). unfold try_pass.
  now destruct (m s).
Qed.

End Rules.

(** The result of a body that keeps an invariant and does not raise. *)
Lemma run_keeps {R} (I : state -> Prop) (K : R -> Prop)
    (body : stmt R Empty_set) :
  keeps I K never body -> I (mkState 0 ∅) -> exists r, run body = Ok r /\ K r.
Proof.
  intros Hb H0. specialize (Hb _ H0). unfold run.
  destruct (body (mkState 0 ∅)) as [[]|r|]; [now exists r | destruct Hb].
Qed.

(** The result of a body that keeps an invariant, when it has one. *)
Lemma run_keeps_ok {R} (I : state -> Prop) (K : R -> Prop)
    (body : stmt R Empty_set) r :
  keeps I K anyhow body -> I (mkState 0 ∅) -> run body = Ok r -> K r.
Proof.
  intros Hb H0. specialize (Hb _ H0). unfold run.
  destruct (body (mkState 0 ∅)) as [[]|r'|]; [|discriminate].
  now intros [= ->].
Qed.

(** ** Running a body step by step *)

Section Steps.
Context {R A B : Type} (k : A -> stmt R B) (s : state).

Lemma step_next (m : stmt R A) a s' :
  m s = Next a s' -> (m ≫= k) s = k a s'.
Proof. intros H. unfold mbind, stmt_bind, bind. now rewrite H. Qed.

Lemma step_index (o : option A) a : o = Some a -> (index o ≫= k) s = k a s.
Proof. now intros ->. Qed.

End Steps.

Section UnitSteps.
Context {R B : Type} (k : unit -> stmt R B) (s : state).

Lemma step_add q : (add q ≫= k) s = k tt (mkState (score s + q) (info s)).
Proof. reflexivity. Qed.

Lemma step_fact key v :
  (fact key v ≫= k) s = k tt (mkState (score s) (<[key := v]> (info s))).
Proof. reflexivity. Qed.

End UnitSteps.

(** ** Series *)

Example iloc_latest : iloc [1; 2; 3] (-1) = Some 3.
Proof. reflexivity. Qed.

Example iloc_out_of_range :
  iloc [1; 2; 3] (-4) = None /\ iloc [1; 2; 3] 3 = None.
Proof. split; reflexivity. Qed.

Example slice_window : slice [1; 2; 3; 4; 5] (Some (-4)) (Some (-2)) = [2; 3].
Proof. reflexivity. Qed.

Example slice_clamped : slice [1; 2; 3] (Some (-5)) None = [1; 2; 3].
Proof. reflexivity. Qed.

Example tail_of_short :
  tail 5 [1; 2; 3] = [1; 2; 3] /\ tail 2 [1; 2; 3] = [2; 3].
Proof. split; reflexivity. Qed.

Example rolling3_max : rolling3 Qmax [1; 3; 2; 5]%Q = [3; 5]%Q.
Proof. reflexivity. Qed.

Example mean_of_none : mean [] = NaN.
Proof. reflexivity. Qed.

Example division_by_zero :
  (Fin 1 / Fin 0)%num = PInf /\ (Fin 0 / Fin 0)%num = NaN
  /\ (NaN <? Fin 1)%num = false /\ (NaN >=? Fin 1)%num = false.
Proof. repeat split. Qed.

Lemma len_col (f : bar -> Q) (data : list bar) : len (col f data) = len data.
Proof. unfold len, col. now rewrite length_fmap. Qed.

Lemma iloc_is_Some {A} (l : list A) (i : Z) :
  - len l <= i < len l -> is_Some (iloc l i).
Proof.
  unfold iloc, len. intros H.
  destruct (0 <=? i) eqn:Hi; [|destruct (0 <=? _ + i) eqn:Hj].
  - apply lookup_lt_is_Some. lia.
  - apply lookup_lt_is_Some. lia.
  - lia.
Qed.

Lemma first_offset_is_Some test offsets default :
  Forall (fun i => is_Some (test i)) offsets ->
  is_Some (first_offset test offsets default).
Proof.
  induction 1 as [|i rest [b Hb] _ IH]; simpl; [eauto|].
  rewrite Hb. destruct b; eauto.
Qed.

Lemma len_ewm_from alpha wsum wtot xs :
  len (ewm_from alpha wsum wtot xs) = len xs.
Proof.
  unfold len. f_equal. revert wsum wtot.
  induction xs as [|x t IH]; intros; simpl; [reflexivity|].
  now rewrite IH.
Qed.

Lemma len_ewm_mean span xs : len (ewm_mean span xs) = len xs.
Proof. apply len_ewm_from. Qed.

Lemma len_series_sub xs ys :
  len xs = len ys -> len (series_sub xs ys) = len xs.
Proof.
  unfold len, series_sub. intros H. rewrite length_zip_with. lia.
Qed.

Lemma len_macd_of data : len (macd_of data) = len data.
Proof.
  unfold macd_of. rewrite len_series_sub; rewrite !len_ewm_mean;
    [apply len_col | reflexivity].
Qed.

Lemma len_signal_of data : len (signal_of data) = len data.
Proof. unfold signal_of. rewrite len_ewm_mean. apply len_macd_of. Qed.

Lemma len_histogram_of data : len (histogram_of data) = len data.
Proof.
  unfold histogram_of. rewrite len_series_sub; [apply len_macd_of|].
  now rewrite len_macd_of, len_signal_of.
Qed.

Lemma iloc_col (f : bar -> Q) (data : list bar) (i : Z) :
  iloc (col f data) i = f <$> iloc data i.
Proof.
  unfold iloc. rewrite len_col. unfold col.
  destruct (0 <=? i); [apply list_lookup_fmap|].
  destruct (0 <=? len data + i); [apply list_lookup_fmap | reflexivity].
Qed.

(** The latest element is in every non-empty tail. *)
Lemma latest_in_tail {A} (l : list A) (n : Z) (x : A) :
  0 < n -> iloc l (-1) = Some x -> x ∈ tail n l.
Proof.
  intros Hn. unfold iloc, tail. change (0 <=? -1) with false. cbv iota.
  destruct (0 <=? len l + -1) eqn:Hlen; [|discriminate].
  destruct (n =? 0) eqn:Hn0; [lia|].
  intros Hx. unfold slice. cbn [from_option]. apply list_elem_of_lookup.
  unfold clamp, len in *. destruct (- n <? 0) eqn:Hneg; [|lia].
  exists (Z.to_nat (Z.of_nat (length l) + -1)
          - Z.to_nat (Z.max (Z.of_nat (length l) + - n) 0))%nat.
  rewrite lookup_take_lt by lia. rewrite lookup_drop, <- Hx. f_equal. lia.
Qed.

Lemma foldl_Qmin_le_init a t : (foldl Qmin a t <= a)%Q.
Proof.
  revert a. induction t as [|b t IH]; intros a; simpl; [apply Qle_refl|].
  eapply Qle_trans; [apply IH | apply Q.le_min_l].
Qed.

Lemma foldl_Qmin_le_elem a t x : x ∈ t -> (foldl Qmin a t <= x)%Q.
Proof.
  revert a. induction t as [|b t IH]; intros a Hin; simpl.
  - now apply elem_of_nil in Hin.
  - apply elem_of_cons in Hin as [-> | Hin]; [|now apply IH].
    eapply Qle_trans; [apply foldl_Qmin_le_init | apply Q.le_min_r].
Qed.

Lemma foldl_Qmin_lower bound a t :
  (bound <= a)%Q -> Forall (fun x => (bound <= x)%Q) t ->
  (bound <= foldl Qmin a t)%Q.
Proof.
  revert a. induction t as [|b t IH]; intros a Ha Ht; simpl; [exact Ha|].
  apply Forall_cons in Ht as [Hb Ht]. apply IH; [|exact Ht].
  now apply Q.min_glb.
Qed.

(** The minimum of a series that holds [x] is a value not above [x], and
    not below a lower bound of the series. *)
Lemma series_min_spec l x bound :
  x ∈ l -> Forall (fun y => (bound <= y)%Q) l ->
  exists m, series_min l = Fin m /\ (bound <= m <= x)%Q.
Proof.
  destruct l as [|a t]; intros Hin Hall; [now apply elem_of_nil in Hin|].
  exists (foldl Qmin a t). split; [reflexivity|].
  apply Forall_cons in Hall as [Ha Ht]. split.
  - now apply foldl_Qmin_lower.
  - apply elem_of_cons in Hin as [-> | Hin];
      [apply foldl_Qmin_le_init | now apply foldl_Qmin_le_elem].
Qed.

(** ** Stepping through a body *)

(** The side conditions of an indexing: in range when the body must not
    raise, none when it may. *)
Ltac in_range :=
  unfold ft_start_price, bf_start_price, bf_current_price, ft_ascent_start,
    bf_flagpole_start, bf_flagpole_end;
  solve
    [ apply iloc_is_Some; rewrite ?len_col; lia
    | eauto ].

Ltac keeps_step side :=
  lazymatch goal with
  | |- keeps _ _ _ (index _ ≫= _) =>
      first [ apply keeps_index_raise; [now unfold anyhow | intros ? ?]
            | apply keeps_index; [in_range | intros ? ?] ]
  | |- keeps _ _ _ (position _ ≫= _) =>
      first [ apply keeps_position; [now unfold anyhow | intros ? ?]
            | apply keeps_position_some; [now eauto | intros ? ?] ]
  | |- keeps _ _ _ (call _ ≫= _) => fail
  | |- keeps _ _ _ (get_score ≫= _) => apply keeps_get_score; intros ?
  | |- keeps _ _ _ (get_info ≫= _) => apply keeps_get_info; intros ?
  | |- keeps _ _ _ (_ ≫= _) => apply keeps_bind; [|intros ?]
  | |- keeps _ _ _ (if ?b then _ else _) => destruct b eqn:?
  | |- keeps _ _ _ (when _ _) => apply keeps_when; intros ?
  | |- keeps _ _ _ (try_pass _) => apply keeps_try_pass
  | |- keeps _ _ _ skip => apply keeps_skip
  | |- keeps _ _ _ (pure _) => apply keeps_pure
  | |- keeps _ _ _ (add _) => apply keeps_add; side
  | |- keeps _ _ _ (scale _) => apply keeps_scale; side
  | |- keeps _ _ _ (cap _) => apply keeps_cap; side
  | |- keeps _ _ _ (fact _ _) => apply keeps_fact; side
  | |- keeps _ _ _ (update _) => apply keeps_update; side
  | |- keeps _ _ _ ret_state => apply keeps_ret_of; side
  | |- keeps _ _ _ (ret_of _) => apply keeps_ret_of; side
  | |- keeps _ _ _ (ret _) => apply keeps_ret; side
  end.

Ltac keeps_steps side := repeat (cbv beta iota zeta; keeps_step side).

(** Rationals that are not negative. *)
Ltac q_nonneg :=
  solve
    [ assumption
    | apply Qnonneg_const
    | apply Qnonneg_floordiv2; q_nonneg
    | apply Qnonneg_add; q_nonneg
    | apply Qnonneg_mul; q_nonneg
    | apply Qnonneg_min; q_nonneg
    | match goal with |- (0 <= (if ?b then _ else _))%Q => destruct b end;
      q_nonneg
    | unfold Qle; simpl; lia ].

Ltac nonneg_inv :=
  unfold nonneg_if, nonneg_result, config_nonneg in *;
  intros;
  repeat match goal with
         | H : ?P -> _, H' : ?P |- _ => specialize (H H')
         end;
  cbn [score info fst snd] in *;
  repeat match goal with H : _ /\ _ |- _ => destruct H end;
  try q_nonneg.

(** ** analyze_volume_pattern *)

(** The analyser returns for every input, and its score is not negative
    when the points of the configuration are not. *)
Lemma analyze_volume_pattern_nonneg cfg data pattern_type pattern_info :
  exists r, analyze_volume_pattern cfg data pattern_type pattern_info = Ok r
            /\ nonneg_result (config_nonneg cfg) r.
Proof.
  unfold analyze_volume_pattern.
  apply (run_keeps (nonneg_if (config_nonneg cfg))); [|nonneg_inv].
  keeps_steps nonneg_inv.
Qed.

(** [info s] lacks [k] after a statement: the key written differs from
    [k], by a hypothesis at hand or by computation. *)
Ltac lacks_side :=
  unfold lacks, lacks_result; intros; cbn [info score fst snd] in *;
  first
    [ assumption
    | exact I
    | apply lookup_empty
    | rewrite lookup_insert_ne; [assumption | first [assumption | discriminate]]
    | apply lookup_union_None; split; assumption
    | idtac ].

(** The disequalities [k' <> k] for the keys [k'] of a list that [k] is
    not in. *)
Ltac split_keys H :=
  repeat match type of H with
         | Forall _ (_ :: _) =>
             let H1 := fresh "Hkey" in
             apply Forall_cons in H as [H1 H]
         end.

(** A given key is not in a given list of keys. *)
Ltac not_in_keys :=
  unfold volume_keys, ft_shape_keys;
  repeat (apply not_elem_of_cons; split; [discriminate|]);
  apply not_elem_of_nil.

Lemma keys_differ (k : string) (keys : list string) :
  k ∉ keys -> Forall (fun k' => k' <> k) keys.
Proof. intros Hk. apply Forall_forall. intros k' Hin ->. contradiction. Qed.

(** The analyser records no fact outside [volume_keys]. *)
Lemma analyze_volume_pattern_keys cfg data pattern_type pattern_info r k :
  k ∉ volume_keys ->
  analyze_volume_pattern cfg data pattern_type pattern_info = Ok r ->
  r.2 !! k = None.
Proof.
  intros Hk%keys_differ. unfold volume_keys in Hk. split_keys Hk.
  unfold analyze_volume_pattern.
  apply (run_keeps_ok (lacks k) (lacks_result k)); [|apply lookup_empty].
  keeps_steps lacks_side.
Qed.

(** ** The backward scan of detect_inside_bar *)

(** The first iteration, at the latest bar: either it breaks and leaves
    the variables as they were, or the bar before the latest is green and
    becomes the mother bar. *)
Lemma scan_step_first data :
  scan_step data (-1) scan_none = (scan_none, false)
  \/ (exists mother, iloc data (-2) = Some mother
                     /\ Qltb (Open mother) (Close mother) = true)
     /\ scan_step data (-1) scan_none = (scan_single, true).
Proof.
  unfold scan_step. change (-1 - 1) with (-2).
  destruct (iloc data (-1)) as [current_bar|]; [|now left].
  destruct (iloc data (-2)) as [previous_bar|]; [|now left].
  destruct (Qltb (Open previous_bar) (Close previous_bar)) eqn:Hgreen;
    [|left; now rewrite andb_false_r].
  match goal with
  | |- context [if ?c then _ else _] => destruct c
  end; [right | now left].
  split; [now exists previous_bar | reflexivity].
Qed.

(** The second iteration: the bar it examines is the mother bar of the
    first, which is green, so it is not a red inside bar and the loop
    breaks. *)
Lemma scan_step_second data mother :
  iloc data (-2) = Some mother ->
  Qltb (Open mother) (Close mother) = true ->
  scan_step data (-2) scan_single = (scan_single, false).
Proof.
  intros Hm Hgreen. unfold scan_step. rewrite Hm.
  destruct (iloc data (-2 - 1)) as [previous_bar|]; [|reflexivity].
  rewrite (Qltb_asym _ _ Hgreen), andb_false_r. reflexivity.
Qed.

Lemma scan_inside_bars_cases data timeframe :
  scan_inside_bars data timeframe = scan_none
  \/ scan_inside_bars data timeframe = scan_single.
Proof.
  unfold scan_inside_bars.
  assert (Hr : exists rest, max_lookback_range timeframe = -1 :: -2 :: rest).
  { unfold max_lookback_range. destruct (is_weekly timeframe); eauto. }
  destruct Hr as [rest ->].
  change (mkScan None 0 []) with scan_none. cbn [scan_loop].
  destruct (scan_step_first data) as [-> | [(mother & Hm & Hgreen) ->]];
    [now left|].
  rewrite (scan_step_second data mother Hm Hgreen). now right.
Qed.

(** ** The detectors return, with a score that is not negative *)

Ltac call_volume_nonneg :=
  lazymatch goal with
  | |- keeps (nonneg_if ?P) _ _
         (call (analyze_volume_pattern _ _ _ _) ≫= _) =>
      apply (keeps_call _ _ _ (nonneg_result P));
      [apply analyze_volume_pattern_nonneg | intros [? ?] ?]
  end.

Lemma detect_inside_bar_ok {MC} cfg data macd_line signal_line histogram
    (market_context : MC) timeframe :
  1 <= len macd_line -> 1 <= len signal_line -> 3 <= len histogram ->
  exists r, detect_inside_bar cfg data macd_line signal_line histogram
              market_context timeframe = Ok r
            /\ nonneg_result (config_nonneg cfg) r.
Proof.
  intros Hm Hs Hh. unfold detect_inside_bar, volume_cap.
  apply (run_keeps (nonneg_if (config_nonneg cfg))); [|nonneg_inv].
  destruct (len data <? 5) eqn:Hlen; [keeps_steps nonneg_inv|].
  keeps_step nonneg_inv; [keeps_steps nonneg_inv|].
  cbv zeta.
  destruct (scan_inside_bars_cases data timeframe) as [-> | ->];
    cbn [inside_bars_count mother_bar_idx inside_bar_indices
         scan_none scan_single head];
    [change (0 =? 0) with true | change (1 =? 0) with false];
    cbv iota; [keeps_steps nonneg_inv|].
  keeps_step nonneg_inv. simplify_eq.
  keeps_step nonneg_inv.
  keeps_step nonneg_inv. simplify_eq.
  keeps_steps nonneg_inv.
  call_volume_nonneg.
  keeps_steps nonneg_inv.
Qed.

Lemma ft_days_old_is_Some cfg data :
  10 <= len data -> is_Some (ft_days_old cfg data).
Proof.
  intros Hlen. apply first_offset_is_Some. unfold range_1_11.
  repeat constructor;
    match goal with
    | |- is_Some (iloc ?l ?i ≫= _) =>
        destruct (iloc_is_Some l i) as [h ->];
        [rewrite len_col; lia | simpl; eauto]
    end.
Qed.

Lemma bf_days_old_is_Some data : 10 <= len data -> is_Some (bf_days_old data).
Proof.
  intros Hlen. apply first_offset_is_Some. unfold range_1_11.
  repeat constructor;
    match goal with
    | |- is_Some (iloc ?l ?i ≫= _) =>
        destruct (iloc_is_Some l i) as [h ->];
        [rewrite len_col; lia | simpl; eauto]
    end.
Qed.

Lemma detect_flat_top_ok {MC} cfg data macd_line signal_line histogram
    (market_context : MC) :
  1 <= len macd_line -> 1 <= len signal_line ->
  exists r, detect_flat_top cfg data macd_line signal_line histogram
              market_context = Ok r
            /\ nonneg_result (config_nonneg cfg) r.
Proof.
  intros Hm Hs. unfold detect_flat_top, volume_cap, ft_shape.
  apply (run_keeps (nonneg_if (config_nonneg cfg))); [|nonneg_inv].
  destruct (len data <? 50) eqn:Hlen; [keeps_steps nonneg_inv|].
  pose proof (ft_days_old_is_Some cfg data ltac:(lia)) as Hd.
  keeps_steps nonneg_inv.
  call_volume_nonneg.
  keeps_steps nonneg_inv.
Qed.

Lemma detect_bull_flag_ok {MC} cfg data macd_line signal_line histogram
    (market_context : MC) :
  1 <= len macd_line -> 1 <= len signal_line -> 3 <= len histogram ->
  exists r, detect_bull_flag cfg data macd_line signal_line histogram
              market_context = Ok r
            /\ nonneg_result (config_nonneg cfg) r.
Proof.
  intros Hm Hs Hh. unfold detect_bull_flag, volume_cap.
  apply (run_keeps (nonneg_if (config_nonneg cfg))); [|nonneg_inv].
  destruct (len data <? 30) eqn:Hlen; [keeps_steps nonneg_inv|].
  pose proof (bf_days_old_is_Some data ltac:(lia)) as Hd.
  keeps_steps nonneg_inv.
  call_volume_nonneg.
  keeps_steps nonneg_inv.
Qed.

Lemma detect_cup_handle_ok {MC} cfg data macd_line signal_line histogram
    (market_context : MC) :
  1 <= len macd_line -> 1 <= len signal_line ->
  exists r, detect_cup_handle cfg data macd_line signal_line histogram
              market_context = Ok r
            /\ nonneg_result (config_nonneg cfg) r.
Proof.
  intros Hm Hs. unfold detect_cup_handle, ch_scoring, volume_cap.
  apply (run_keeps (nonneg_if (config_nonneg cfg))); [|nonneg_inv].
  destruct (len data <? 30) eqn:Hlen; [keeps_steps nonneg_inv|].
  keeps_steps nonneg_inv.
  call_volume_nonneg.
  keeps_steps nonneg_inv.
Qed.

(** ** detect_pattern *)

Lemma Qmin_100_range c : (0 <= c -> 0 <= Qmin c 100 <= 100)%Q.
Proof.
  intros Hc. split; [apply Qnonneg_min; [assumption | q_nonneg]|].
  apply Q.le_min_r.
Qed.

(** With at least 10 bars the dispatcher returns: the confidence is the
    detector's, rescaled and clamped from above, and the fact map is the
    detector's with the three indicator series added. *)
Lemma detect_pattern_ok {MC} cfg data pattern_type (market_context : MC)
    timeframe :
  10 <= len data ->
  exists confidence info,
    detect_pattern cfg data pattern_type market_context timeframe
    = Ok (Qle_bool 55 confidence, confidence,
          <["histogram" := VSeries (histogram_of data)]>
            (<["signal_line" := VSeries (signal_of data)]>
               (<["macd_line" := VSeries (macd_of data)]> info)))
    /\ (config_nonneg cfg -> (0 <= confidence <= 100)%Q).
Proof.
  intros Hlen. unfold detect_pattern.
  destruct (len data <? 10) eqn:Hguard; [lia|]. cbv zeta.
  pose proof (len_macd_of data) as Hm.
  pose proof (len_signal_of data) as Hs.
  pose proof (len_histogram_of data) as Hh.
  destruct (String.eqb pattern_type "Flat Top Breakout");
    [|destruct (String.eqb pattern_type "Bull Flag");
      [|destruct (String.eqb pattern_type "Cup Handle");
        [|destruct (String.eqb pattern_type "Inside Bar")]]].
  - destruct (detect_flat_top_ok cfg data (macd_of data) (signal_of data)
                (histogram_of data) market_context)
      as ([c i] & -> & Hc); [lia..|].
    exists (Qmin c 100), i. split; [reflexivity|].
    intros Hcfg. apply Qmin_100_range, Hc, Hcfg.
  - destruct (detect_bull_flag_ok cfg data (macd_of data) (signal_of data)
                (histogram_of data) market_context)
      as ([c i] & -> & Hc); [lia..|].
    exists (Qmin (c * 1.05) 100), i. split; [reflexivity|].
    intros Hcfg. apply Qmin_100_range, Qnonneg_mul; [apply Hc, Hcfg|q_nonneg].
  - destruct (detect_cup_handle_ok cfg data (macd_of data) (signal_of data)
                (histogram_of data) market_context)
      as ([c i] & -> & Hc); [lia..|].
    exists (Qmin (c * 1.1) 100), i. split; [reflexivity|].
    intros Hcfg. apply Qmin_100_range, Qnonneg_mul; [apply Hc, Hcfg|q_nonneg].
  - destruct (detect_inside_bar_ok cfg data (macd_of data) (signal_of data)
                (histogram_of data) market_context timeframe)
      as ([c i] & -> & Hc); [lia..|].
    exists (Qmin c 100), i. split; [reflexivity|].
    intros Hcfg. apply Qmin_100_range, Hc, Hcfg.
  - exists 0%Q, ∅. split; [reflexivity|]. intros _. split; q_nonneg.
Qed.

(** C1. Whatever the bars, the pattern name, the market context and the
    timeframe, the dispatcher returns, and the confidence it returns lies
    between 0 and 100, provided the points, the bonuses and the ceiling of
    the configuration are not negative: the upper bound is the clamp, the
    lower bound holds because a detector's score starts at 0 and is only
    increased, scaled by a positive factor, capped or reset to 0. *)
Theorem detect_pattern_confidence_range {MC} cfg data pattern_type
    (market_context : MC) timeframe :
  config_nonneg cfg ->
  exists detected confidence info,
    detect_pattern cfg data pattern_type market_context timeframe
    = Ok (detected, confidence, info)
    /\ (0 <= confidence <= 100)%Q.
Proof.
  intros Hcfg. destruct (Z.lt_ge_cases (len data) 10) as [Hshort | Hlong].
  - exists false, 0%Q, ∅. unfold detect_pattern.
    destruct (len data <? 10) eqn:Hguard; [|lia].
    split; [reflexivity | split; q_nonneg].
  - destruct (detect_pattern_ok cfg data pattern_type market_context
                timeframe Hlong) as (c & i & -> & Hc).
    eexists _, _, _. split; [reflexivity | exact (Hc Hcfg)].
Qed.

Lemma sample_config_nonneg : config_nonneg sample_config.
Proof. unfold config_nonneg. simpl. repeat split; q_nonneg. Qed.

Lemma detect_pattern_confidence_range_witness :
  config_nonneg sample_config
  /\ exists detected confidence info,
       detect_pattern sample_config (quiet 12) "Bull Flag" tt "daily"
       = Ok (detected, confidence, info)
       /\ (0 <= confidence <= 100)%Q.
Proof.
  split; [exact sample_config_nonneg|].
  apply detect_pattern_confidence_range. exact sample_config_nonneg.
Defined.

(** C7, as the code has it. With at least 10 bars the dispatcher returns a
    fact map that holds the three indicator series, whatever the pattern
    name, also a name that matches no detector. *)
Theorem detect_pattern_attaches_indicators {MC} cfg data pattern_type
    (market_context : MC) timeframe :
  10 <= len data ->
  exists detected confidence info,
    detect_pattern cfg data pattern_type market_context timeframe
    = Ok (detected, confidence, info)
    /\ info !! "macd_line" = Some (VSeries (macd_of data))
    /\ info !! "signal_line" = Some (VSeries (signal_of data))
    /\ info !! "histogram" = Some (VSeries (histogram_of data)).
Proof.
  intros Hlen.
  destruct (detect_pattern_ok cfg data pattern_type market_context
              timeframe Hlen) as (c & i & -> & _).
  eexists _, _, _. split; [reflexivity|].
  repeat split; rewrite ?lookup_insert_ne by discriminate;
    apply lookup_insert_eq.
Qed.

Lemma detect_pattern_attaches_indicators_witness :
  exists detected confidence info,
    detect_pattern sample_config (quiet 12) "Head and Shoulders" tt "daily"
    = Ok (detected, confidence, info)
    /\ info !! "macd_line" = Some (VSeries (macd_of (quiet 12)))
    /\ info !! "signal_line" = Some (VSeries (signal_of (quiet 12)))
    /\ info !! "histogram" = Some (VSeries (histogram_of (quiet 12))).
Proof.
  apply detect_pattern_attaches_indicators. vm_compute. discriminate.
Defined.

(** C7 as stated fails: on a series shorter than 10 bars the length guard
    returns an empty fact map, without the indicator series. *)
Lemma detect_pattern_guard_no_indicators :
  detect_pattern sample_config (quiet 9) "Inside Bar" tt "daily"
  = Ok (false, 0%Q, ∅)
  /\ (∅ : facts) !! "macd_line" = None.
Proof. split; reflexivity. Qed.

(** ** Length guards *)

Lemma detect_inside_bar_short {MC} cfg data macd_line signal_line histogram
    (market_context : MC) timeframe :
  len data < 5 ->
  detect_inside_bar cfg data macd_line signal_line histogram market_context
    timeframe = Ok (0%Q, ∅).
Proof.
  intros H. unfold detect_inside_bar.
  destruct (len data <? 5) eqn:Hguard; [reflexivity | lia].
Qed.

Lemma detect_bull_flag_short {MC} cfg data macd_line signal_line histogram
    (market_context : MC) :
  len data < 30 ->
  detect_bull_flag cfg data macd_line signal_line histogram market_context
  = Ok (0%Q, ∅).
Proof.
  intros H. unfold detect_bull_flag.
  destruct (len data <? 30) eqn:Hguard; [reflexivity | lia].
Qed.

Lemma detect_cup_handle_short {MC} cfg data macd_line signal_line histogram
    (market_context : MC) :
  len data < 30 ->
  detect_cup_handle cfg data macd_line signal_line histogram market_context
  = Ok (0%Q, ∅).
Proof.
  intros H. unfold detect_cup_handle.
  destruct (len data <? 30) eqn:Hguard; [reflexivity | lia].
Qed.

Lemma detect_flat_top_short {MC} cfg data macd_line signal_line histogram
    (market_context : MC) :
  len data < 50 ->
  detect_flat_top cfg data macd_line signal_line histogram market_context
  = Ok (0%Q, ∅).
Proof.
  intros H. unfold detect_flat_top.
  destruct (len data <? 50) eqn:Hguard; [reflexivity | lia].
Qed.

Lemma detect_pattern_short {MC} cfg data pattern_type (market_context : MC)
    timeframe :
  len data < 10 ->
  detect_pattern cfg data pattern_type market_context timeframe
  = Ok (false, 0%Q, ∅).
Proof.
  intros H. unfold detect_pattern.
  destruct (len data <? 10) eqn:Hguard; [reflexivity | lia].
Qed.

(** C2. A detector called with a series shorter than its minimum (5 bars
    for the inside bar, 30 for the bull flag, 30 for the cup and handle, 50
    for the flat top) returns confidence 0 and an empty fact map, whatever
    the indicator series, and the dispatcher called with fewer than 10 bars
    returns (false, 0, empty fact map). *)
Theorem short_series_rejected {MC} cfg data macd_line signal_line histogram
    pattern_type (market_context : MC) timeframe :
  (len data < 5 ->
   detect_inside_bar cfg data macd_line signal_line histogram market_context
     timeframe = Ok (0%Q, ∅))
  /\ (len data < 30 ->
      detect_bull_flag cfg data macd_line signal_line histogram
        market_context = Ok (0%Q, ∅))
  /\ (len data < 30 ->
      detect_cup_handle cfg data macd_line signal_line histogram
        market_context = Ok (0%Q, ∅))
  /\ (len data < 50 ->
      detect_flat_top cfg data macd_line signal_line histogram
        market_context = Ok (0%Q, ∅))
  /\ (len data < 10 ->
      detect_pattern cfg data pattern_type market_context timeframe
      = Ok (false, 0%Q, ∅)).
Proof.
  split; [|split; [|split; [|split]]].
  - apply detect_inside_bar_short.
  - apply detect_bull_flag_short.
  - apply detect_cup_handle_short.
  - apply detect_flat_top_short.
  - apply detect_pattern_short.
Qed.

Lemma short_series_rejected_witness :
  detect_inside_bar sample_config (quiet 4) [] [] [] tt "daily" = Ok (0%Q, ∅)
  /\ detect_bull_flag sample_config (quiet 4) [] [] [] tt = Ok (0%Q, ∅)
  /\ detect_cup_handle sample_config (quiet 4) [] [] [] tt = Ok (0%Q, ∅)
  /\ detect_flat_top sample_config (quiet 4) [] [] [] tt = Ok (0%Q, ∅)
  /\ detect_pattern sample_config (quiet 4) "Cup Handle" tt "daily"
     = Ok (false, 0%Q, ∅).
Proof.
  destruct (short_series_rejected sample_config (quiet 4) [] [] []
              "Cup Handle" tt "daily") as (H1 & H2 & H3 & H4 & H5).
  assert (Hlen : len (quiet 4) = 4) by reflexivity.
  split; [|split; [|split; [|split]]];
    [apply H1 | apply H2 | apply H3 | apply H4 | apply H5];
    rewrite Hlen; reflexivity.
Defined.

(** ** detect_flat_top *)

(** C6. With at least 50 bars, an initial gain that is not below the
    configured minimum and a pullback below the configured minimum,
    [detect_flat_top] returns confidence exactly 25 and a fact map whose
    only key is the initial-ascension fact. *)
Theorem flat_top_soft_reject {MC} cfg data macd_line signal_line histogram
    (market_context : MC) start_price :
  50 <= len data ->
  ft_start_price data = Some start_price ->
  (ft_initial_gain data start_price <? min_initial_gain cfg)%num = false ->
  (ft_pullback data <? min_pullback cfg)%num = true ->
  detect_flat_top cfg data macd_line signal_line histogram market_context
  = Ok (25%Q,
        {[ "initial_ascension" :=
             VFmt "{:.1f}%" (ft_initial_gain data start_price * Fin 100) ]}).
Proof.
  intros Hlen Hsp Hgain Hpull. unfold detect_flat_top, run.
  destruct (len data <? 50) eqn:Hguard; [lia|].
  rewrite (step_index _ _ _ _ Hsp). cbv zeta. rewrite Hgain.
  rewrite step_add, step_fact, Hpull. reflexivity.
Qed.

Lemma flat_top_soft_reject_witness :
  detect_flat_top sample_config shallow_flat_top [] [] [] tt
  = Ok (25%Q,
        {[ "initial_ascension" :=
             VFmt "{:.1f}%"
                  (ft_initial_gain shallow_flat_top 100 * Fin 100) ]}).
Proof.
  apply flat_top_soft_reject.
  - vm_compute. discriminate.
  - reflexivity.
  - reflexivity.
  - reflexivity.
Defined.

(** The shape statements neither return nor raise. *)
Lemma ft_shape_total cfg data s0 :
  exists s, ft_shape cfg data s0 = Next tt s.
Proof.
  assert (H : keeps (fun _ => True) (fun _ : Q * facts => False) never
                (ft_shape cfg data)).
  { unfold ft_shape. keeps_steps ltac:(intros; exact I). }
  specialize (H s0 I). destruct (ft_shape cfg data s0) as [[] s| |];
    [now exists s | destruct H..].
Qed.

(** They record no fact outside [ft_shape_keys]. *)
Lemma ft_shape_lacks cfg data k s0 s :
  k ∉ ft_shape_keys -> ft_shape cfg data s0 = Next tt s ->
  lacks k s0 -> lacks k s.
Proof.
  intros Hk%keys_differ Hrun H0. unfold ft_shape_keys in Hk. split_keys Hk.
  assert (H : keeps (lacks k) (fun _ : Q * facts => True) anyhow
                (ft_shape cfg data)).
  { unfold ft_shape. keeps_steps lacks_side. }
  specialize (H s0 H0). now rewrite Hrun in H.
Qed.

(** C3. With at least 50 bars, an initial gain and a pullback that are not
    below their minimums, and staleness ([days_old], the first of the
    offsets 1 to 10 whose high reaches the resistance, else 11, exceeds
    the configured age limit), [detect_flat_top] returns half of the
    confidence accrued by the shape statements, with the facts accrued,
    the stale flag and [days_old]; no hypothesis is made on the current
    close, so this is what is returned also when the close is below 0.95
    times the descent low: the break check is not reached, and the facts
    it would record are absent. *)
Theorem flat_top_stale_before_break {MC} cfg data macd_line signal_line
    histogram (market_context : MC) start_price days_old :
  50 <= len data ->
  ft_start_price data = Some start_price ->
  (ft_initial_gain data start_price <? min_initial_gain cfg)%num = false ->
  (ft_pullback data <? min_pullback cfg)%num = false ->
  ft_days_old cfg data = Some days_old ->
  (age_limit_flat_top cfg < inject_Z days_old)%Q ->
  exists accrued,
    ft_shape cfg data
      (mkState 25
         {[ "initial_ascension" :=
              VFmt "{:.1f}%" (ft_initial_gain data start_price * Fin 100) ]})
    = Next tt accrued
    /\ detect_flat_top cfg data macd_line signal_line histogram
         market_context
       = Ok ((score accrued * 0.5)%Q,
             <["days_old" := VInt days_old]>
               (<["pattern_stale" := VBool true]> (info accrued)))
    /\ (<["days_old" := VInt days_old]>
          (<["pattern_stale" := VBool true]> (info accrued)))
       !! "pattern_broken" = None
    /\ (<["days_old" := VInt days_old]>
          (<["pattern_stale" := VBool true]> (info accrued)))
       !! "break_reason" = None.
Proof.
  intros Hlen Hsp Hgain Hpull Hdays Hold.
  destruct (ft_shape_total cfg data
              (mkState 25
                 {[ "initial_ascension" :=
                      VFmt "{:.1f}%"
                           (ft_initial_gain data start_price * Fin 100) ]}))
    as [accrued Hshape].
  exists accrued. split; [exact Hshape|]. split.
  - unfold detect_flat_top, run.
    destruct (len data <? 50) eqn:Hguard; [lia|].
    rewrite (step_index _ _ _ _ Hsp). cbv zeta. rewrite Hgain.
    rewrite step_add, step_fact, Hpull.
    rewrite (step_next _ _ _ _ _ Hshape).
    destruct (iloc_is_Some (col Close data) (-1)) as [current_price Hcp];
      [rewrite len_col; lia|].
    rewrite (step_index _ _ _ _ Hcp), (step_index _ _ _ _ Hdays).
    apply Qltb_lt in Hold. rewrite Hold. reflexivity.
  - split; rewrite !lookup_insert_ne by discriminate.
    + apply (ft_shape_lacks cfg data "pattern_broken" _ _
               ltac:(not_in_keys) Hshape). reflexivity.
    + apply (ft_shape_lacks cfg data "break_reason" _ _
               ltac:(not_in_keys) Hshape). reflexivity.
Qed.

(** The witness is a series whose last ten bars stay below the peak, and
    whose current close, 90, is below 0.95 times the descent low, 100. *)
Lemma flat_top_stale_before_break_witness :
  (Fin 90 <? ft_descent_low stale_flat_top * Fin 0.95)%num = true
  /\ exists accrued,
       ft_shape sample_config stale_flat_top
         (mkState 25
            {[ "initial_ascension" :=
                 VFmt "{:.1f}%"
                      (ft_initial_gain stale_flat_top 100 * Fin 100) ]})
       = Next tt accrued
       /\ detect_flat_top sample_config stale_flat_top [] [] [] tt
          = Ok ((score accrued * 0.5)%Q,
                <["days_old" := VInt 11]>
                  (<["pattern_stale" := VBool true]> (info accrued)))
       /\ (<["days_old" := VInt 11]>
             (<["pattern_stale" := VBool true]> (info accrued)))
          !! "pattern_broken" = None
       /\ (<["days_old" := VInt 11]>
             (<["pattern_stale" := VBool true]> (info accrued)))
          !! "break_reason" = None.
Proof.
  split; [reflexivity|].
  apply flat_top_stale_before_break.
  - vm_compute. discriminate.
  - reflexivity.
  - reflexivity.
  - reflexivity.
  - reflexivity.
  - reflexivity.
Defined.

(** ** detect_bull_flag *)

Lemma bf_current_price_latest data latest :
  iloc data (-1) = Some latest -> bf_current_price data = Some (Close latest).
Proof. intros H. unfold bf_current_price. now rewrite iloc_col, H. Qed.

(** On bars with lows that are not negative and a latest bar that does
    not close below its low, a tolerance of at most 1 leaves the
    flag-support check without effect: the latest low is one of the lows
    of the flag window. *)
Lemma bf_flag_support_check_idle cfg data latest :
  iloc data (-1) = Some latest ->
  (Low latest <= Close latest)%Q ->
  (flag_tolerance cfg <= 1)%Q ->
  Forall (fun b => (0 <= Low b)%Q) (bf_flag_data data) ->
  bf_below_flag_support cfg data (Close latest) = false.
Proof.
  intros Hlatest Hbar Htol Hlows.
  unfold bf_below_flag_support, bf_flag_low, bf_flag_data in *.
  destruct (series_min_spec (col Low (tail 15 data)) (Low latest) 0)
    as (flag_low & -> & Hpos & Hle).
  - apply list_elem_of_fmap_2, latest_in_tail; [lia | exact Hlatest].
  - unfold col. now apply Forall_fmap.
  - cbn [Num.mul Num.ltb]. apply Qltb_ge.
    apply Qle_trans with (Low latest); [|exact Hbar].
    apply Qle_trans with flag_low; [|exact Hle].
    rewrite <- (Qmult_1_r flag_low) at 2. rewrite !(Qmult_comm flag_low).
    now apply Qmult_le_compat_r.
Qed.

(** C4, as the code has it. With at least 30 bars, a flagpole gain that is
    not below the configured minimum and a current close strictly below
    the flagpole start price, [detect_bull_flag] returns confidence exactly
    0 and the facts of a hard reject, any partial score discarded.  The
    reason is "Below flagpole start" when the current close is not below
    the flag low times the tolerance; when it is, the flag-support check,
    which comes first, gives the reason "Below flag support". *)
Theorem bull_flag_below_start {MC} cfg data macd_line signal_line histogram
    (market_context : MC) start_price current_price :
  30 <= len data ->
  bf_start_price data = Some start_price ->
  (bf_flagpole_gain data start_price <? min_flagpole_gain cfg)%num = false ->
  bf_current_price data = Some current_price ->
  (current_price < start_price)%Q ->
  detect_bull_flag cfg data macd_line signal_line histogram market_context
  = Ok (0%Q,
        <["break_reason" :=
            VStr (if bf_below_flag_support cfg data current_price
                  then "Below flag support" else "Below flagpole start")]>
          {["pattern_broken" := VBool true]}).
Proof.
  intros Hlen Hsp Hgain Hcp Hlt. unfold detect_bull_flag, run.
  destruct (len data <? 30) eqn:Hguard; [lia|].
  rewrite (step_index _ _ _ _ Hsp). cbv zeta. rewrite Hgain.
  rewrite step_add, step_fact.
  destruct (iloc_is_Some (col Close data) (- bf_flagpole_end))
    as [flag_start Hfs]; [unfold bf_flagpole_end; rewrite len_col; lia|].
  rewrite (step_index _ _ _ _ Hfs), (step_index _ _ _ _ Hcp).
  apply Qltb_lt in Hlt. rewrite Hlt.
  destruct (bf_below_flag_support cfg data current_price);
    match goal with
    | |- context [when ?b _] => destruct b
    end; reflexivity.
Qed.

Lemma bull_flag_below_start_witness :
  bf_below_flag_support sample_config sagging_flag 98 = false
  /\ detect_bull_flag sample_config sagging_flag [] [] [] tt
     = Ok (0%Q,
           <["break_reason" := VStr "Below flagpole start"]>
             {["pattern_broken" := VBool true]}).
Proof.
  split; [reflexivity|].
  apply (bull_flag_below_start sample_config sagging_flag [] [] [] tt 100 98).
  - vm_compute. discriminate.
  - reflexivity.
  - reflexivity.
  - reflexivity.
  - reflexivity.
Defined.

(** C4 as stated fails when the current close is below the flagpole start
    and also below the flag low times the tolerance: the reason recorded
    is "Below flag support".  Two inputs: a tolerance above 1 with
    ordinary bars, and the tolerance 0.95 with a latest quote whose close
    lies below the lows of the flag. *)
Lemma bull_flag_reason_is_flag_support :
  (30 <= len sagging_flag
   /\ bf_start_price sagging_flag = Some 100%Q
   /\ (bf_flagpole_gain sagging_flag 100
       <? min_flagpole_gain strict_config)%num = false
   /\ bf_current_price sagging_flag = Some 98%Q
   /\ (98 < 100)%Q
   /\ detect_bull_flag strict_config sagging_flag [] [] [] tt
      = Ok (0%Q,
            <["break_reason" := VStr "Below flag support"]>
              {["pattern_broken" := VBool true]}))
  /\ (30 <= len broken_flag
      /\ bf_start_price broken_flag = Some 100%Q
      /\ (bf_flagpole_gain broken_flag 100
          <? min_flagpole_gain sample_config)%num = false
      /\ bf_current_price broken_flag = Some 90%Q
      /\ (90 < 100)%Q
      /\ detect_bull_flag sample_config broken_flag [] [] [] tt
         = Ok (0%Q,
               <["break_reason" := VStr "Below flag support"]>
                 {["pattern_broken" := VBool true]})).
Proof.
  split; (split; [vm_compute; discriminate|]); repeat split.
Qed.

(** ** detect_cup_handle *)

(** The call of the analyser in a body that may raise: its facts lack the
    key [k]. *)
Ltac call_volume_lacks k :=
  lazymatch goal with
  | |- keeps (lacks k) _ _ (call (analyze_volume_pattern _ _ _ _) ≫= _) =>
      apply (keeps_call_raise _ _ _ (fun r : Q * facts => r.2 !! k = None));
      [ now unfold anyhow
      | intros ? ?; eapply analyze_volume_pattern_keys;
        [not_in_keys | eassumption]
      | intros [? ?] ? ]
  end.

Lemma ch_handle_days_range data :
  30 <= len data -> 9 <= ch_handle_days data <= 30.
Proof.
  intros Hlen. unfold ch_handle_days.
  assert (H : 9 <= ch_max_lookback data / 3).
  { apply Z.div_le_lower_bound; unfold ch_max_lookback; lia. }
  lia.
Qed.

(** The scoring statements record no capping fact. *)
Lemma ch_scoring_lacks_cap cfg data macd_line signal_line :
  keeps (lacks "confidence_capped") (fun _ : Q * facts => True) anyhow
    (ch_scoring cfg data macd_line signal_line).
Proof.
  unfold ch_scoring.
  keeps_steps lacks_side.
  call_volume_lacks "confidence_capped".
  keeps_steps lacks_side.
Qed.

(** C5. When the confidence that [detect_cup_handle] has accrued once the
    score of the volume analyser is added is strictly below 35, the
    detector returns that confidence and the facts accrued as they are:
    the volume-confirmation cap is not applied and the capping fact is
    absent, whatever the volume flags. *)
Theorem cup_handle_early_exit_skips_cap {MC} cfg data macd_line signal_line
    histogram (market_context : MC) volume_info accrued :
  30 <= len data ->
  ch_scoring cfg data macd_line signal_line (mkState 0 ∅)
  = Next volume_info accrued ->
  (score accrued < 35)%Q ->
  detect_cup_handle cfg data macd_line signal_line histogram market_context
  = Ok (score accrued, info accrued)
  /\ info accrued !! "confidence_capped" = None.
Proof.
  intros Hlen Hscoring Hlow. split.
  - unfold detect_cup_handle, run.
    destruct (len data <? 30) eqn:Hguard; [lia|].
    rewrite (step_next _ _ _ _ _ Hscoring).
    apply Qltb_lt in Hlow.
    change ((get_score ≫= _) accrued)
      with ((if Qltb (score accrued) 35 then ret_state
             else volume_cap cfg volume_info ≫= fun _ => ret_state)
              accrued : outcome (Q * facts) Empty_set).
    now rewrite Hlow.
  - pose proof (ch_scoring_lacks_cap cfg data macd_line signal_line
                  (mkState 0 ∅) (lookup_empty _)) as H.
    now rewrite Hscoring in H.
Qed.

Lemma deep_handle_scoring :
  ch_scoring sample_config deep_handle_cup [0%Q] [0%Q] (mkState 0 ∅)
  = Next deep_handle_volume_info deep_handle_accrued.
Proof. reflexivity. Qed.

(** The witness accrues 31.5 with weak volume: no volume flag is set, the
    cap would apply, and it is skipped. *)
Lemma cup_handle_early_exit_skips_cap_witness :
  no_volume_confirmation deep_handle_volume_info = true
  /\ score deep_handle_accrued = 31.5%Q
  /\ detect_cup_handle sample_config deep_handle_cup [0%Q] [0%Q] [] tt
     = Ok (score deep_handle_accrued, info deep_handle_accrued)
  /\ info deep_handle_accrued !! "confidence_capped" = None.
Proof.
  split; [reflexivity|]. split; [reflexivity|].
  apply (cup_handle_early_exit_skips_cap sample_config deep_handle_cup
           [0%Q] [0%Q] [] tt deep_handle_volume_info deep_handle_accrued).
  - vm_compute. discriminate.
  - exact deep_handle_scoring.
  - reflexivity.
Defined.

Lemma len_slice_tail {A} (l : list A) (n : Z) :
  0 < n <= len l -> len (tail n l) = n.
Proof.
  intros Hn. unfold tail. destruct (n =? 0) eqn:E; [lia|].
  unfold slice, len, clamp in *. cbn [from_option].
  destruct (- n <? 0) eqn:E'; [|lia].
  rewrite length_take, length_drop. lia.
Qed.

(** The facts of [detect_cup_handle] lack the forming-handle fact. *)
Lemma detect_cup_handle_lacks_forming {MC} cfg data macd_line signal_line
    histogram (market_context : MC) r :
  detect_cup_handle cfg data macd_line signal_line histogram market_context
  = Ok r ->
  r.2 !! "forming_handle" = None.
Proof.
  unfold detect_cup_handle.
  apply (run_keeps_ok (lacks "forming_handle")
           (lacks_result "forming_handle")); [|apply lookup_empty].
  destruct (len data <? 30) eqn:Hguard; [keeps_steps lacks_side|].
  pose proof (ch_handle_days_range data ltac:(lia)) as Hdays.
  unfold ch_scoring, volume_cap.
  keeps_steps lacks_side; try lia.
  call_volume_lacks "forming_handle".
  keeps_steps lacks_side.
Qed.

(** C10. With at least 30 bars, [handle_days] is
    min(30, min(100, len - 3) // 3) and lies between 9 and 30, the handle
    window has that many bars, and the branch for [handle_days == 0] is
    not taken: no result of the detector has the forming-handle fact. *)
Theorem cup_handle_window {MC} cfg data macd_line signal_line histogram
    (market_context : MC) :
  30 <= len data ->
  ch_handle_days data = Z.min 30 (Z.min 100 (len data - 3) / 3)
  /\ 9 <= ch_handle_days data <= 30
  /\ len (ch_handle_data data) = ch_handle_days data
  /\ forall r,
       detect_cup_handle cfg data macd_line signal_line histogram
         market_context = Ok r ->
       r.2 !! "forming_handle" = None.
Proof.
  intros Hlen. pose proof (ch_handle_days_range data Hlen) as Hdays.
  split; [reflexivity|]. split; [exact Hdays|]. split.
  - unfold ch_handle_data.
    destruct (ch_handle_days data >? 0) eqn:Hpos; [|lia].
    apply len_slice_tail. lia.
  - apply detect_cup_handle_lacks_forming.
Qed.

Lemma cup_handle_window_witness :
  ch_handle_days deep_handle_cup = 9
  /\ 9 <= ch_handle_days deep_handle_cup <= 30
  /\ len (ch_handle_data deep_handle_cup) = ch_handle_days deep_handle_cup
  /\ forall r,
       detect_cup_handle sample_config deep_handle_cup [0%Q] [0%Q] [] tt
       = Ok r ->
       r.2 !! "forming_handle" = None.
Proof.
  apply (cup_handle_window sample_config deep_handle_cup [0%Q] [0%Q] [] tt).
  vm_compute. discriminate.
Defined.

(** ** detect_inside_bar *)

(** When the scan finds nothing the detector returns confidence 0. *)
Lemma detect_inside_bar_none {MC} cfg data macd_line signal_line histogram
    (market_context : MC) timeframe c i :
  scan_inside_bars data timeframe = scan_none ->
  detect_inside_bar cfg data macd_line signal_line histogram market_context
    timeframe = Ok (c, i) ->
  c = 0%Q.
Proof.
  intros Hscan. unfold detect_inside_bar, run.
  destruct (len data <? 5); [now intros [= <- <-]|].
  rewrite step_fact. cbv zeta. rewrite Hscan. now intros [= <- <-].
Qed.

(** The facts of [detect_inside_bar] lack the aging facts, and the fact
    of a double inside bar. *)
Lemma detect_inside_bar_lacks {MC} cfg data macd_line signal_line histogram
    (market_context : MC) timeframe r k :
  k ∈ ["pattern_aging"; "age_periods"; "double_inside_bar"] ->
  detect_inside_bar cfg data macd_line signal_line histogram market_context
    timeframe = Ok r ->
  r.2 !! k = None.
Proof.
  intros Hk. unfold detect_inside_bar, volume_cap.
  apply (run_keeps_ok (lacks k) (lacks_result k)); [|apply lookup_empty].
  destruct (len data <? 5) eqn:Hlen; [keeps_steps lacks_side|].
  assert (Haging : (-2 <=? aging_threshold timeframe) = false).
  { unfold aging_threshold. now destruct (is_weekly timeframe). }
  repeat (apply elem_of_cons in Hk as [-> | Hk]);
    [| | |now apply elem_of_nil in Hk].
  all: keeps_step lacks_side; [keeps_steps lacks_side|].
  all: cbv zeta.
  all: destruct (scan_inside_bars_cases data timeframe) as [-> | ->];
    cbn [inside_bars_count mother_bar_idx inside_bar_indices
         scan_none scan_single head];
    [change (0 =? 0) with true | change (1 =? 0) with false];
    cbv iota; [keeps_steps lacks_side|].
  all: change (1 =? 1) with true; cbv iota.
  all: keeps_step lacks_side; simplify_eq.
  all: rewrite Haging.
  all: keeps_steps lacks_side.
  - call_volume_lacks "pattern_aging". keeps_steps lacks_side.
  - call_volume_lacks "age_periods". keeps_steps lacks_side.
  - call_volume_lacks "double_inside_bar". keeps_steps lacks_side.
Qed.

(** C9. When [detect_inside_bar] returns a confidence other than 0, the
    scan has ended with the inside bar at offset -1 and the mother bar at
    offset -2; and in no call is the aging branch taken: the result has
    neither the aging flag nor the age. *)
Theorem inside_bar_at_latest_never_aged {MC} cfg data macd_line signal_line
    histogram (market_context : MC) timeframe c i :
  detect_inside_bar cfg data macd_line signal_line histogram market_context
    timeframe = Ok (c, i) ->
  (c <> 0%Q ->
   mother_bar_idx (scan_inside_bars data timeframe) = Some (-2)
   /\ inside_bar_indices (scan_inside_bars data timeframe) = [-1]
   /\ (-2 <=? aging_threshold timeframe) = false)
  /\ i !! "pattern_aging" = None
  /\ i !! "age_periods" = None.
Proof.
  intros Hrun. split; [|split].
  - intros Hc.
    destruct (scan_inside_bars_cases data timeframe) as [Hscan | Hscan].
    + destruct Hc.
      exact (detect_inside_bar_none _ _ _ _ _ _ _ _ _ Hscan Hrun).
    + rewrite Hscan. repeat split.
      unfold aging_threshold. now destruct (is_weekly timeframe).
  - apply (detect_inside_bar_lacks _ _ _ _ _ _ _ _ "pattern_aging"
             ltac:(set_solver) Hrun).
  - apply (detect_inside_bar_lacks _ _ _ _ _ _ _ _ "age_periods"
             ltac:(set_solver) Hrun).
Qed.

Lemma single_inside_bar_run :
  detect_inside_bar sample_config single_inside_bar [0%Q] [0%Q]
    [0%Q; 0%Q; 0%Q] tt "1wk"
  = Ok (single_inside_bar_result.1, single_inside_bar_result.2).
Proof. reflexivity. Qed.

Lemma inside_bar_at_latest_never_aged_witness :
  single_inside_bar_result.1 = 70%Q
  /\ mother_bar_idx (scan_inside_bars single_inside_bar "1wk") = Some (-2)
  /\ inside_bar_indices (scan_inside_bars single_inside_bar "1wk") = [-1]
  /\ single_inside_bar_result.2 !! "pattern_aging" = None
  /\ single_inside_bar_result.2 !! "age_periods" = None.
Proof.
  destruct (inside_bar_at_latest_never_aged sample_config single_inside_bar
              [0%Q] [0%Q] [0%Q; 0%Q; 0%Q] tt "1wk" _ _ single_inside_bar_run)
    as (Hscan & Haging & Hage).
  destruct Hscan as (Hmother & Hinside & _).
  { vm_compute. discriminate. }
  split; [reflexivity|].
  split; [exact Hmother|]. split; [exact Hinside|].
  split; [exact Haging | exact Hage].
Defined.

(** C8 fails on the code. The count of inside bars is never 2, so no
    result has the double-inside-bar fact: the bar that the second
    iteration would count must be red, and the first iteration has
    required the same bar, as mother bar, to be green.  On a green mother
    bar that contains two red bars, the latest inside the one before, the
    scan finds nothing and the detector returns 0. *)
Theorem double_inside_bar_not_detected :
  (forall data timeframe,
     (inside_bars_count (scan_inside_bars data timeframe) =? 2) = false)
  /\ scan_inside_bars double_inside_bars "daily" = scan_none
  /\ detect_inside_bar sample_config double_inside_bars [0%Q] [0%Q]
       [0%Q; 0%Q; 0%Q] tt "daily"
     = Ok (0%Q, {[ "timeframe" := VStr "Daily" ]}).
Proof.
  split; [|split; reflexivity].
  intros data timeframe.
  now destruct (scan_inside_bars_cases data timeframe) as [-> | ->].
Qed.

(** * Further properties *)

(** ** analyze_volume_pattern: tiers and bounds *)

(** The outcome of a body run from a state that satisfies the invariant. *)
Lemma run_from {R} (I : state -> Prop) (K : R -> Prop)
    (body : stmt R Empty_set) s :
  keeps I K never body -> I s ->
  exists r,
    match body s with
    | Next a _ => match a with end
    | Return r => Ok r
    | Raise e _ => Exn e
    end = Ok r /\ K r.
Proof.
  intros Hb Hs. specialize (Hb _ Hs).
  destruct (body s) as [[]|r|]; [now exists r | destruct Hb].
Qed.

(** The lookups of an invariant are those of the state before: the key
    written is another one. *)
Ltac holds_side :=
  intros; cbn [info score fst snd] in *;
  repeat match goal with H : _ /\ _ |- _ => destruct H end;
  repeat split;
  rewrite ?lookup_insert_ne by discriminate; assumption.

(** X1. With at least 20 bars the analyser records the volume multiplier and
    exactly one of the four tier flags, the first from the highest whose
    threshold the multiplier reaches, the comparison being inclusive. *)
Theorem volume_tier_flags cfg data pattern_type pattern_info current_volume :
  20 <= len data ->
  iloc (col Volume data) (-1) = Some current_volume ->
  let vm := volume_multiplier data current_volume in
  let exceptional := (vm >=? vt_exceptional cfg)%num in
  let strong := (vm >=? vt_strong cfg)%num in
  let good := (vm >=? vt_good cfg)%num in
  exists volume_score volume_info,
    analyze_volume_pattern cfg data pattern_type pattern_info
    = Ok (volume_score, volume_info)
    /\ volume_info !! "volume_multiplier" = Some (VNum vm)
    /\ volume_info !! "exceptional_volume" = flag_if exceptional
    /\ volume_info !! "strong_volume" = flag_if (negb exceptional && strong)
    /\ volume_info !! "good_volume"
       = flag_if (negb exceptional && negb strong && good)
    /\ volume_info !! "weak_volume"
       = flag_if (negb exceptional && negb strong && negb good).
Proof.
  intros Hlen Hcv vm exceptional strong good.
  unfold analyze_volume_pattern, run.
  destruct (len data <? 20) eqn:Hguard; [lia|]. cbv zeta.
  rewrite (step_index _ _ _ _ Hcv), !step_fact.
  fold (volume_multiplier data current_volume). fold vm.
  fold exceptional strong good.
  set (K := fun r : Q * facts =>
    r.2 !! "volume_multiplier" = Some (VNum vm)
    /\ r.2 !! "exceptional_volume" = flag_if exceptional
    /\ r.2 !! "strong_volume" = flag_if (negb exceptional && strong)
    /\ r.2 !! "good_volume"
       = flag_if (negb exceptional && negb strong && good)
    /\ r.2 !! "weak_volume"
       = flag_if (negb exceptional && negb strong && negb good)).
  set (I := fun s : state => K (score s, info s)).
  cut (forall (rest : stmt (Q * facts) Empty_set) s,
         keeps I K never rest -> I s ->
         exists volume_score volume_info,
           match rest s with
           | Next a _ => match a with end
           | Return r => Ok r
           | Raise e _ => Exn e
           end = Ok (volume_score, volume_info) /\ K (volume_score, volume_info)).
  2:{ intros rest s Hrest Hs.
      destruct (run_from I K rest s Hrest Hs) as ([vs vi] & Hr & HK). eauto. }
  intros Hcut.
  destruct exceptional, strong, good; cbn [negb andb];
    (erewrite step_next; [|reflexivity]); apply Hcut.
  all: try (subst I K; cbn [info score fst snd flag_if]; repeat split; reflexivity).
  all: subst I K; keeps_steps holds_side.
Qed.

Lemma volume_tier_flags_witness :
  volume_multiplier surge_at_threshold 1900 = Fin (1900 / (19000 / 20))
  /\ exists volume_score volume_info,
       analyze_volume_pattern sample_config surge_at_threshold "Inside Bar" ∅
       = Ok (volume_score, volume_info)
       /\ volume_info !! "volume_multiplier"
          = Some (VNum (volume_multiplier surge_at_threshold 1900))
       /\ volume_info !! "exceptional_volume" = Some (VBool true)
       /\ volume_info !! "strong_volume" = None
       /\ volume_info !! "good_volume" = None
       /\ volume_info !! "weak_volume" = None.
Proof.
  split; [reflexivity|].
  apply (volume_tier_flags sample_config surge_at_threshold "Inside Bar" ∅
           1900).
  - vm_compute. discriminate.
  - reflexivity.
Defined.

(** ** Moves of the score *)

Section Bumps.
Context {R : Type}.

Lemma bumps_skip : bumps (R := R) 0 0 skip.
Proof. intros s. exists s. split; [reflexivity|]. lra. Qed.

Lemma bumps_add q : bumps (R := R) q q (add q).
Proof. intros s. eexists. split; [reflexivity|]. simpl. lra. Qed.

Lemma bumps_fact k v : bumps (R := R) 0 0 (fact k v).
Proof. intros s. eexists. split; [reflexivity|]. simpl. lra. Qed.

Lemma bumps_seq lo1 hi1 lo2 hi2 (m k : stmt R unit) :
  bumps lo1 hi1 m -> bumps lo2 hi2 k ->
  bumps (lo1 + lo2) (hi1 + hi2) (m ;; k).
Proof.
  intros Hm Hk s. destruct (Hm s) as (s1 & E1 & B1).
  destruct (Hk s1) as (s2 & E2 & B2). exists s2. split.
  - unfold mbind, stmt_bind, bind. now rewrite E1.
  - lra.
Qed.

Lemma bumps_weaken lo hi lo' hi' (m : stmt R unit) :
  (lo' <= lo)%Q -> (hi <= hi')%Q -> bumps lo hi m -> bumps lo' hi' m.
Proof.
  intros Hlo Hhi Hm s. destruct (Hm s) as (s' & E & B).
  exists s'. split; [exact E | lra].
Qed.

Lemma bumps_when lo hi b (m : stmt R unit) :
  (lo <= 0 <= hi)%Q -> bumps lo hi m -> bumps lo hi (when b m).
Proof.
  intros H0 Hm. destruct b; [exact Hm|].
  apply (bumps_weaken 0 0); [lra | lra | apply bumps_skip].
Qed.

Lemma bumps_try_pass lo hi (m : stmt R unit) :
  bumps lo hi m -> bumps lo hi (try_pass m).
Proof.
  intros Hm s. destruct (Hm s) as (s' & E & B). exists s'.
  split; [|exact B]. unfold try_pass. now rewrite E.
Qed.

(** A bonus between 0 and [hi], with its flag. *)
Lemma bumps_award q hi k v :
  (0 <= q <= hi)%Q -> bumps (R := R) 0 hi (add q;; fact k v).
Proof.
  intros Hq. apply (bumps_weaken (q + 0) (q + 0)); [lra | lra |].
  apply bumps_seq; [apply bumps_add | apply bumps_fact].
Qed.

Lemma bumps_award2 q hi k v k' v' :
  (0 <= q <= hi)%Q -> bumps (R := R) 0 hi (add q;; fact k v;; fact k' v').
Proof.
  intros Hq. apply (bumps_weaken (q + (0 + 0)) (q + (0 + 0))); [lra | lra |].
  repeat apply bumps_seq; first [apply bumps_add | apply bumps_fact].
Qed.

End Bumps.

Lemma floordiv2_le x : (0 <= x -> floordiv2 x <= x)%Q.
Proof.
  intros Hx. unfold floordiv2.
  apply Qle_trans with (x / 2)%Q; [apply Qfloor_le|].
  apply Qle_shift_div_r; [reflexivity | lra].
Qed.

Lemma num_below_not_above x (a b : Q) :
  (a <= b)%Q -> (x <? Fin a)%num = true -> (x >=? Fin b)%num = false.
Proof.
  destruct x as [q| | |]; cbn; try discriminate; try reflexivity.
  intros Hab Hlt. apply Qltb_lt in Hlt.
  destruct (Qle_bool b q) eqn:E; [|reflexivity].
  apply Qle_bool_iff in E. lra.
Qed.

Lemma lands_ret_state : lands 0 0 ret_state.
Proof. intros s. eexists. split; [reflexivity|]. simpl. lra. Qed.

Lemma lands_seq lo1 hi1 lo2 hi2 (m : stmt (Q * facts) unit) body :
  bumps lo1 hi1 m -> lands lo2 hi2 body ->
  lands (lo1 + lo2) (hi1 + hi2) (m ;; body).
Proof.
  intros Hm Hb s. destruct (Hm s) as (s1 & E1 & B1).
  destruct (Hb s1) as (r & E2 & B2). exists r. split.
  - unfold mbind, stmt_bind, bind. now rewrite E1.
  - lra.
Qed.

Lemma lands_weaken lo hi lo' hi' body :
  (lo' <= lo)%Q -> (hi <= hi')%Q -> lands lo hi body -> lands lo' hi' body.
Proof.
  intros Hlo Hhi Hb s. destruct (Hb s) as (r & E & B).
  exists r. split; [exact E | lra].
Qed.

Lemma max_tier_points_bounds cfg :
  (vp_exceptional cfg <= max_tier_points cfg
   /\ vp_strong cfg <= max_tier_points cfg
   /\ vp_good cfg <= max_tier_points cfg)%Q.
Proof.
  unfold max_tier_points.
  pose proof (Q.le_max_l (vp_exceptional cfg)
                (Qmax (vp_strong cfg) (vp_good cfg))).
  pose proof (Q.le_max_r (vp_exceptional cfg)
                (Qmax (vp_strong cfg) (vp_good cfg))).
  pose proof (Q.le_max_l (vp_strong cfg) (vp_good cfg)).
  pose proof (Q.le_max_r (vp_strong cfg) (vp_good cfg)).
  repeat split; lra.
Qed.

Lemma max_pattern_bonus_bounds cfg :
  (vb_bull_flag cfg <= max_pattern_bonus cfg
   /\ vb_cup_handle cfg <= max_pattern_bonus cfg
   /\ vb_flat_top cfg <= max_pattern_bonus cfg
   /\ vb_inside_bar cfg <= max_pattern_bonus cfg)%Q.
Proof.
  unfold max_pattern_bonus.
  pose proof (Q.le_max_l (vb_bull_flag cfg)
    (Qmax (vb_cup_handle cfg) (Qmax (vb_flat_top cfg) (vb_inside_bar cfg)))).
  pose proof (Q.le_max_r (vb_bull_flag cfg)
    (Qmax (vb_cup_handle cfg) (Qmax (vb_flat_top cfg) (vb_inside_bar cfg)))).
  pose proof (Q.le_max_l (vb_cup_handle cfg)
    (Qmax (vb_flat_top cfg) (vb_inside_bar cfg))).
  pose proof (Q.le_max_r (vb_cup_handle cfg)
    (Qmax (vb_flat_top cfg) (vb_inside_bar cfg))).
  pose proof (Q.le_max_l (vb_flat_top cfg) (vb_inside_bar cfg)).
  pose proof (Q.le_max_r (vb_flat_top cfg) (vb_inside_bar cfg)).
  repeat split; lra.
Qed.

Ltac bump_branch :=
  first
    [ apply bumps_skip
    | apply bumps_award2; lra
    | apply bumps_award; lra
    | apply (bumps_weaken 0 0); [lra | lra | apply bumps_skip] ].

(** X2. When the points and bonuses of the configuration are not
    negative, the analyser returns, for every input, a score between 0 and
    the largest tier points plus the largest pattern bonus plus 5: of the
    pattern bonuses at most one is awarded, also for the inside bar, whose
    consolidation bonus (multiplier below 1) and expansion bonus
    (multiplier at least 1.5) exclude each other. *)
Theorem volume_score_bounds cfg data pattern_type pattern_info :
  config_nonneg cfg ->
  exists volume_score volume_info,
    analyze_volume_pattern cfg data pattern_type pattern_info
    = Ok (volume_score, volume_info)
    /\ (0 <= volume_score
        <= max_tier_points cfg + max_pattern_bonus cfg + 5)%Q.
Proof.
  intros (Hpe & Hps & Hpg & Hbb & Hbc & Hbf & Hbi & _).
  destruct (max_tier_points_bounds cfg) as (Hte & Hts & Htg).
  destruct (max_pattern_bonus_bounds cfg) as (Hmb & Hmc & Hmf & Hmi).
  set (P := max_tier_points cfg) in *. set (B := max_pattern_bonus cfg) in *.
  unfold analyze_volume_pattern, run.
  destruct (len data <? 20) eqn:Hguard.
  { exists 0%Q, ∅. split; [reflexivity|]. cbn. lra. }
  destruct (iloc_is_Some (col Volume data) (-1)) as [current_volume Hcv];
    [rewrite len_col; lia|].
  cbv zeta. rewrite (step_index _ _ _ _ Hcv).
  match goal with
  | |- context [match ?body _ with _ => _ end] =>
      assert (Hl : lands 0 (P + B + 5) body)
  end.
  { apply (lands_weaken (0 + (0 + (0 + (0 + (0 + (0 + (0 + 0)))))))
                        (0 + (0 + (0 + (0 + (P + (B + (5 + 0))))))));
      [lra | lra |].
    repeat apply lands_seq; try apply bumps_fact; try apply lands_ret_state.
    - (* tier *)
      repeat match goal with
             | |- bumps _ _ (if ?b then _ else _) => destruct b
             end; try bump_branch.
      apply (bumps_weaken (0 + 0) (0 + 0)); [lra | lra |].
      apply bumps_seq; apply bumps_fact.
    - (* pattern *)
      assert (H67 : (0 <= vb_inside_bar cfg * 0.67 <= vb_inside_bar cfg)%Q) by lra.
      assert (H75c : (0 <= vb_cup_handle cfg * 0.75 <= vb_cup_handle cfg)%Q) by lra.
      assert (H75f : (0 <= vb_flat_top cfg * 0.75 <= vb_flat_top cfg)%Q) by lra.
      pose proof (floordiv2_le _ Hbb) as Hfd.
      pose proof (Qnonneg_floordiv2 _ Hbb) as Hfd0.
      destruct (String.eqb pattern_type "Bull Flag");
        [|destruct (String.eqb pattern_type "Cup Handle");
          [|destruct (String.eqb pattern_type "Flat Top Breakout");
            [|destruct (String.eqb pattern_type "Inside Bar")]]].
      + apply bumps_when; [lra|]. apply bumps_try_pass. cbv zeta.
        repeat match goal with
               | |- bumps _ _ (if ?b then _ else _) => destruct b
               end; bump_branch.
      + apply bumps_try_pass. cbv zeta.
        apply bumps_when; [lra|]. apply bumps_when; [lra|].
        repeat match goal with
               | |- bumps _ _ (if ?b then _ else _) => destruct b
               end; bump_branch.
      + cbv zeta.
        repeat match goal with
               | |- bumps _ _ (if ?b then _ else _) => destruct b
               end; bump_branch.
      + match goal with
        | |- context [(?x <? Fin 0.8)%num] => set (vm := x)
        end.
        destruct (vm <? Fin 0.8)%num eqn:E8.
        { rewrite (num_below_not_above vm 0.8 1.5 ltac:(lra) E8).
          apply (bumps_weaken (0 + 0) (B + 0)); [lra | lra |].
          apply bumps_seq; bump_branch. }
        destruct (vm <? Fin 1.0)%num eqn:E10.
        { rewrite (num_below_not_above vm 1.0 1.5 ltac:(lra) E10).
          apply (bumps_weaken (0 + 0) (B + 0)); [lra | lra |].
          apply bumps_seq; bump_branch. }
        apply (bumps_weaken (0 + 0) (0 + B)); [lra | lra |].
        apply bumps_seq; [apply bumps_skip|].
        apply bumps_when; [lra|]. bump_branch.
      + bump_branch.
    - (* trend *)
      cbv zeta.
      repeat match goal with
             | |- bumps _ _ (if ?b then _ else _) => destruct b
             end; bump_branch. }
  destruct (Hl (mkState 0 ∅)) as ([vs vi] & -> & Hb).
  exists vs, vi. split; [reflexivity|]. cbn in Hb. lra.
Qed.

Lemma volume_score_bounds_witness :
  exists volume_score volume_info,
    analyze_volume_pattern sample_config surge_at_threshold "Inside Bar" ∅
    = Ok (volume_score, volume_info)
    /\ (0 <= volume_score
        <= max_tier_points sample_config + max_pattern_bonus sample_config
           + 5)%Q.
Proof.
  apply volume_score_bounds. exact sample_config_nonneg.
Defined.

(** ** The volume-confirmation cap *)

(** The cap and the return that close a detector. *)
Lemma keeps_cap_return cfg volume_info E :
  keeps (lacks "confidence_capped") (capped_ok cfg) E
    (volume_cap cfg volume_info;; ret_state (A := Empty_set)).
Proof.
  intros s Hs. unfold volume_cap.
  destruct (no_volume_confirmation volume_info); cbn.
  - right. apply Q.le_min_r.
  - left. exact Hs.
Qed.

Lemma keeps_cap_idle_return cfg volume_info m E :
  keeps (lacks "confidence_capped") (capped_ok cfg) E
    (volume_cap cfg volume_info;; when false m;; ret_state (A := Empty_set)).
Proof.
  intros s Hs. unfold volume_cap.
  destruct (no_volume_confirmation volume_info); cbn.
  - right. apply Q.le_min_r.
  - left. exact Hs.
Qed.

Ltac keeps_until_cap side :=
  repeat (cbv beta iota zeta;
          lazymatch goal with
          | |- keeps _ _ _ (volume_cap _ _ ≫= _) => fail
          | _ => keeps_step side
          end).

Ltac capped_side :=
  unfold lacks, capped_ok; intros; cbn [info score fst snd] in *;
  first
    [ assumption
    | rewrite lookup_insert_ne by discriminate; assumption
    | apply lookup_union_None; split; assumption
    | left; rewrite ?lookup_insert_ne by discriminate;
      rewrite ?lookup_singleton_ne by discriminate;
      first [assumption | apply lookup_empty | reflexivity]
    | idtac ].

Ltac call_volume_lacks_cap :=
  call_volume_lacks "confidence_capped".

Lemma detect_flat_top_capped {MC} cfg data macd_line signal_line histogram
    (market_context : MC) r :
  detect_flat_top cfg data macd_line signal_line histogram market_context
  = Ok r -> capped_ok cfg r.
Proof.
  unfold detect_flat_top, ft_shape.
  apply (run_keeps_ok (lacks "confidence_capped") (capped_ok cfg));
    [|apply lookup_empty].
  keeps_until_cap capped_side.
  call_volume_lacks_cap.
  keeps_until_cap capped_side.
  apply keeps_cap_return.
Qed.

Lemma detect_bull_flag_capped {MC} cfg data macd_line signal_line histogram
    (market_context : MC) r :
  detect_bull_flag cfg data macd_line signal_line histogram market_context
  = Ok r -> capped_ok cfg r.
Proof.
  unfold detect_bull_flag.
  apply (run_keeps_ok (lacks "confidence_capped") (capped_ok cfg));
    [|apply lookup_empty].
  keeps_until_cap capped_side.
  call_volume_lacks_cap.
  keeps_until_cap capped_side.
  apply keeps_cap_return.
Qed.

Lemma detect_cup_handle_capped {MC} cfg data macd_line signal_line histogram
    (market_context : MC) r :
  detect_cup_handle cfg data macd_line signal_line histogram market_context
  = Ok r -> capped_ok cfg r.
Proof.
  unfold detect_cup_handle, ch_scoring.
  apply (run_keeps_ok (lacks "confidence_capped") (capped_ok cfg));
    [|apply lookup_empty].
  keeps_until_cap capped_side.
  - call_volume_lacks_cap.
    keeps_until_cap capped_side.
  - apply keeps_cap_return.
Qed.

Lemma detect_inside_bar_capped {MC} cfg data macd_line signal_line histogram
    (market_context : MC) timeframe r :
  detect_inside_bar cfg data macd_line signal_line histogram market_context
    timeframe = Ok r -> capped_ok cfg r.
Proof.
  unfold detect_inside_bar.
  apply (run_keeps_ok (lacks "confidence_capped") (capped_ok cfg));
    [|apply lookup_empty].
  destruct (len data <? 5) eqn:Hlen; [keeps_steps capped_side|].
  assert (Haging : (-2 <=? aging_threshold timeframe) = false).
  { unfold aging_threshold. now destruct (is_weekly timeframe). }
  keeps_step capped_side; [keeps_steps capped_side|].
  cbv zeta.
  destruct (scan_inside_bars_cases data timeframe) as [-> | ->];
    cbn [inside_bars_count mother_bar_idx inside_bar_indices
         scan_none scan_single head];
    [change (0 =? 0) with true | change (1 =? 0) with false];
    cbv iota; [keeps_steps capped_side|].
  keeps_step capped_side; simplify_eq.
  rewrite Haging.
  keeps_until_cap capped_side.
  call_volume_lacks_cap.
  keeps_until_cap capped_side.
  apply keeps_cap_idle_return.
Qed.

(** X3. A result of a detector that carries the capping fact has a
    confidence that is not above the volume-confirmation ceiling: in each
    of the four detectors nothing is added to the score after the cap. *)
Theorem capped_confidence_below_ceiling {MC} cfg data macd_line signal_line
    histogram (market_context : MC) timeframe c i v :
  i !! "confidence_capped" = Some v ->
  (detect_inside_bar cfg data macd_line signal_line histogram market_context
     timeframe = Ok (c, i)
   \/ detect_flat_top cfg data macd_line signal_line histogram market_context
      = Ok (c, i)
   \/ detect_bull_flag cfg data macd_line signal_line histogram market_context
      = Ok (c, i)
   \/ detect_cup_handle cfg data macd_line signal_line histogram
        market_context = Ok (c, i)) ->
  (c <= MAX_CONFIDENCE_WITHOUT_VOLUME cfg)%Q.
Proof.
  intros Hv Hrun.
  assert (H : capped_ok cfg (c, i)).
  { destruct Hrun as [H | [H | [H | H]]].
    - exact (detect_inside_bar_capped _ _ _ _ _ _ _ _ H).
    - exact (detect_flat_top_capped _ _ _ _ _ _ _ H).
    - exact (detect_bull_flag_capped _ _ _ _ _ _ _ H).
    - exact (detect_cup_handle_capped _ _ _ _ _ _ _ H). }
  destruct H as [H | H]; [cbn in H; congruence | exact H].
Qed.

Lemma rising_flag_run :
  detect_bull_flag sample_config rising_flag [1%Q] [0%Q] [0%Q; 0%Q; 1%Q] tt
  = Ok (rising_flag_result.1, rising_flag_result.2).
Proof. reflexivity. Qed.

Lemma capped_confidence_below_ceiling_witness :
  rising_flag_result.1 = 70%Q
  /\ (rising_flag_result.1 <= MAX_CONFIDENCE_WITHOUT_VOLUME sample_config)%Q.
Proof.
  split; [reflexivity|].
  apply (capped_confidence_below_ceiling sample_config rising_flag [1%Q]
           [0%Q] [0%Q; 0%Q; 1%Q] tt "daily" rising_flag_result.1
           rising_flag_result.2 (VStr "No volume confirmation")).
  - reflexivity.
  - right. right. left. exact rising_flag_run.
Defined.

(** X4. At the dispatcher the bound of a capped result is the ceiling
    times the rescaling of the pattern: the ceiling itself for the flat
    top and the inside bar, 1.05 times the ceiling for the bull flag and
    1.1 times the ceiling for the cup and handle, whose rescaling comes
    after the cap. *)
Theorem dispatcher_capped_bound {MC} cfg data pattern_type
    (market_context : MC) timeframe detected c i v :
  detect_pattern cfg data pattern_type market_context timeframe
  = Ok (detected, c, i) ->
  i !! "confidence_capped" = Some v ->
  (c <= MAX_CONFIDENCE_WITHOUT_VOLUME cfg
        * (if String.eqb pattern_type "Bull Flag" then 1.05
           else if String.eqb pattern_type "Cup Handle" then 1.1 else 1))%Q.
Proof.
  unfold detect_pattern.
  destruct (len data <? 10); [intros [= <- <- <-]; discriminate|].
  cbv zeta.
  assert (Hlook : forall (i0 : facts) a b c0,
            <["histogram" := a]> (<["signal_line" := b]>
              (<["macd_line" := c0]> i0)) !! "confidence_capped"
            = i0 !! "confidence_capped").
  { intros. now rewrite !lookup_insert_ne by discriminate. }
  destruct (String.eqb_spec pattern_type "Flat Top Breakout") as [-> | _];
    [|destruct (String.eqb_spec pattern_type "Bull Flag") as [-> | _];
      [|destruct (String.eqb_spec pattern_type "Cup Handle") as [-> | _];
        [|destruct (String.eqb_spec pattern_type "Inside Bar") as [-> | _]]]];
    cbn [String.eqb Ascii.eqb Bool.eqb].
  - destruct (detect_flat_top _ _ _ _ _ _) as [[c0 i0]|] eqn:Hrun;
      [|discriminate].
    cbn. intros [= <- <- <-]. rewrite Hlook. intros Hv.
    destruct (detect_flat_top_capped _ _ _ _ _ _ _ Hrun) as [H | H];
      [cbn in H; congruence|]. cbn in H.
    pose proof (Q.le_min_l c0 100). lra.
  - destruct (detect_bull_flag _ _ _ _ _ _) as [[c0 i0]|] eqn:Hrun;
      [|discriminate].
    cbn. intros [= <- <- <-]. rewrite Hlook. intros Hv.
    destruct (detect_bull_flag_capped _ _ _ _ _ _ _ Hrun) as [H | H];
      [cbn in H; congruence|]. cbn in H.
    pose proof (Q.le_min_l (c0 * 1.05) 100). lra.
  - destruct (detect_cup_handle _ _ _ _ _ _) as [[c0 i0]|] eqn:Hrun;
      [|discriminate].
    cbn. intros [= <- <- <-]. rewrite Hlook. intros Hv.
    destruct (detect_cup_handle_capped _ _ _ _ _ _ _ Hrun) as [H | H];
      [cbn in H; congruence|]. cbn in H.
    pose proof (Q.le_min_l (c0 * 1.1) 100). lra.
  - destruct (detect_inside_bar _ _ _ _ _ _ _) as [[c0 i0]|] eqn:Hrun;
      [|discriminate].
    cbn. intros [= <- <- <-]. rewrite Hlook. intros Hv.
    destruct (detect_inside_bar_capped _ _ _ _ _ _ _ _ Hrun) as [H | H];
      [cbn in H; congruence|]. cbn in H.
    pose proof (Q.le_min_l c0 100). lra.
  - cbn. intros [= <- <- <-]. rewrite Hlook. discriminate.
Qed.

Lemma short_inside_bar_dispatch :
  detect_pattern sample_config short_inside_bar "Inside Bar" tt "daily"
  = Ok (short_inside_bar_dispatched.1.1, short_inside_bar_dispatched.1.2,
        short_inside_bar_dispatched.2).
Proof. reflexivity. Qed.

Lemma dispatcher_capped_bound_witness :
  short_inside_bar_dispatched.1.2 = 70%Q
  /\ (short_inside_bar_dispatched.1.2
      <= MAX_CONFIDENCE_WITHOUT_VOLUME sample_config * 1)%Q.
Proof.
  split; [reflexivity|].
  apply (dispatcher_capped_bound sample_config short_inside_bar "Inside Bar"
           tt "daily" short_inside_bar_dispatched.1.1
           short_inside_bar_dispatched.1.2 short_inside_bar_dispatched.2
           (VStr "No volume confirmation")).
  - exact short_inside_bar_dispatch.
  - reflexivity.
Defined.

(** ** Stale and broken patterns *)

Section MoreBumps.
Context {R : Type}.

Lemma bumps_index {A} lo hi (o : option A) (k : A -> stmt R unit) :
  is_Some o -> (forall a, bumps lo hi (k a)) -> bumps lo hi (index o ≫= k).
Proof. intros [a ->] Hk s. exact (Hk a s). Qed.

Lemma bumps_when_if lo hi b (m : stmt R unit) :
  (lo <= 0 <= hi)%Q -> (b = true -> bumps lo hi m) -> bumps lo hi (when b m).
Proof.
  intros H0 Hm. destruct b; [now apply Hm|].
  apply (bumps_weaken 0 0); [lra | lra | apply bumps_skip].
Qed.

End MoreBumps.

(** The shape statements of the flat top add between 0 and 60. *)
Lemma ft_shape_bumps cfg data : bumps 0 60 (ft_shape cfg data).
Proof.
  unfold ft_shape. cbv zeta.
  apply (bumps_weaken (0 + (0 + 0)) (20 + (25 + 15))); [lra | lra |].
  repeat apply bumps_seq.
  - apply bumps_when_if; [lra|]. intros Hlen.
    apply bumps_index; [in_range|]. intros last_high.
    apply bumps_index; [in_range|]. intros first_high.
    apply bumps_when; [lra|]. apply bumps_award. lra.
  - apply bumps_when_if; [lra|]. intros Hlen.
    apply bumps_index; [in_range|]. intros last_low.
    apply bumps_index; [in_range|]. intros first_low.
    apply bumps_when; [lra|]. apply bumps_award. lra.
  - apply bumps_when; [lra|]. apply bumps_award2. lra.
Qed.

Lemma first_offset_range test offsets default d :
  first_offset test offsets default = Some d -> d = default \/ d ∈ offsets.
Proof.
  induction offsets as [|i rest IH]; simpl.
  - intros [= <-]. now left.
  - destruct (test i) as [[]|]; [intros [= <-]| |discriminate].
    + right. constructor.
    + intros H. destruct (IH H) as [->|Hin]; [now left|].
      right. now constructor.
Qed.

Lemma days_old_range test d :
  first_offset test range_1_11 11 = Some d -> 1 <= d <= 11.
Proof.
  intros [-> | Hin]%first_offset_range; [lia|].
  unfold range_1_11 in Hin.
  repeat (apply elem_of_cons in Hin as [-> | Hin]; [lia|]).
  now apply elem_of_nil in Hin.
Qed.

Lemma run_from_ok {R} (I : state -> Prop) (K : R -> Prop)
    (body : stmt R Empty_set) s r :
  keeps I K anyhow body -> I s ->
  match body s with
  | Next a _ => match a with end
  | Return r => Ok r
  | Raise e _ => Exn e
  end = Ok r -> K r.
Proof.
  intros Hb Hs. specialize (Hb _ Hs).
  destruct (body s) as [[]|r'|]; [|discriminate]. now intros [= ->].
Qed.

(** Neither fact is written by the statement at hand. *)
Ltac plain_side :=
  unfold neither_stale_nor_broken in *; intros; cbn [info score fst snd] in *;
  repeat match goal with H : _ /\ _ |- _ => destruct H end;
  first
    [ split;
      first [ assumption
            | apply lookup_empty
            | rewrite lookup_insert_ne by discriminate; assumption
            | apply lookup_union_None; split; assumption ]
    | exact I
    | idtac ].

(** The results of [detect_flat_top], by kind. *)
Lemma detect_flat_top_outcome {MC} cfg data macd_line signal_line histogram
    (market_context : MC) r :
  detect_flat_top cfg data macd_line signal_line histogram market_context
  = Ok r ->
  neither_stale_nor_broken r
  \/ stale_result (age_limit_flat_top cfg) 12.5 42.5 r
  \/ r = (0%Q, broken_facts "Below support").
Proof.
  unfold detect_flat_top, run.
  destruct (len data <? 50) eqn:Hguard.
  { intros [= <-]. left. split; apply lookup_empty. }
  destruct (iloc_is_Some (col Close data) (- ft_ascent_start data))
    as [start_price Hsp]; [unfold ft_ascent_start; rewrite len_col; lia|].
  change (iloc (col Close data) (- ft_ascent_start data))
    with (ft_start_price data) in Hsp.
  rewrite (step_index _ _ _ _ Hsp). cbv zeta.
  destruct (_ <? Fin (min_initial_gain cfg))%num.
  { intros [= <-]. left. split; apply lookup_empty. }
  rewrite step_add, step_fact.
  destruct (_ <? Fin (min_pullback cfg))%num.
  { intros [= <-]. left. split; reflexivity. }
  match goal with
  | |- context [(ft_shape cfg data ≫= _) ?s0] =>
      destruct (ft_shape_bumps cfg data s0) as (accrued & Hshape & Hb);
      pose proof (ft_shape_lacks cfg data "pattern_stale" _ _
                    ltac:(not_in_keys) Hshape eq_refl) as Hstale;
      pose proof (ft_shape_lacks cfg data "pattern_broken" _ _
                    ltac:(not_in_keys) Hshape eq_refl) as Hbroken
  end.
  rewrite (step_next _ _ _ _ _ Hshape).
  destruct (iloc_is_Some (col Close data) (-1)) as [current_price Hcp];
    [rewrite len_col; lia|].
  destruct (ft_days_old_is_Some cfg data ltac:(lia)) as [days_old Hdays].
  rewrite (step_index _ _ _ _ Hcp), (step_index _ _ _ _ Hdays).
  destruct (Qltb (age_limit_flat_top cfg) (inject_Z days_old)) eqn:Hold.
  { intros [= <-]. right. left. exists days_old. cbn [fst snd].
    unfold lacks in *. cbn [score info] in Hb.
    split; [now rewrite lookup_insert_ne, lookup_insert_eq|].
    split; [now rewrite lookup_insert_eq|].
    split; [now apply Qltb_lt|].
    split; [apply (days_old_range _ _ Hdays)|].
    split; [lra|].
    now rewrite !lookup_insert_ne by discriminate. }
  destruct (_ <? _)%num.
  { intros [= <-]. right. right. reflexivity. }
  intros Hrun. left. revert Hrun.
  apply (run_from_ok (fun s => neither_stale_nor_broken (score s, info s))
           neither_stale_nor_broken); [|now split].
  unfold volume_cap. keeps_steps plain_side.
  apply (keeps_call_raise _ _ _
           (fun r : Q * facts => neither_stale_nor_broken r)).
  - now unfold anyhow.
  - intros res Hres. split; eapply analyze_volume_pattern_keys;
      first [not_in_keys | eassumption].
  - intros [vs vi] Hv. keeps_steps plain_side.
Qed.

(** The results of [detect_bull_flag], by kind. *)
Lemma detect_bull_flag_outcome {MC} cfg data macd_line signal_line histogram
    (market_context : MC) r :
  detect_bull_flag cfg data macd_line signal_line histogram market_context
  = Ok r ->
  neither_stale_nor_broken r
  \/ stale_result (age_limit_bull_flag cfg) 12.5 22.5 r
  \/ r = (0%Q, broken_facts "Below flag support")
  \/ r = (0%Q, broken_facts "Below flagpole start").
Proof.
  unfold detect_bull_flag, run.
  destruct (len data <? 30) eqn:Hguard.
  { intros [= <-]. left. split; apply lookup_empty. }
  destruct (iloc_is_Some (col Close data) (- bf_flagpole_start data))
    as [start_price Hsp]; [unfold bf_flagpole_start; rewrite len_col; lia|].
  change (iloc (col Close data) (- bf_flagpole_start data))
    with (bf_start_price data) in Hsp.
  rewrite (step_index _ _ _ _ Hsp). cbv zeta.
  destruct (_ <? Fin (min_flagpole_gain cfg))%num.
  { intros [= <-]. left. split; apply lookup_empty. }
  rewrite step_add, step_fact.
  destruct (iloc_is_Some (col Close data) (- bf_flagpole_end))
    as [flag_start Hfs]; [unfold bf_flagpole_end; rewrite len_col; lia|].
  destruct (iloc_is_Some (col Close data) (-1)) as [current_price Hcp];
    [rewrite len_col; lia|].
  change (iloc (col Close data) (-1)) with (bf_current_price data) in Hcp.
  rewrite (step_index _ _ _ _ Hfs), (step_index _ _ _ _ Hcp).
  destruct (bf_days_old_is_Some data ltac:(lia)) as [days_old Hdays].
  match goal with
  | |- context [when (?x && ?y) _] => destruct (x && y)
  end;
    (erewrite step_next; [|reflexivity]);
    (destruct (bf_below_flag_support cfg data current_price);
       [intros [= <-]; right; right; left; reflexivity|]);
    (destruct (Qltb current_price start_price);
       [intros [= <-]; right; right; right; reflexivity|]);
    rewrite (step_index _ _ _ _ Hdays);
    (destruct (Qltb (age_limit_bull_flag cfg) (inject_Z days_old)) eqn:Hold;
       [intros [= <-]; right; left; exists days_old; cbn [fst snd];
        split; [now rewrite lookup_insert_ne, lookup_insert_eq|];
        split; [now rewrite lookup_insert_eq|];
        split; [now apply Qltb_lt|];
        split; [apply (days_old_range _ _ Hdays)|];
        split; [cbn; lra | reflexivity]
       |]).
  all: intros Hrun; left; revert Hrun.
  all: apply (run_from_ok (fun s => neither_stale_nor_broken (score s, info s))
                neither_stale_nor_broken); [|split; reflexivity].
  all: unfold volume_cap; keeps_steps plain_side.
  all: apply (keeps_call_raise _ _ _
                (fun r : Q * facts => neither_stale_nor_broken r));
    [ now unfold anyhow
    | intros res Hres; split; eapply analyze_volume_pattern_keys;
      first [not_in_keys | eassumption]
    | intros [vs vi] Hv; keeps_steps plain_side ].
Qed.

(** The inside-bar and cup-and-handle detectors record neither fact. *)
Lemma detect_cup_handle_plain {MC} cfg data macd_line signal_line histogram
    (market_context : MC) r :
  detect_cup_handle cfg data macd_line signal_line histogram market_context
  = Ok r -> neither_stale_nor_broken r.
Proof.
  unfold detect_cup_handle, ch_scoring, volume_cap.
  apply (run_keeps_ok (fun s => neither_stale_nor_broken (score s, info s))
           neither_stale_nor_broken); [|split; apply lookup_empty].
  keeps_steps plain_side.
  apply (keeps_call_raise _ _ _
           (fun r : Q * facts => neither_stale_nor_broken r));
    [ now unfold anyhow
    | intros res Hres; split; eapply analyze_volume_pattern_keys;
      first [not_in_keys | eassumption]
    | intros [vs vi] Hv; keeps_steps plain_side ].
Qed.

Lemma detect_inside_bar_plain {MC} cfg data macd_line signal_line histogram
    (market_context : MC) timeframe r :
  detect_inside_bar cfg data macd_line signal_line histogram market_context
    timeframe = Ok r -> neither_stale_nor_broken r.
Proof.
  unfold detect_inside_bar, volume_cap.
  apply (run_keeps_ok (fun s => neither_stale_nor_broken (score s, info s))
           neither_stale_nor_broken); [|split; apply lookup_empty].
  keeps_steps plain_side.
  apply (keeps_call_raise _ _ _
           (fun r : Q * facts => neither_stale_nor_broken r));
    [ now unfold anyhow
    | intros res Hres; split; eapply analyze_volume_pattern_keys;
      first [not_in_keys | eassumption]
    | intros [vs vi] Hv; keeps_steps plain_side ].
Qed.

(** X5. A result that carries the broken-pattern fact is a bare hard
    reject: confidence exactly 0 and a fact map of exactly two facts, the
    flag and the reason, which is "Below support" for the flat top and
    "Below flag support" or "Below flagpole start" for the bull flag; the
    cup-and-handle and inside-bar detectors never return such a fact. *)
Theorem broken_result_is_bare {MC} cfg data macd_line signal_line histogram
    (market_context : MC) timeframe c i v :
  i !! "pattern_broken" = Some v ->
  (detect_flat_top cfg data macd_line signal_line histogram market_context
   = Ok (c, i) ->
   c = 0%Q /\ i = broken_facts "Below support")
  /\ (detect_bull_flag cfg data macd_line signal_line histogram
        market_context = Ok (c, i) ->
      c = 0%Q
      /\ (i = broken_facts "Below flag support"
          \/ i = broken_facts "Below flagpole start"))
  /\ detect_cup_handle cfg data macd_line signal_line histogram
       market_context <> Ok (c, i)
  /\ detect_inside_bar cfg data macd_line signal_line histogram
       market_context timeframe <> Ok (c, i).
Proof.
  intros Hv. split; [|split; [|split]].
  - intros Hrun.
    destruct (detect_flat_top_outcome _ _ _ _ _ _ _ Hrun)
      as [[_ H] | [(d & _ & _ & _ & _ & _ & H) | [= -> ->]]];
      [cbn in H; congruence.. | now split].
  - intros Hrun.
    destruct (detect_bull_flag_outcome _ _ _ _ _ _ _ Hrun)
      as [[_ H] | [(d & _ & _ & _ & _ & _ & H) | [[= -> ->] | [= -> ->]]]];
      [cbn in H; congruence.. | |].
    + split; [reflexivity | now left].
    + split; [reflexivity | now right].
  - intros Hrun.
    destruct (detect_cup_handle_plain _ _ _ _ _ _ _ Hrun) as [_ H].
    cbn in H. congruence.
  - intros Hrun.
    destruct (detect_inside_bar_plain _ _ _ _ _ _ _ _ Hrun) as [_ H].
    cbn in H. congruence.
Qed.

(** X6. A result that carries the stale fact also carries the age, which
    is above the configured limit and at most 11 (so a limit of 11 or
    more rules staleness out), has no broken-pattern fact, and has half the
    confidence accrued before the age check: between 12.5 and 42.5 for the
    flat top, between 12.5 and 22.5 for the bull flag; the cup-and-handle
    and inside-bar detectors never return the stale fact. *)
Theorem stale_result_is_aged {MC} cfg data macd_line signal_line histogram
    (market_context : MC) timeframe c i v :
  i !! "pattern_stale" = Some v ->
  (detect_flat_top cfg data macd_line signal_line histogram market_context
   = Ok (c, i) ->
   stale_result (age_limit_flat_top cfg) 12.5 42.5 (c, i))
  /\ (detect_bull_flag cfg data macd_line signal_line histogram
        market_context = Ok (c, i) ->
      stale_result (age_limit_bull_flag cfg) 12.5 22.5 (c, i))
  /\ detect_cup_handle cfg data macd_line signal_line histogram
       market_context <> Ok (c, i)
  /\ detect_inside_bar cfg data macd_line signal_line histogram
       market_context timeframe <> Ok (c, i).
Proof.
  intros Hv. split; [|split; [|split]].
  - intros Hrun.
    destruct (detect_flat_top_outcome _ _ _ _ _ _ _ Hrun)
      as [[H _] | [H | [= -> ->]]]; [cbn in H; congruence | exact H |].
    discriminate.
  - intros Hrun.
    destruct (detect_bull_flag_outcome _ _ _ _ _ _ _ Hrun)
      as [[H _] | [H | [[= -> ->] | [= -> ->]]]];
      [cbn in H; congruence | exact H | discriminate..].
  - intros Hrun.
    destruct (detect_cup_handle_plain _ _ _ _ _ _ _ Hrun) as [H _].
    cbn in H. congruence.
  - intros Hrun.
    destruct (detect_inside_bar_plain _ _ _ _ _ _ _ _ Hrun) as [H _].
    cbn in H. congruence.
Qed.

Lemma not_detected_below c hi :
  (c <= hi)%Q -> (hi < 55)%Q -> Qle_bool 55 c = false.
Proof.
  intros Hc Hhi. destruct (Qle_bool 55 c) eqn:E; [|reflexivity].
  apply Qle_bool_iff in E. lra.
Qed.

(** X7. Whatever the dispatcher returns with the stale fact or the
    broken-pattern fact is not reported as detected: its confidence is
    below 55. *)
Theorem stale_or_broken_not_detected {MC} cfg data pattern_type
    (market_context : MC) timeframe detected c i v :
  detect_pattern cfg data pattern_type market_context timeframe
  = Ok (detected, c, i) ->
  i !! "pattern_stale" = Some v \/ i !! "pattern_broken" = Some v ->
  detected = false /\ (c < 55)%Q.
Proof.
  unfold detect_pattern.
  destruct (len data <? 10); [intros [= <- <- <-] [H | H]; discriminate|].
  cbv zeta.
  assert (Hlook : forall (i0 : facts) a b c0 k,
            k = "pattern_stale" \/ k = "pattern_broken" ->
            <["histogram" := a]> (<["signal_line" := b]>
              (<["macd_line" := c0]> i0)) !! k = i0 !! k).
  { intros i0 a b c0 k [-> | ->]; now rewrite !lookup_insert_ne by discriminate. }
  assert (Hfin : forall c0 hi, (c0 <= hi)%Q -> (hi < 55)%Q ->
            Qle_bool 55 (Qmin c0 100) = false /\ (Qmin c0 100 < 55)%Q).
  { intros c0 hi H1 H2. pose proof (Q.le_min_l c0 100).
    split; [apply (not_detected_below _ hi); lra | lra]. }
  destruct (String.eqb pattern_type "Flat Top Breakout");
    [|destruct (String.eqb pattern_type "Bull Flag");
      [|destruct (String.eqb pattern_type "Cup Handle");
        [|destruct (String.eqb pattern_type "Inside Bar")]]].
  - destruct (detect_flat_top _ _ _ _ _ _) as [[c0 i0]|] eqn:Hrun;
      [|discriminate].
    cbn. intros [= <- <- <-]. rewrite !Hlook by auto. intros Hv.
    destruct (detect_flat_top_outcome _ _ _ _ _ _ _ Hrun)
      as [[H1 H2] | [(d & _ & _ & _ & _ & Hc & _) | [= -> ->]]].
    + cbn in H1, H2. destruct Hv; congruence.
    + cbn in Hc. apply (Hfin c0 42.5%Q); lra.
    + apply (Hfin 0 0)%Q; lra.
  - destruct (detect_bull_flag _ _ _ _ _ _) as [[c0 i0]|] eqn:Hrun;
      [|discriminate].
    cbn. intros [= <- <- <-]. rewrite !Hlook by auto. intros Hv.
    destruct (detect_bull_flag_outcome _ _ _ _ _ _ _ Hrun)
      as [[H1 H2] | [(d & _ & _ & _ & _ & Hc & _) | [[= -> ->] | [= -> ->]]]].
    + cbn in H1, H2. destruct Hv; congruence.
    + cbn in Hc. apply (Hfin (c0 * 1.05) 23.625)%Q; lra.
    + apply (Hfin (0 * 1.05) 0)%Q; lra.
    + apply (Hfin (0 * 1.05) 0)%Q; lra.
  - destruct (detect_cup_handle _ _ _ _ _ _) as [[c0 i0]|] eqn:Hrun;
      [|discriminate].
    cbn. intros [= <- <- <-]. rewrite !Hlook by auto. intros Hv.
    destruct (detect_cup_handle_plain _ _ _ _ _ _ _ Hrun) as [H1 H2].
    cbn in H1, H2. destruct Hv; congruence.
  - destruct (detect_inside_bar _ _ _ _ _ _ _) as [[c0 i0]|] eqn:Hrun;
      [|discriminate].
    cbn. intros [= <- <- <-]. rewrite !Hlook by auto. intros Hv.
    destruct (detect_inside_bar_plain _ _ _ _ _ _ _ _ Hrun) as [H1 H2].
    cbn in H1, H2. destruct Hv; congruence.
  - cbn. intros [= <- <- <-]. rewrite !Hlook by auto.
    intros [H | H]; discriminate.
Qed.

Lemma broken_result_is_bare_witness :
  broken_facts "Below flag support" !! "pattern_broken" = Some (VBool true)
  /\ detect_bull_flag sample_config broken_flag [] [] [] tt
     = Ok (0%Q, broken_facts "Below flag support")
  /\ (0%Q = 0%Q
      /\ (broken_facts "Below flag support" = broken_facts "Below flag support"
          \/ broken_facts "Below flag support"
             = broken_facts "Below flagpole start")).
Proof.
  assert (Hrun : detect_bull_flag sample_config broken_flag [] [] [] tt
                 = Ok (0%Q, broken_facts "Below flag support"))
    by reflexivity.
  split; [reflexivity|]. split; [exact Hrun|].
  destruct (broken_result_is_bare sample_config broken_flag [] [] [] tt
              "daily" 0%Q (broken_facts "Below flag support") (VBool true)
              eq_refl) as (_ & Hbull & _).
  exact (Hbull Hrun).
Defined.

Lemma stale_flat_top_run :
  detect_flat_top sample_config stale_flat_top [] [] [] tt
  = Ok (stale_flat_top_result.1, stale_flat_top_result.2).
Proof. reflexivity. Qed.

Lemma stale_result_is_aged_witness :
  stale_flat_top_result.1 = 12.5%Q
  /\ stale_flat_top_result.2 !! "days_old" = Some (VInt 11)
  /\ stale_result (age_limit_flat_top sample_config) 12.5 42.5
       (stale_flat_top_result.1, stale_flat_top_result.2).
Proof.
  split; [reflexivity|]. split; [reflexivity|].
  destruct (stale_result_is_aged sample_config stale_flat_top [] [] [] tt
              "daily" stale_flat_top_result.1 stale_flat_top_result.2
              (VBool true) eq_refl) as (Hflat & _).
  exact (Hflat stale_flat_top_run).
Defined.

Lemma broken_flag_dispatch :
  detect_pattern sample_config broken_flag "Bull Flag" tt "daily"
  = Ok (false, Qmin (0 * 1.05) 100,
        <["histogram" := VSeries (histogram_of broken_flag)]>
          (<["signal_line" := VSeries (signal_of broken_flag)]>
             (<["macd_line" := VSeries (macd_of broken_flag)]>
                (broken_facts "Below flag support")))).
Proof. reflexivity. Qed.

Lemma stale_or_broken_not_detected_witness :
  false = false /\ (Qmin (0 * 1.05) 100 < 55)%Q.
Proof.
  apply (stale_or_broken_not_detected sample_config broken_flag "Bull Flag"
           tt "daily" false (Qmin (0 * 1.05) 100) _ (VBool true)
           broken_flag_dispatch).
  right. now rewrite !lookup_insert_ne by discriminate.
Defined.

(* ------------------------------------------------------------------ *)
(** * The inside-bar detector, characterised by the last two bars *)

Lemma step_position {R A B} (k : A -> stmt R B) (s : state) (o : option A) a :
  o = Some a -> (position o ≫= k) s = k a s.
Proof. now intros ->. Qed.

Lemma Qlt_le_bool x y : (x < y)%Q -> Qle_bool x y = true.
Proof. intros H. apply Qle_bool_iff. lra. Qed.

(** The scan finds the latest bar when it is strictly inside the bar
    before it, that bar is green and the latest is red. *)
Lemma scan_found data timeframe latest mother :
  iloc data (-1) = Some latest -> iloc data (-2) = Some mother ->
  (High latest < High mother)%Q -> (Low mother < Low latest)%Q ->
  (Open mother < Close mother)%Q -> (Close latest < Open latest)%Q ->
  scan_inside_bars data timeframe = scan_single.
Proof.
  intros Hl Hm Hh Hlo Hg Hr. unfold scan_inside_bars.
  assert (Hrange : exists rest,
            max_lookback_range timeframe = -1 :: -2 :: rest).
  { unfold max_lookback_range. destruct (is_weekly timeframe); eauto. }
  destruct Hrange as [rest ->].
  change (mkScan None 0 []) with scan_none. cbn [scan_loop].
  assert (Hfirst : scan_step data (-1) scan_none = (scan_single, true)).
  { unfold scan_step. change (-1 - 1) with (-2). rewrite Hl, Hm.
    rewrite (Qlt_le_bool _ _ Hh), (Qlt_le_bool _ _ Hlo).
    rewrite (proj2 (Qltb_lt _ _) Hh), (proj2 (Qltb_lt _ _) Hlo),
      (proj2 (Qltb_lt _ _) Hg), (proj2 (Qltb_lt _ _) Hr).
    reflexivity. }
  rewrite Hfirst.
  rewrite (scan_step_second data mother Hm (proj2 (Qltb_lt _ _) Hg)).
  reflexivity.
Qed.

(** The scan finds nothing otherwise. *)
Lemma scan_not_found data timeframe latest mother :
  iloc data (-1) = Some latest -> iloc data (-2) = Some mother ->
  ~ ((High latest < High mother)%Q /\ (Low mother < Low latest)%Q
     /\ (Open mother < Close mother)%Q /\ (Close latest < Open latest)%Q) ->
  scan_inside_bars data timeframe = scan_none.
Proof.
  intros Hl Hm Hnot. unfold scan_inside_bars.
  assert (Hrange : exists rest,
            max_lookback_range timeframe = -1 :: rest).
  { unfold max_lookback_range. destruct (is_weekly timeframe); eauto. }
  destruct Hrange as [rest ->].
  change (mkScan None 0 []) with scan_none. cbn [scan_loop].
  assert (Hfirst : scan_step data (-1) scan_none = (scan_none, false)).
  { unfold scan_step. change (-1 - 1) with (-2). rewrite Hl, Hm.
    destruct (Qltb (High latest) (High mother)) eqn:E1;
      [|now rewrite !andb_false_r].
    destruct (Qltb (Low mother) (Low latest)) eqn:E2;
      [|now rewrite !andb_false_r].
    destruct (Qltb (Open mother) (Close mother)) eqn:E3;
      [|now rewrite !andb_false_r].
    destruct (Qltb (Close latest) (Open latest)) eqn:E4;
      [|now rewrite !andb_false_r].
    destruct Hnot. now rewrite <- !Qltb_lt. }
  now rewrite Hfirst.
Qed.

(** X8 (detect_inside_bar, no pattern).  On at least five bars, when the
    latest bar is not a red bar strictly inside a green bar before it
    (one of: high below the previous high, low above the previous low,
    previous bar closing above its open, latest bar closing below its
    open, fails), the detector returns confidence 0 and records nothing
    but the timeframe label. *)
Theorem inside_bar_not_found {MC} cfg data macd_line signal_line histogram
    (market_context : MC) timeframe latest mother :
  5 <= len data ->
  iloc data (-1) = Some latest -> iloc data (-2) = Some mother ->
  ~ ((High latest < High mother)%Q /\ (Low mother < Low latest)%Q
     /\ (Open mother < Close mother)%Q /\ (Close latest < Open latest)%Q) ->
  detect_inside_bar cfg data macd_line signal_line histogram market_context
    timeframe = Ok (0%Q, timeframe_facts timeframe).
Proof.
  intros Hlen Hl Hm Hnot. unfold detect_inside_bar, run.
  destruct (len data <? 5) eqn:Hguard; [lia|].
  rewrite step_fact. cbv zeta.
  rewrite (scan_not_found data timeframe latest mother Hl Hm Hnot).
  reflexivity.
Qed.

(** In [double_inside_bars] the bar before the latest is red. *)
Lemma inside_bar_not_found_witness :
  detect_inside_bar sample_config double_inside_bars [] [] [] tt "daily"
  = Ok (0%Q, timeframe_facts "daily").
Proof.
  apply (inside_bar_not_found sample_config double_inside_bars [] [] [] tt
           "daily" (mkBar 10.5 11.5 9.5 10 1000)
           (mkBar 11 11.8 9.2 10 1000)).
  - vm_compute. discriminate.
  - reflexivity.
  - reflexivity.
  - intros (_ & _ & Hgreen & _). vm_compute in Hgreen. discriminate.
Defined.

Ltac found_lookups :=
  repeat split;
  rewrite ?lookup_insert_ne by discriminate;
  rewrite ?lookup_union_r by assumption;
  first [assumption | apply lookup_insert_eq].

Ltac found_side :=
  unfold found_result, config_nonneg in *; intros;
  cbn [info score fst snd] in *;
  repeat match goal with H : _ /\ _ |- _ => destruct H end;
  (split; [found_lookups|]);
  intros;
  repeat match goal with H : _ /\ _ |- _ => destruct H end;
  repeat match goal with
         | H : ?P -> _, H' : ?P |- _ => specialize (H H')
         end;
  repeat match goal with
         | H : (_ /\ _) -> _ |- _ =>
             let H' := fresh in
             assert (H' := H ltac:(repeat split; assumption)); clear H
         end;
  first
    [ assumption
    | match goal with
      | |- (_ <= Qmin _ _)%Q =>
          apply Q.min_glb; [assumption | apply Q.le_min_r]
      end
    | match goal with
      | |- (?l <= ?s + ?q)%Q =>
          let Hq := fresh in
          assert (Hq : (0 <= q)%Q) by q_nonneg; lra
      end
    | idtac ].

Lemma detect_inside_bar_found {MC} cfg data macd_line signal_line histogram
    (market_context : MC) timeframe latest mother :
  5 <= len data ->
  iloc data (-1) = Some latest -> iloc data (-2) = Some mother ->
  (High latest < High mother)%Q -> (Low mother < Low latest)%Q ->
  (Open mother < Close mother)%Q -> (Close latest < Open latest)%Q ->
  1 <= len macd_line -> 1 <= len signal_line -> 3 <= len histogram ->
  exists r,
    detect_inside_bar cfg data macd_line signal_line histogram
      market_context timeframe = Ok r
    /\ found_result cfg timeframe latest mother r.
Proof.
  intros Hlen Hl Hm Hh Hlo Hg Hr Hmacd Hsig Hhist.
  unfold detect_inside_bar, run.
  destruct (len data <? 5) eqn:Hguard; [lia|].
  rewrite step_fact. cbn [score info]. cbv zeta.
  rewrite (scan_found data timeframe latest mother Hl Hm Hh Hlo Hg Hr).
  cbn [inside_bars_count mother_bar_idx inside_bar_indices scan_single head].
  change (1 =? 0) with false. change (1 =? 1) with true. cbv iota.
  rewrite (step_position _ _ _ (-2) eq_refl).
  rewrite (step_index _ _ _ _ Hm).
  rewrite (step_index _ _ (Some (-1)) (-1) eq_refl).
  rewrite (step_index _ _ _ _ Hl).
  rewrite (proj2 (Qltb_lt _ _) Hg), (proj2 (Qltb_lt _ _) Hr).
  cbn [andb negb].
  repeat (first [rewrite step_add | rewrite step_fact]; cbn [score info]).
  erewrite step_next; [|reflexivity]. cbn [score info].
  assert (Haging : (-2 <=? aging_threshold timeframe) = false).
  { unfold aging_threshold. now destruct (is_weekly timeframe). }
  rewrite Haging.
  apply (run_from (fun s => found_result cfg timeframe latest mother
                              (score s, info s))
           (found_result cfg timeframe latest mother)).
  - unfold volume_cap. keeps_steps found_side.
    apply (keeps_call _ _ _
             (fun r : Q * facts =>
                nonneg_result (config_nonneg cfg) r
                /\ r.2 !! "inside_bars_count" = None
                /\ r.2 !! "single_inside_bar" = None
                /\ r.2 !! "color_validated" = None
                /\ r.2 !! "mother_bar_high" = None
                /\ r.2 !! "mother_bar_low" = None
                /\ r.2 !! "inside_bar_high" = None
                /\ r.2 !! "inside_bar_low" = None)).
    + destruct (analyze_volume_pattern_nonneg cfg data "Inside Bar" i)
        as (res & Hres & Hnn).
      exists res. split; [exact Hres|]. split; [exact Hnn|].
      repeat split; eapply analyze_volume_pattern_keys;
        first [not_in_keys | eassumption].
    + intros [vs vi] Hv. unfold nonneg_result in Hv.
      keeps_steps found_side. discriminate.
  - split.
    + cbn [fst snd score info]. found_lookups.
    + intros _. cbn [fst snd score info].
      pose proof (Q.le_min_l (ib_base timeframe + 30)
                    (MAX_CONFIDENCE_WITHOUT_VOLUME cfg)).
      unfold ib_base in *. destruct (is_weekly timeframe); lra.
Qed.

(** X9 (detect_inside_bar, pattern found).  On at least five bars with
    one MACD value, one signal value and three histogram values, a red
    latest bar strictly inside a green bar before it is always found: the
    detector returns, counts exactly one inside bar, records the highs
    and lows of both bars, and (for a configuration without negative
    points) scores at least the smaller of base + 30 and the no-volume
    ceiling. *)
Theorem inside_bar_found_facts {MC} cfg data macd_line signal_line histogram
    (market_context : MC) timeframe latest mother :
  5 <= len data ->
  iloc data (-1) = Some latest -> iloc data (-2) = Some mother ->
  (High latest < High mother)%Q -> (Low mother < Low latest)%Q ->
  (Open mother < Close mother)%Q -> (Close latest < Open latest)%Q ->
  1 <= len macd_line -> 1 <= len signal_line -> 3 <= len histogram ->
  exists c i,
    detect_inside_bar cfg data macd_line signal_line histogram
      market_context timeframe = Ok (c, i)
    /\ i !! "inside_bars_count" = Some (VInt 1)
    /\ i !! "single_inside_bar" = Some (VBool true)
    /\ i !! "mother_bar_high" = Some (VNum (High mother))
    /\ i !! "mother_bar_low" = Some (VNum (Low mother))
    /\ i !! "inside_bar_high" = Some (VNum (High latest))
    /\ i !! "inside_bar_low" = Some (VNum (Low latest))
    /\ (config_nonneg cfg ->
        (Qmin (ib_base timeframe + 30) (MAX_CONFIDENCE_WITHOUT_VOLUME cfg)
         <= c)%Q).
Proof.
  intros Hlen Hl Hm Hh Hlo Hg Hr Hmacd Hsig Hhist.
  destruct (detect_inside_bar_found cfg data macd_line signal_line histogram
              market_context timeframe latest mother)
    as ([c i] & Hrun & (H1 & H2 & _ & H3 & H4 & H5 & H6) & Hc);
    try assumption.
  exists c, i. repeat split; assumption.
Qed.

Lemma inside_bar_found_facts_witness :
  exists c i,
    detect_inside_bar sample_config single_inside_bar [0%Q] [0%Q]
      [0%Q; 0%Q; 0%Q] tt "daily" = Ok (c, i)
    /\ i !! "inside_bars_count" = Some (VInt 1)
    /\ i !! "single_inside_bar" = Some (VBool true)
    /\ i !! "mother_bar_high" = Some (VNum 12%Q)
    /\ i !! "mother_bar_low" = Some (VNum 9%Q)
    /\ i !! "inside_bar_high" = Some (VNum 11.5%Q)
    /\ i !! "inside_bar_low" = Some (VNum 9.5%Q)
    /\ (config_nonneg sample_config -> (Qmin (30 + 30) 70 <= c)%Q).
Proof.
  apply (inside_bar_found_facts sample_config single_inside_bar [0%Q] [0%Q]
           [0%Q; 0%Q; 0%Q] tt "daily" (mkBar 10.5 11.5 9.5 10 1000)
           (mkBar 10 12 9 11 1000)); try reflexivity; vm_compute; discriminate.
Defined.

(** X10 (detect_pattern, "Inside Bar").  On at least ten bars, with a
    configuration without negative points whose no-volume ceiling is at
    least 55, a red latest bar strictly inside a green bar before it is
    reported as detected, with a confidence between 55 and 100 and one
    inside bar counted. *)
Theorem inside_bar_reported {MC} cfg data (market_context : MC) timeframe
    latest mother :
  10 <= len data ->
  iloc data (-1) = Some latest -> iloc data (-2) = Some mother ->
  (High latest < High mother)%Q -> (Low mother < Low latest)%Q ->
  (Open mother < Close mother)%Q -> (Close latest < Open latest)%Q ->
  config_nonneg cfg -> (55 <= MAX_CONFIDENCE_WITHOUT_VOLUME cfg)%Q ->
  exists c i,
    detect_pattern cfg data "Inside Bar" market_context timeframe
    = Ok (true, c, i)
    /\ (55 <= c <= 100)%Q
    /\ i !! "inside_bars_count" = Some (VInt 1).
Proof.
  intros Hlen Hl Hm Hh Hlo Hg Hr Hcfg Hmax.
  destruct (detect_inside_bar_found cfg data (macd_of data) (signal_of data)
              (histogram_of data) market_context timeframe latest mother)
    as ([c0 i0] & Hrun & (H1 & _) & Hc);
    try assumption; try lia;
    rewrite ?len_macd_of, ?len_signal_of, ?len_histogram_of; try lia.
  specialize (Hc Hcfg). cbn [fst snd] in *.
  assert (H55 : (55 <= Qmin c0 100)%Q).
  { apply Q.min_glb; [|lra].
    pose proof (Q.min_glb (ib_base timeframe + 30)
                  (MAX_CONFIDENCE_WITHOUT_VOLUME cfg) 55) as Hglb.
    assert (55 <= ib_base timeframe + 30)%Q
      by (unfold ib_base; destruct (is_weekly timeframe); lra).
    specialize (Hglb ltac:(assumption) Hmax). lra. }
  unfold detect_pattern.
  destruct (len data <? 10) eqn:Hguard; [lia|]. cbv zeta.
  cbn [String.eqb Ascii.eqb Bool.eqb]. rewrite Hrun. cbn.
  exists (Qmin c0 100),
    (<["histogram" := VSeries (histogram_of data)]>
       (<["signal_line" := VSeries (signal_of data)]>
          (<["macd_line" := VSeries (macd_of data)]> i0))).
  split; [|split].
  - now rewrite (proj2 (Qle_bool_iff 55 (Qmin c0 100)) H55).
  - split; [exact H55 | apply Q.le_min_r].
  - now rewrite !lookup_insert_ne by discriminate.
Qed.

Lemma inside_bar_reported_witness :
  exists c i,
    detect_pattern sample_config short_inside_bar "Inside Bar" tt "daily"
    = Ok (true, c, i)
    /\ (55 <= c <= 100)%Q
    /\ i !! "inside_bars_count" = Some (VInt 1).
Proof.
  apply (inside_bar_reported sample_config short_inside_bar tt "daily"
           (mkBar 10.5 11.5 9.5 10 1000) (mkBar 10 12 9 11 1000));
    try reflexivity.
  - vm_compute. discriminate.
  - exact sample_config_nonneg.
  - vm_compute. discriminate.
Defined.

(* ------------------------------------------------------------------ *)
(** * Walking a body through statements that fall through *)

Lemma iloc_None {A} (l : list A) (i : Z) :
  i < 0 -> len l + i < 0 -> iloc l i = None.
Proof.
  intros Hi Hl. unfold iloc.
  destruct (0 <=? i) eqn:E; [lia|].
  destruct (0 <=? len l + i) eqn:E'; [lia | reflexivity].
Qed.

Section Falls.
Context {R : Type}.

Lemma falls_skip : falls (R := R) skip.
Proof. intros s. now exists s. Qed.

Lemma falls_add q : falls (R := R) (add q).
Proof. intros s. now eexists. Qed.

Lemma falls_fact k v : falls (R := R) (fact k v).
Proof. intros s. now eexists. Qed.

Lemma falls_seq (m1 m2 : stmt R unit) :
  falls m1 -> falls m2 -> falls (m1;; m2).
Proof.
  intros H1 H2 s. destruct (H1 s) as [s1 E1]. destruct (H2 s1) as [s2 E2].
  exists s2. now rewrite (step_next _ _ _ _ _ E1).
Qed.

Lemma falls_when b (m : stmt R unit) : falls m -> falls (when b m).
Proof. intros H. destruct b; [exact H | apply falls_skip]. Qed.

Lemma step_falls {B} (m : stmt R unit) (k : unit -> stmt R B) s :
  falls m -> exists s', (m ≫= k) s = k tt s'.
Proof.
  intros H. destruct (H s) as [s' E]. exists s'. now apply step_next.
Qed.

End Falls.

Ltac falls_steps :=
  repeat first
    [ apply falls_skip | apply falls_add | apply falls_fact
    | apply falls_seq | apply falls_when
    | match goal with |- falls (if ?b then _ else _) => destruct b end
    | progress cbv zeta ].

Ltac fall_through :=
  let s' := fresh "s" in
  let E := fresh "E" in
  lazymatch goal with
  | |- context [(when ?b ?m ≫= ?k) ?s] =>
      destruct (step_falls (when b m) k s) as [s' E];
      [falls_steps | rewrite E; clear E]
  | |- context [((if ?b then ?x else ?y) ≫= ?k) ?s] =>
      destruct (step_falls (if b then x else y) k s) as [s' E];
      [falls_steps | rewrite E; clear E]
  end.

Lemma step_assoc {R A B C} (m : stmt R A) (f : A -> stmt R B)
    (g : B -> stmt R C) s :
  ((m ≫= f) ≫= g) s = (m ≫= (fun a => f a ≫= g)) s.
Proof.
  unfold mbind, stmt_bind, bind. now destruct (m s).
Qed.

(* ------------------------------------------------------------------ *)
(** * The inside-bar detector: indicator series and the price check *)

(** X11 (detect_inside_bar, short indicator series).  When a red latest
    bar strictly inside a green bar before it is found and the MACD line
    or the signal line is empty, or the histogram has fewer than three
    values, the detector raises IndexError instead of returning. *)
Theorem inside_bar_short_indicators {MC} cfg data macd_line signal_line
    histogram (market_context : MC) timeframe latest mother :
  5 <= len data ->
  iloc data (-1) = Some latest -> iloc data (-2) = Some mother ->
  (High latest < High mother)%Q -> (Low mother < Low latest)%Q ->
  (Open mother < Close mother)%Q -> (Close latest < Open latest)%Q ->
  len macd_line = 0 \/ len signal_line = 0 \/ len histogram < 3 ->
  detect_inside_bar cfg data macd_line signal_line histogram market_context
    timeframe = Exn IndexError.
Proof.
  intros Hlen Hl Hm Hh Hlo Hg Hr Hshort.
  unfold detect_inside_bar, run.
  destruct (len data <? 5) eqn:Hguard; [lia|].
  rewrite step_fact. cbn [score info]. cbv zeta.
  rewrite (scan_found data timeframe latest mother Hl Hm Hh Hlo Hg Hr).
  cbn [inside_bars_count mother_bar_idx inside_bar_indices scan_single head].
  change (1 =? 0) with false. change (1 =? 1) with true. cbv iota.
  rewrite (step_position _ _ _ (-2) eq_refl).
  rewrite (step_index _ _ _ _ Hm).
  rewrite (step_index _ _ (Some (-1)) (-1) eq_refl).
  rewrite (step_index _ _ _ _ Hl).
  rewrite (proj2 (Qltb_lt _ _) Hg), (proj2 (Qltb_lt _ _) Hr).
  cbn [andb negb].
  repeat (first [rewrite step_add | rewrite step_fact]; cbn [score info]).
  erewrite step_next; [|reflexivity]. cbn [score info].
  assert (Hback : forall x, iloc histogram (-1) = Some x ->
                  len histogram < 3 -> iloc histogram (-3) = None).
  { intros x _ H3. apply iloc_None; lia. }
  assert (Hcases :
    iloc macd_line (-1) = None
    \/ (exists m, iloc macd_line (-1) = Some m
        /\ (iloc signal_line (-1) = None
            \/ exists g, iloc signal_line (-1) = Some g
               /\ (iloc histogram (-1) = None
                   \/ exists x, iloc histogram (-1) = Some x
                      /\ iloc histogram (-3) = None)))).
  { destruct (iloc macd_line (-1)) as [m|] eqn:Em; [right | now left].
    exists m. split; [reflexivity|].
    destruct (iloc signal_line (-1)) as [g|] eqn:Eg; [right | now left].
    exists g. split; [reflexivity|].
    destruct (iloc histogram (-1)) as [x|] eqn:Ex; [right | now left].
    exists x. split; [reflexivity|].
    destruct Hshort as [H | [H | H]].
    - rewrite iloc_None in Em by lia. discriminate.
    - rewrite iloc_None in Eg by lia. discriminate.
    - apply iloc_None; lia. }
  clear Hshort Hback.
  do 2 fall_through.
  destruct Hcases
    as [Em | (m & Em & [Eg | (g & Eg & [Ex | (x & Ex & Eb)])])].
  - now rewrite Em.
  - now rewrite (step_index _ _ _ _ Em), Eg.
  - rewrite (step_index _ _ _ _ Em), (step_index _ _ _ _ Eg).
    fall_through. now rewrite Ex.
  - rewrite (step_index _ _ _ _ Em), (step_index _ _ _ _ Eg).
    fall_through. now rewrite (step_index _ _ _ _ Ex), Eb.
Qed.

Lemma inside_bar_short_indicators_witness :
  detect_inside_bar sample_config single_inside_bar [] [] [] tt "daily"
  = Exn IndexError.
Proof.
  apply (inside_bar_short_indicators sample_config single_inside_bar [] [] []
           tt "daily" (mkBar 10.5 11.5 9.5 10 1000) (mkBar 10 12 9 11 1000));
    try reflexivity; try (vm_compute; discriminate).
  left. reflexivity.
Defined.

Ltac price_side :=
  intros; cbn [info score fst snd] in *;
  repeat match goal with H : _ /\ _ |- _ => destruct H end;
  first
    [ assumption
    | rewrite lookup_insert_ne by discriminate; assumption
    | rewrite lookup_union_r by assumption; assumption ].

(** X12 (detect_inside_bar, price check).  For a found inside bar whose
    low is not negative and whose close is not below its low, the result
    always carries price_in_range: the price compared with 98% of the
    inside bar's low is that bar's own close. *)
Theorem inside_bar_price_in_range {MC} cfg data macd_line signal_line
    histogram (market_context : MC) timeframe latest mother c i :
  5 <= len data ->
  iloc data (-1) = Some latest -> iloc data (-2) = Some mother ->
  (High latest < High mother)%Q -> (Low mother < Low latest)%Q ->
  (Open mother < Close mother)%Q -> (Close latest < Open latest)%Q ->
  (0 <= Low latest)%Q -> (Low latest <= Close latest)%Q ->
  detect_inside_bar cfg data macd_line signal_line histogram market_context
    timeframe = Ok (c, i) ->
  i !! "price_in_range" = Some (VBool true).
Proof.
  intros Hlen Hl Hm Hh Hlo Hg Hr Hpos Hwf.
  unfold detect_inside_bar, run.
  destruct (len data <? 5) eqn:Hguard; [lia|].
  rewrite step_fact. cbn [score info]. cbv zeta.
  rewrite (scan_found data timeframe latest mother Hl Hm Hh Hlo Hg Hr).
  cbn [inside_bars_count mother_bar_idx inside_bar_indices scan_single head].
  change (1 =? 0) with false. change (1 =? 1) with true. cbv iota.
  rewrite (step_position _ _ _ (-2) eq_refl).
  rewrite (step_index _ _ _ _ Hm).
  rewrite (step_index _ _ (Some (-1)) (-1) eq_refl).
  rewrite (step_index _ _ _ _ Hl).
  rewrite (proj2 (Qltb_lt _ _) Hg), (proj2 (Qltb_lt _ _) Hr).
  cbn [andb negb].
  repeat (first [rewrite step_add | rewrite step_fact]; cbn [score info]).
  erewrite step_next; [|reflexivity]. cbn [score info].
  do 2 fall_through.
  destruct (iloc macd_line (-1)) as [m|]; [|discriminate].
  rewrite (step_index _ _ _ _ eq_refl).
  destruct (iloc signal_line (-1)) as [g|]; [|discriminate].
  rewrite (step_index _ _ _ _ eq_refl).
  fall_through.
  destruct (iloc histogram (-1)) as [x|]; [|discriminate].
  rewrite (step_index _ _ _ _ eq_refl).
  destruct (iloc histogram (-3)) as [y|]; [|discriminate].
  rewrite (step_index _ _ _ _ eq_refl).
  fall_through.
  rewrite (step_index _ _ _ (Close latest)) by (now rewrite iloc_col, Hl).
  assert (Hnear : Qle_bool (Low latest * 0.98) (Close latest) = true)
    by (apply Qle_bool_iff; lra).
  rewrite Hnear.
  erewrite step_next; [|reflexivity].
  apply (run_from_ok
           (fun s => info s !! "price_in_range" = Some (VBool true))
           (fun r : Q * facts => r.2 !! "price_in_range" = Some (VBool true)));
    [|apply lookup_insert_eq].
  unfold volume_cap. keeps_steps price_side.
  apply (keeps_call_raise _ _ _
           (fun r : Q * facts => r.2 !! "price_in_range" = None));
    [ now unfold anyhow
    | intros res Hres; eapply analyze_volume_pattern_keys;
      first [not_in_keys | eassumption]
    | intros [vs vi] Hv; keeps_steps price_side ].
Qed.

Lemma inside_bar_price_in_range_witness :
  single_inside_bar_result.2 !! "price_in_range" = Some (VBool true).
Proof.
  apply (inside_bar_price_in_range sample_config single_inside_bar [0%Q]
           [0%Q] [0%Q; 0%Q; 0%Q] tt "1wk" (mkBar 10.5 11.5 9.5 10 1000)
           (mkBar 10 12 9 11 1000) single_inside_bar_result.1);
    try reflexivity; try (vm_compute; discriminate).
Defined.

(* ------------------------------------------------------------------ *)
(** * The cup and handle: windows and handle length *)

Ltac label_side :=
  unfold handle_label_ok, ch_handle_days, ch_max_lookback in *;
  intros; cbn [info score fst snd] in *;
  repeat match goal with H : _ /\ _ |- _ => destruct H end;
  repeat split;
  first
    [ rewrite lookup_insert_ne by discriminate; assumption
    | right; Z.div_mod_to_equations; lia
    | rewrite lookup_union_r by assumption; assumption
    | assumption ].

Lemma detect_cup_handle_labels {MC} cfg data macd_line signal_line histogram
    (market_context : MC) r :
  detect_cup_handle cfg data macd_line signal_line histogram market_context
  = Ok r -> handle_label_ok (len data) r.2.
Proof.
  unfold detect_cup_handle, ch_scoring, volume_cap.
  apply (run_keeps_ok (fun s => handle_label_ok (len data) (info s))
           (fun r => handle_label_ok (len data) r.2));
    [|repeat split; left; apply lookup_empty].
  keeps_steps label_side.
  apply (keeps_call_raise _ _ _
           (fun r : Q * facts =>
              r.2 !! "short_handle" = None /\ r.2 !! "medium_handle" = None
              /\ r.2 !! "long_handle" = None));
    [ now unfold anyhow
    | intros res Hres; repeat split; eapply analyze_volume_pattern_keys;
      first [not_in_keys | eassumption]
    | intros [vs vi] Hv; keeps_steps label_side ].
Qed.

Lemma deep_handle_run :
  detect_cup_handle sample_config deep_handle_cup [0%Q] [0%Q] [] tt
  = Ok (score deep_handle_accrued, info deep_handle_accrued).
Proof. reflexivity. Qed.

Ltac for_side :=
  unfold handle_label_for in *; intros; cbv beta zeta in *;
  cbn [info score fst snd] in *;
  repeat match goal with H : _ /\ _ |- _ => destruct H end;
  first
    [ assumption
    | (split; [|split]); intros;
      first [ solve [auto]
            | rewrite lookup_insert_ne by discriminate; solve [auto]
            | rewrite lookup_union_r by assumption; solve [auto] ] ].

Lemma ch_scoring_labels cfg data macd_line signal_line s0 :
  30 <= len data ->
  info s0 !! "cup_depth" = None ->
  match ch_scoring cfg data macd_line signal_line s0 with
  | Next _ s' => handle_label_for data (info s')
  | Return r => r.2 !! "cup_depth" = None
  | Raise _ _ => True
  end.
Proof.
  intros Hlen Hs0. pose proof (ch_handle_days_range data Hlen) as Hh.
  unfold ch_scoring. cbv zeta.
  destruct (len (ch_cup_data data) <? 15); [exact Hs0|].
  destruct (iloc (col Close (ch_cup_data data)) 0) as [cup_start|];
    [|exact I].
  rewrite (step_index _ _ _ _ eq_refl).
  destruct (iloc (col Close (ch_cup_data data)) (-1)) as [cup_right|];
    [|exact I].
  rewrite (step_index _ _ _ _ eq_refl).
  destruct (_ || _); [exact Hs0|].
  destruct (Qltb cup_right _); [exact Hs0|].
  rewrite step_add. cbn [score info]. rewrite step_fact. cbn [score info].
  destruct (ch_handle_days data >? 0) eqn:Hpos; [|lia].
  rewrite step_assoc.
  destruct (iloc (col Close data) (-1)) as [current_price|]; [|exact I].
  rewrite (step_index _ _ _ _ eq_refl).
  rewrite step_assoc.
  fall_through.
  match goal with
  | |- match (?m ≫= ?k) ?s with _ => _ end =>
      set (rest := k);
      assert (Hlabel : exists s', (m ≫= rest) s = rest tt s'
                /\ handle_label_for data (info s'))
  end.
  { unfold handle_label_for, ch_handle_days, ch_max_lookback in *.
    destruct (_ >? 25) eqn:H25;
      [|destruct (_ <=? 10) eqn:H10; [|destruct (_ <=? 20) eqn:H20]];
      eexists; (split; [apply step_next; reflexivity|]);
      cbn [info score]; (split; [|split]); intros Hrange;
      first [ apply lookup_insert_eq
            | exfalso; Z.div_mod_to_equations; lia ]. }
  destruct Hlabel as (s' & -> & Hs').
  assert (Hrest : keeps (fun s => handle_label_for data (info s))
                    (fun r : Q * facts => r.2 !! "cup_depth" = None)
                    (fun _ => True) (rest tt)).
  { subst rest. cbv beta. keeps_steps for_side.
    apply (keeps_call_raise _ _ _
             (fun r : Q * facts =>
                r.2 !! "short_handle" = None /\ r.2 !! "medium_handle" = None
                /\ r.2 !! "long_handle" = None));
      [ now intros
      | intros res Hres; repeat split; eapply analyze_volume_pattern_keys;
        first [not_in_keys | eassumption]
      | intros [vs vi] Hv; keeps_steps for_side ]. }
  exact (Hrest s' Hs').
Qed.

Lemma detect_cup_handle_label_for {MC} cfg data macd_line signal_line
    histogram (market_context : MC) r :
  detect_cup_handle cfg data macd_line signal_line histogram market_context
  = Ok r ->
  is_Some (r.2 !! "cup_depth") -> handle_label_for data r.2.
Proof.
  unfold detect_cup_handle, run.
  destruct (len data <? 30) eqn:Hguard.
  { intros [= <-] [v Hv]. cbn in Hv. rewrite lookup_empty in Hv.
    discriminate. }
  pose proof (ch_scoring_labels cfg data macd_line signal_line
                (mkState 0 ∅) ltac:(lia) (lookup_empty _)) as Hscoring.
  unfold mbind at 1, stmt_bind, bind.
  destruct (ch_scoring cfg data macd_line signal_line (mkState 0 ∅))
    as [volume_info s | r' | e s].
  - intros Hrun _. revert Hrun.
    apply (run_from_ok (fun s => handle_label_for data (info s))
             (fun r => handle_label_for data r.2)); [|exact Hscoring].
    unfold volume_cap. keeps_steps for_side.
  - intros [= <-] [v Hv]. congruence.
  - discriminate.
Qed.

(** X13 (detect_cup_handle, handle length).  The handle-length fact
    depends on the number of bars alone: short_handle appears only with
    30 to 35 bars, medium_handle only with 36 to 65, long_handle only with
    81 or more, and a result that carries cup_depth (the cup was accepted)
    does carry the fact of its range, whose text is the handle length
    min(30, min(100, n - 3) // 3). *)
Theorem handle_label_by_length {MC} cfg data macd_line signal_line histogram
    (market_context : MC) c i :
  detect_cup_handle cfg data macd_line signal_line histogram market_context
  = Ok (c, i) ->
  (is_Some (i !! "short_handle") -> 30 <= len data <= 35)
  /\ (is_Some (i !! "medium_handle") -> 36 <= len data <= 65)
  /\ (is_Some (i !! "long_handle") -> 81 <= len data)
  /\ (is_Some (i !! "cup_depth") -> handle_label_for data i).
Proof.
  intros Hrun.
  destruct (detect_cup_handle_labels _ _ _ _ _ _ _ Hrun) as (Hs & Hm & Hl).
  cbn [snd] in *.
  split; [|split; [|split]].
  4: exact (detect_cup_handle_label_for _ _ _ _ _ _ _ Hrun).
  all: intros [v Hv];
    match goal with
    | H : _ = None \/ _ |- _ =>
        destruct H as [H | H]; [congruence | lia]
    end.
Qed.

Lemma handle_label_by_length_witness :
  info deep_handle_accrued !! "short_handle"
  = Some (VFmt "{} days" (Fin 9))
  /\ (is_Some (info deep_handle_accrued !! "short_handle") ->
      30 <= len deep_handle_cup <= 35)
  /\ (is_Some (info deep_handle_accrued !! "medium_handle") ->
      36 <= len deep_handle_cup <= 65)
  /\ (is_Some (info deep_handle_accrued !! "long_handle") ->
      81 <= len deep_handle_cup)
  /\ (is_Some (info deep_handle_accrued !! "cup_depth") ->
      handle_label_for deep_handle_cup (info deep_handle_accrued)).
Proof.
  split; [reflexivity|].
  apply (handle_label_by_length sample_config deep_handle_cup [0%Q] [0%Q] []
           tt (score deep_handle_accrued) (info deep_handle_accrued)).
  exact deep_handle_run.
Defined.

Lemma take_app_drop {A} (l : list A) (a b : nat) :
  (a <= b)%nat -> take (b - a) (drop a l) ++ drop b l = drop a l.
Proof.
  intros Hab. replace b with (a + (b - a))%nat at 2 by lia.
  rewrite <- drop_drop. apply take_drop.
Qed.

(** X14 (detect_cup_handle, windows).  With at least 30 bars the cup
    window and the handle window partition the last min(100, n - 3) bars,
    the cup first, and the cup has at least 18 bars: the rejection of a
    cup of fewer than 15 bars never fires. *)
Theorem cup_handle_partition data :
  30 <= len data ->
  ch_cup_data data ++ ch_handle_data data = tail (ch_max_lookback data) data
  /\ len (ch_cup_data data) + len (ch_handle_data data)
     = Z.min 100 (len data - 3)
  /\ 18 <= len (ch_cup_data data).
Proof.
  intros Hlen. pose proof (ch_handle_days_range data Hlen) as Hh.
  assert (Hd : ch_handle_days data <= ch_max_lookback data / 3)
    by (unfold ch_handle_days; lia).
  assert (Hm : 27 <= ch_max_lookback data <= len data - 3)
    by (unfold ch_max_lookback; lia).
  assert (Hm3 : 3 * (ch_max_lookback data / 3) <= ch_max_lookback data)
    by (apply Z.mul_div_le; lia).
  set (l := ch_max_lookback data) in *. set (h := ch_handle_days data) in *.
  assert (Hcup : ch_cup_data data
                 = take (Z.to_nat (len data - h) - Z.to_nat (len data - l))
                     (drop (Z.to_nat (len data - l)) data)).
  { unfold ch_cup_data. fold h l. destruct (h >? 0) eqn:E; [|lia].
    unfold slice, clamp. cbn [from_option].
    destruct (- l <? 0) eqn:E1; [|lia]. destruct (- h <? 0) eqn:E2; [|lia].
    cbv zeta. rewrite !Z.max_l by lia.
    replace (len data + - h - (len data + - l)) with (l - h) by lia.
    replace (Z.to_nat (len data - h) - Z.to_nat (len data - l))%nat
      with (Z.to_nat (l - h)) by lia.
    repeat f_equal; lia. }
  assert (Hhandle : ch_handle_data data = drop (Z.to_nat (len data - h)) data).
  { unfold ch_handle_data. fold h. destruct (h >? 0) eqn:E; [|lia].
    unfold tail. destruct (h =? 0) eqn:E0; [lia|].
    unfold slice, clamp. cbn [from_option].
    destruct (- h <? 0) eqn:E2; [|lia].
    cbv zeta. rewrite Z.max_l by lia.
    rewrite take_ge; [f_equal; lia|].
    rewrite length_drop. unfold len in *. lia. }
  assert (Htail : tail l data = drop (Z.to_nat (len data - l)) data).
  { unfold tail. destruct (l =? 0) eqn:E0; [lia|].
    unfold slice, clamp. cbn [from_option].
    destruct (- l <? 0) eqn:E2; [|lia].
    cbv zeta. rewrite Z.max_l by lia.
    rewrite take_ge; [f_equal; lia|].
    rewrite length_drop. unfold len in *. lia. }
  assert (Hl : l = Z.min 100 (len data - 3)) by reflexivity.
  rewrite Hcup, Hhandle, Htail. clearbody l h.
  split; [apply take_app_drop; lia|].
  unfold len in *. rewrite length_take, !length_drop.
  split; lia.
Qed.

Lemma cup_handle_partition_witness :
  ch_cup_data deep_handle_cup ++ ch_handle_data deep_handle_cup
  = tail (ch_max_lookback deep_handle_cup) deep_handle_cup
  /\ len (ch_cup_data deep_handle_cup) + len (ch_handle_data deep_handle_cup)
     = Z.min 100 (len deep_handle_cup - 3)
  /\ 18 <= len (ch_cup_data deep_handle_cup).
Proof.
  apply (cup_handle_partition deep_handle_cup). vm_compute. discriminate.
Defined.

(* ------------------------------------------------------------------ *)
(** * The bull flag: the recorded age *)

Lemma first_offset_seq test default n : forall a d,
  first_offset test (Z.of_nat <$> seq a n) default = Some d ->
  (d = default
   /\ forall j, Z.of_nat a <= j < Z.of_nat (a + n) -> test j = Some false)
  \/ (Z.of_nat a <= d < Z.of_nat (a + n) /\ test d = Some true
      /\ forall j, Z.of_nat a <= j < d -> test j = Some false).
Proof.
  induction n as [|n IH]; intros a d; cbn.
  - intros [= <-]. left. split; [reflexivity | intros; lia].
  - destruct (test (Z.of_nat a)) as [[]|] eqn:E; [| |discriminate].
    + intros [= <-]. right. split; [lia|]. split; [exact E | intros; lia].
    + intros H. destruct (IH (S a) d H) as [[-> Hall] | (Hr & Ht & Hb)].
      * left. split; [reflexivity|]. intros j Hj.
        destruct (Z.eq_dec j (Z.of_nat a)) as [-> | Hne];
          [exact E | apply Hall; lia].
      * right. split; [lia|]. split; [exact Ht|]. intros j Hj.
        destruct (Z.eq_dec j (Z.of_nat a)) as [-> | Hne];
          [exact E | apply Hb; lia].
Qed.

Lemma days_old_first test d :
  first_offset test range_1_11 11 = Some d ->
  1 <= d <= 11
  /\ (d <= 10 -> test d = Some true)
  /\ forall j, 1 <= j < d -> j <= 10 -> test j = Some false.
Proof.
  change range_1_11 with (Z.of_nat <$> seq 1 10).
  intros [[-> Hall] | (Hr & Ht & Hb)]%first_offset_seq.
  - split; [lia|]. split; [lia|]. intros j Hj Hj10. apply Hall. lia.
  - split; [lia|]. split; [now intros _|]. intros j Hj _. apply Hb. lia.
Qed.

Ltac age_side :=
  unfold flag_age_ok in *; intros; cbv beta in *;
  cbn [info score fst snd] in *;
  first
    [ assumption
    | solve [eauto]
    | match goal with
      | H : <["days_since_high" := _]> _ !! "days_since_high" = Some _ |- _ =>
          rewrite lookup_insert_eq in H; injection H as <-;
          eexists; split; [reflexivity|]; split; [eassumption|];
          now apply Qltb_ge
      end
    | match goal with
      | H : _ !! "days_since_high" = Some _ |- _ =>
          rewrite !lookup_insert_ne in H by discriminate;
          first [ rewrite lookup_empty in H; discriminate
                | rewrite lookup_singleton_ne in H by discriminate;
                  discriminate
                | eauto ]
      end
    | match goal with
      | H : (_ ∪ _) !! "days_since_high" = Some _ |- _ =>
          rewrite lookup_union_r in H by assumption; eauto
      end ].

Lemma detect_bull_flag_age {MC} cfg data macd_line signal_line histogram
    (market_context : MC) r :
  detect_bull_flag cfg data macd_line signal_line histogram market_context
  = Ok r -> flag_age_ok cfg data r.2.
Proof.
  unfold detect_bull_flag, volume_cap.
  apply (run_keeps_ok (fun s => flag_age_ok cfg data (info s))
           (fun r => flag_age_ok cfg data r.2)).
  2: { intros v Hv. cbn [info] in Hv. rewrite lookup_empty in Hv.
       discriminate. }
  keeps_steps age_side.
  apply (keeps_call_raise _ _ _
           (fun r : Q * facts => r.2 !! "days_since_high" = None));
    [ now unfold anyhow
    | intros res Hres; eapply analyze_volume_pattern_keys;
      first [not_in_keys | eassumption]
    | intros [vs vi] Hv; keeps_steps age_side ].
Qed.

Lemma high_test_Some data d (b : bool) :
  (h ← iloc (col High data) (- d); Some (Fin h =? bf_flag_high data)%num)
  = Some b ->
  exists h, iloc (col High data) (- d) = Some h
            /\ (Fin h =? bf_flag_high data)%num = b.
Proof.
  destruct (iloc (col High data) (- d)) as [h|]; [|discriminate].
  intros [= <-]. now exists h.
Qed.

(** X15 (detect_bull_flag, days_since_high).  The age that a result
    records is within the age limit and between 1 and 11; when it is at
    most 10 the bar that many positions from the end has the highest high
    of the last 15 bars, and no more recent bar has it. *)
Theorem bull_flag_age_is_latest_high {MC} cfg data macd_line signal_line
    histogram (market_context : MC) c i v :
  detect_bull_flag cfg data macd_line signal_line histogram market_context
  = Ok (c, i) ->
  i !! "days_since_high" = Some v ->
  exists d,
    v = VInt d /\ 1 <= d <= 11
    /\ (inject_Z d <= age_limit_bull_flag cfg)%Q
    /\ (d <= 10 ->
        exists h, iloc (col High data) (- d) = Some h
                  /\ (Fin h =? bf_flag_high data)%num = true)
    /\ (forall j, 1 <= j < d -> j <= 10 ->
        exists h, iloc (col High data) (- j) = Some h
                  /\ (Fin h =? bf_flag_high data)%num = false).
Proof.
  intros Hrun Hv.
  destruct (detect_bull_flag_age _ _ _ _ _ _ _ Hrun v Hv)
    as (d & -> & Hd & Hlimit).
  apply days_old_first in Hd as (Hrange & Hat & Hbefore).
  exists d. split; [reflexivity|]. split; [exact Hrange|].
  split; [exact Hlimit|]. split.
  - intros Hd. now apply high_test_Some, Hat.
  - intros j Hj Hj10. now apply high_test_Some, Hbefore.
Qed.

Lemma bull_flag_age_is_latest_high_witness :
  exists d,
    VInt 1 = VInt d /\ 1 <= d <= 11
    /\ (inject_Z d <= age_limit_bull_flag sample_config)%Q
    /\ (d <= 10 ->
        exists h, iloc (col High rising_flag) (- d) = Some h
                  /\ (Fin h =? bf_flag_high rising_flag)%num = true)
    /\ (forall j, 1 <= j < d -> j <= 10 ->
        exists h, iloc (col High rising_flag) (- j) = Some h
                  /\ (Fin h =? bf_flag_high rising_flag)%num = false).
Proof.
  apply (bull_flag_age_is_latest_high sample_config rising_flag [1%Q] [0%Q]
           [0%Q; 0%Q; 1%Q] tt rising_flag_result.1 rising_flag_result.2).
  - exact rising_flag_run.
  - reflexivity.
Defined.
